(** * MCP TypeScript starter: a shallow embedding and its verified properties

    The development follows the layout of the repository:

    - [Js]       the pieces of the JavaScript runtime the sources rely on
                 (truthiness, [||], [parseInt], property lookup on object
                 literals, [Number] to string conversion);
    - [Sdk]      the MCP SDK objects the sources create and call
                 ([McpServer] registries, the streamable HTTP transport);
    - [Tools]    [src/tools.ts];
    - [Prompts]  [src/prompts.ts];
    - [Resources] [src/resources.ts];
    - [Server]   [src/server.ts];
    - [Http]     [src/http.ts];
    - [System]   the operations of the running process put together.

    JavaScript numbers are IEEE-754 binary64 values: they are modelled by
    Rocq's primitive floats.  Strings are sequences of code units below 256. *)

From Stdlib Require Import ZArith String Ascii List Bool Lia QArith.
From Stdlib Require Import Floats DecimalString DecimalZ DecimalPos.
From stdpp Require Import gmap strings list.
Import ListNotations.

Local Open Scope string_scope.
Local Open Scope list_scope.
Local Open Scope Z_scope.

(* ===================================================================== *)
(** * The JavaScript runtime                                              *)
(* ===================================================================== *)

Module Js.

(** ** Truthiness and [||] on [string | undefined] *)

Definition truthy_string (s : string) : bool :=
  match s with
  | EmptyString => false
  | String _ _ => true
  end.

(** [x && ...] for [x : string | undefined]: the condition part. *)
Definition truthy_opt (x : option string) : bool :=
  match x with
  | Some s => truthy_string s
  | None => false
  end.

(** [x || d] for [x : string | undefined] and a string [d]. *)
Definition or_default (x : option string) (d : string) : string :=
  match x with
  | Some s => if truthy_string s then s else d
  | None => d
  end.

(** ** [parseInt(string, radix)] (ECMAScript 19.2.5) *)

(** The result of [parseInt]: [NaN] or the Number of a mathematical integer.
    The integer is kept as it is; the Number is the binary64 value nearest to
    it, the integer itself up to 2^53.  [parseInt("-0")] is [-0], which is
    [IntNum 0] here. *)
Inductive IntOrNaN :=
| NaN
| IntNum (z : Z).

Definition code (c : ascii) : Z := Z.of_nat (nat_of_ascii c).

(** White space and line terminators among the code units below 256. *)
Definition is_white_space (c : ascii) : bool :=
  let n := code c in
  (n =? 9) || (n =? 10) || (n =? 11) || (n =? 12) || (n =? 13)
  || (n =? 32) || (n =? 160).

Fixpoint trim_start (s : string) : string :=
  match s with
  | String c r => if is_white_space c then trim_start r else s
  | EmptyString => EmptyString
  end.

(** The value of a digit in radix [R], when it is one. *)
Definition digit_value (R : Z) (c : ascii) : option Z :=
  let n := code c in
  let v :=
    if (48 <=? n) && (n <=? 57) then Some (n - 48)
    else if (97 <=? n) && (n <=? 122) then Some (n - 87)
    else if (65 <=? n) && (n <=? 90) then Some (n - 55)
    else None in
  match v with
  | Some d => if d <? R then Some d else None
  | None => None
  end.

(** The integer written by the longest prefix of radix-[R] digits; [acc] is
    the value of the digits read so far, [None] while there is none. *)
Fixpoint digits_prefix (R : Z) (s : string) (acc : option Z) : option Z :=
  match s with
  | String c r =>
      match digit_value R c with
      | Some d => digits_prefix R r (Some (R * default 0 acc + d))
      | None => acc
      end
  | EmptyString => acc
  end.

Definition strip_sign (s : string) : Z * string :=
  match s with
  | String "-" r => (-1, r)
  | String "+" r => (1, r)
  | _ => (1, s)
  end.

Definition strip_hex_prefix (s : string) : option string :=
  match s with
  | String "0" (String "x" r) => Some r
  | String "0" (String "X" r) => Some r
  | _ => None
  end.

(** [radix] is the radix after [ToInt32]; [0] stands for an absent one. *)
Definition parseInt (s : string) (radix : Z) : IntOrNaN :=
  let '(sign, rest) := strip_sign (trim_start s) in
  if (negb (radix =? 0)) && ((radix <? 2) || (36 <? radix)) then NaN
  else
    let '(R, rest) :=
      if (radix =? 0) || (radix =? 16) then
        match strip_hex_prefix rest with
        | Some r => (16, r)
        | None => (if radix =? 0 then 10 else radix, rest)
        end
      else (radix, rest) in
    match digits_prefix R rest None with
    | None => NaN
    | Some m => IntNum (sign * m)
    end.

(** ** Property lookup on an object literal

    An object literal inherits from [Object.prototype]: a key that is not an
    own property is looked up there before the lookup yields [undefined]. *)

Inductive Value (A : Type) :=
| VUndefined
| VOwn (a : A)                 (* an own property of the literal *)
| VInherited (key : string).   (* the member [key] of [Object.prototype] *)
Arguments VUndefined {A}.
Arguments VOwn {A} a.
Arguments VInherited {A} key.

Definition Object_prototype_keys : list string :=
  [ "constructor"; "__defineGetter__"; "__defineSetter__"; "hasOwnProperty";
    "__lookupGetter__"; "__lookupSetter__"; "isPrototypeOf";
    "propertyIsEnumerable"; "toString"; "valueOf"; "__proto__";
    "toLocaleString" ].

(** [obj[key]] for an object literal with the own properties [obj]. *)
Definition get {A} (obj : gmap string A) (key : string) : Value A :=
  match obj !! key with
  | Some a => VOwn a
  | None =>
      if bool_decide (key ∈ Object_prototype_keys) then VInherited key
      else VUndefined
  end.

(** Truthiness of a looked-up string. *)
Definition truthy (v : Value string) : bool :=
  match v with
  | VUndefined => false
  | VOwn s => truthy_string s
  | VInherited _ => true      (* functions and objects are truthy *)
  end.

(** [a || b] on looked-up strings *)
Definition or (a b : Value string) : Value string := if truthy a then a else b.

(** [`${v}`]: the members of [Object.prototype] are functions, but for
    [__proto__], which is the prototype object itself; a function prints
    as its source text, which for a built-in is the line below. *)
Definition template (v : Value string) : string :=
  match v with
  | VUndefined => "undefined"
  | VOwn s => s
  | VInherited key =>
      if String.eqb key "__proto__" then "[object Object]"
      else "function " +:+ (if String.eqb key "constructor" then "Object" else key)
           +:+ "() { [native code] }"
  end.

(** ** [Number::toString] (ECMAScript 6.1.6.1.20), radix 10 *)

Definition two53 : Z := 2 ^ 53.

(** The integer a float is, when it is one of magnitude at most 2^53. *)
Definition safe_integer (x : float) : option Z :=
  match Prim2SF x with
  | S754_zero _ => Some 0
  | S754_finite s m e =>
      let v :=
        if 0 <=? e then Some (Z.pos m * 2 ^ e)
        else if Z.pos m mod 2 ^ (- e) =? 0 then Some (Z.pos m / 2 ^ (- e))
        else None in
      match v with
      | Some n => if n <=? two53 then Some (if s then - n else n) else None
      | None => None
      end
  | _ => None
  end.

Definition Z_to_string (z : Z) : string := NilZero.string_of_int (Z.to_int z).

(** [shortest_decimal] gives the digits of a finite Number that is no
    integer of magnitude up to 2^53: the shortest decimal that reads back as
    the Number, in the layout the standard prescribes. *)
Definition Number_toString (shortest_decimal : float -> string) (x : float)
  : string :=
  if PrimFloat.is_nan x then "NaN"
  else if PrimFloat.is_infinity x then
    (if PrimFloat.ltb x 0 then "-Infinity" else "Infinity")
  else
    match safe_integer x with
    | Some n => Z_to_string n
    | None => shortest_decimal x
    end.

(** The rational a finite float denotes. *)
Definition exact (x : float) : option Q :=
  match Prim2SF x with
  | S754_zero _ => Some 0%Q
  | S754_finite s m e =>
      let n := if s then Z.neg m else Z.pos m in
      Some (if 0 <=? e then inject_Z (n * 2 ^ e)
            else Qmake n (Z.to_pos (2 ^ (- e))))
  | _ => None
  end.

End Js.


(** The built-ins whose results the sources only pass on.  They are
    parameters of the development. *)
Class Runtime := {
  (** digits of a finite Number that is no integer up to 2^53 *)
  shortest_decimal : float -> string;
  (** [JSON.stringify] of a string: the quoted, escaped string *)
  JSON_quote : string -> string;
  (** [encodeURIComponent(s)]; [None] when it throws [URIError], which it
      does for a string with a lone surrogate *)
  encodeURIComponent : string -> option string;
  Math_round : float -> float;
  Math_floor : float -> float;
  (** the successive results of [crypto.randomUUID()] *)
  randomUUID : nat -> string;
}.

(* ===================================================================== *)
(** * The MCP SDK                                                         *)
(* ===================================================================== *)

(** The SDK is a dependency of the repository.  What follows is the part of
    its documented behaviour the sources observe: the registries of an
    [McpServer], which refuse a name registered twice, and the streamable
    HTTP transport, which draws a session id when it handles an initialize
    request and calls [onclose] when it is closed. *)

Module Sdk.

(** A thrown value: an [Error] object with its message, or anything else. *)
Inductive Thrown :=
| Error (message : string)
| NotAnError.

(** The outcome of a call that may throw (of a promise that may reject). *)
Inductive Result (A : Type) :=
| Ok (a : A)
| Throw (e : Thrown).
Arguments Ok {A} a.
Arguments Throw {A} e.

(** The callbacks the repository registers; a registry entry holds one. *)
Inductive ToolCallback :=
| cb_hello | cb_get_weather | cb_ask_llm | cb_long_task | cb_load_bonus_tool
| cb_confirm_action | cb_get_feedback | cb_bonus_calculator.

Inductive ResourceCallback := cb_about | cb_greeting | cb_items.

Inductive PromptCallback := cb_greet | cb_code_review.

#[export] Instance ToolCallback_eq_dec : EqDecision ToolCallback.
Proof. solve_decision. Defined.

Record McpServer := {
  registeredTools : gmap string ToolCallback;
  registeredResources : gmap string ResourceCallback;          (* by uri *)
  registeredResourceTemplates : gmap string ResourceCallback;  (* by name *)
  registeredPrompts : gmap string PromptCallback;
}.

(** [new McpServer(info, options)] *)
Definition new_McpServer : McpServer :=
  {| registeredTools := ∅; registeredResources := ∅;
     registeredResourceTemplates := ∅; registeredPrompts := ∅ |}.

(** [server.tool(name, ..., cb)]: the registry after the call.  On a
    connected server the SDK also sends a list-changed notification of
    its own, which is no call of the repository's code. *)
Definition tool (name : string) (cb : ToolCallback) (s : McpServer)
  : Result McpServer :=
  match registeredTools s !! name with
  | Some _ => Throw (Error ("Tool " +:+ name +:+ " is already registered"))
  | None =>
      Ok {| registeredTools := <[name := cb]> (registeredTools s);
            registeredResources := registeredResources s;
            registeredResourceTemplates := registeredResourceTemplates s;
            registeredPrompts := registeredPrompts s |}
  end.

(** [server.resource(name, uri, metadata, cb)] with a string [uri] *)
Definition resource (uri : string) (cb : ResourceCallback) (s : McpServer)
  : Result McpServer :=
  match registeredResources s !! uri with
  | Some _ => Throw (Error ("Resource " +:+ uri +:+ " is already registered"))
  | None =>
      Ok {| registeredTools := registeredTools s;
            registeredResources := <[uri := cb]> (registeredResources s);
            registeredResourceTemplates := registeredResourceTemplates s;
            registeredPrompts := registeredPrompts s |}
  end.

(** [server.resource(name, new ResourceTemplate(...), metadata, cb)] *)
Definition resourceTemplate (name : string) (cb : ResourceCallback)
    (s : McpServer) : Result McpServer :=
  match registeredResourceTemplates s !! name with
  | Some _ => Throw (Error ("Resource template " +:+ name +:+ " is already registered"))
  | None =>
      Ok {| registeredTools := registeredTools s;
            registeredResources := registeredResources s;
            registeredResourceTemplates :=
              <[name := cb]> (registeredResourceTemplates s);
            registeredPrompts := registeredPrompts s |}
  end.

(** [server.prompt(name, ..., cb)] *)
Definition prompt (name : string) (cb : PromptCallback) (s : McpServer)
  : Result McpServer :=
  match registeredPrompts s !! name with
  | Some _ => Throw (Error ("Prompt " +:+ name +:+ " is already registered"))
  | None =>
      Ok {| registeredTools := registeredTools s;
            registeredResources := registeredResources s;
            registeredResourceTemplates := registeredResourceTemplates s;
            registeredPrompts := <[name := cb]> (registeredPrompts s) |}
  end.

(** ** Notifications and tool results *)

Inductive Notification :=
| Progress (progressToken : string) (progress total : float)
| ToolListChanged.

Definition method (n : Notification) : string :=
  match n with
  | Progress _ _ _ => "notifications/progress"
  | ToolListChanged => "notifications/tools/list_changed"
  end.

(** Values of the fields of a flat object, and such an object. *)
Inductive JsonAtom :=
| JString (s : string)
| JNumber (x : float)
| JUndefined.

Definition JsonObject : Type := list (string * JsonAtom).

(** [{ content: [{ type: 'text', text }], isError?, structuredContent? }] *)
Record CallToolResult := {
  text : string;
  isError : bool;
  structuredContent : option JsonObject;
}.

Definition text_result (t : string) : CallToolResult :=
  {| text := t; isError := false; structuredContent := None |}.

Definition error_result (t : string) : CallToolResult :=
  {| text := t; isError := true; structuredContent := None |}.

(** ** The streamable HTTP server transport *)

Record Transport := {
  sessionId : option string;
  initialized : bool;
  closed : bool;
  connected : option nat;     (* the server [server.connect] bound to it *)
}.

(** [new StreamableHTTPServerTransport({ sessionIdGenerator })] *)
Definition new_Transport : Transport :=
  {| sessionId := None; initialized := false; closed := false;
     connected := None |}.

(** [server.connect(transport)] binds the transport to the server. *)
Definition bind_server (server : nat) (tr : Transport) : Transport :=
  {| sessionId := sessionId tr; initialized := initialized tr;
     closed := closed tr; connected := Some server |}.

Definition mark_closed (tr : Transport) : Transport :=
  {| sessionId := sessionId tr; initialized := initialized tr;
     closed := true; connected := connected tr |}.

(** The transport once it has opened the session [id]. *)
Definition open_session (id : string) (tr : Transport) : Transport :=
  {| sessionId := Some id; initialized := true;
     closed := closed tr; connected := connected tr |}.

(** The protocol payload of a request, as far as the transport
    distinguishes it: an initialize request or any other message. *)
Inductive Payload := InitializeRequest | OtherMessage.

Record Request := {
  req_method : string;                       (* [req.method] *)
  mcp_session_id : option string;            (* [req.headers['mcp-session-id']] *)
  body : Payload;                            (* [req.body] *)
}.

Inductive Body :=
| ErrorBody (error : string)        (* [{ error }] *)
| MessageBody (message : string)    (* [{ message }] *)
| ProtocolBody.                     (* what the transport writes *)

Record Response := {
  status : Z;
  session_header : option string;   (* the [mcp-session-id] response header *)
  payload : Body;
}.

Definition session_matches (t : Transport) (req : Request) : bool :=
  bool_decide (mcp_session_id req = sessionId t).

(** [transport.handleRequest(req, res, req.body)]: the transport after the
    call, the response it writes, and whether it called
    [sessionIdGenerator], whose result is [uuid].  An initialize request on
    a transport that has no session yet opens the session; every other
    request needs the session to be open and named by the request.  This
    is the part of the transport: a payload it lets through is then
    served by the connected server, which is the operation
    [System.OpCallTool] of a run when it is a tool call.  A [Request]
    carries no Accept and no Content-Type header; the refusals for these
    (406, 415) are not modelled. *)
Definition handleRequest (uuid : string) (t : Transport) (req : Request)
  : Transport * Response * bool :=
  let refuse st msg :=
    (t, {| status := st; session_header := None; payload := ErrorBody msg |},
     false) in
  let validated :=
    if negb (initialized t) then
      refuse 400 "Bad Request: Server not initialized"
    else
      match mcp_session_id req with
      | None => refuse 400 "Bad Request: Mcp-Session-Id header is required"
      | Some _ =>
          if session_matches t req then
            (t, {| status := 200; session_header := sessionId t;
                   payload := ProtocolBody |}, false)
          else refuse 404 "Session not found"
      end in
  if String.eqb (req_method req) "POST" then
    match body req with
    | InitializeRequest =>
        if initialized t then
          refuse 400 "Invalid Request: Server already initialized"
        else
          (open_session uuid t,
           {| status := 200; session_header := Some uuid;
              payload := ProtocolBody |},
           true)
    | OtherMessage => validated
    end
  else if String.eqb (req_method req) "GET" then validated
  else refuse 405 "Method not allowed.".

End Sdk.

(* ===================================================================== *)
(** * The state of the process and the effects of its code                *)
(* ===================================================================== *)

Import Sdk.

(** Objects live in two stores, one for the [McpServer] instances and one
    for the transports; a handle is an index into its store. *)
Record World := {
  (** [let bonusToolLoaded = false] of tools.ts *)
  bonusToolLoaded : bool;
  (** the [McpServer] objects created so far *)
  servers : list McpServer;
  (** the transport objects created so far *)
  transportObjects : list Transport;
  (** [const transports = new Map<string, Transport>()] of http.ts *)
  transports : gmap string nat;
  (** how many times [crypto.randomUUID()] was called *)
  uuidsDrawn : nat;
}.

(** The process as it starts. *)
Definition startup : World :=
  {| bonusToolLoaded := false; servers := []; transportObjects := [];
     transports := ∅; uuidsDrawn := 0 |}.

Definition with_bonusToolLoaded (b : bool) (w : World) : World :=
  {| bonusToolLoaded := b; servers := servers w;
     transportObjects := transportObjects w; transports := transports w;
     uuidsDrawn := uuidsDrawn w |}.

Definition with_servers (l : list McpServer) (w : World) : World :=
  {| bonusToolLoaded := bonusToolLoaded w; servers := l;
     transportObjects := transportObjects w; transports := transports w;
     uuidsDrawn := uuidsDrawn w |}.

Definition with_transportObjects (l : list Transport) (w : World) : World :=
  {| bonusToolLoaded := bonusToolLoaded w; servers := servers w;
     transportObjects := l; transports := transports w;
     uuidsDrawn := uuidsDrawn w |}.

Definition with_transports (m : gmap string nat) (w : World) : World :=
  {| bonusToolLoaded := bonusToolLoaded w; servers := servers w;
     transportObjects := transportObjects w; transports := m;
     uuidsDrawn := uuidsDrawn w |}.

Definition with_uuidsDrawn (n : nat) (w : World) : World :=
  {| bonusToolLoaded := bonusToolLoaded w; servers := servers w;
     transportObjects := transportObjects w; transports := transports w;
     uuidsDrawn := n |}.

(** What the code of the repository does that the outside can see, in the
    order it does it.  What the SDK sends of its own accord, such as the
    list-changed notification of [McpServer.tool] on a connected server,
    is not among the events. *)
Inductive Event :=
| SendNotification (n : Notification)  (* [extra.sendNotification(n)] called *)
| SetTimeout (ms : Z)                  (* a timer of [ms] ms was awaited *)
| Respond (r : Response)               (* an HTTP response was written *)
| TableSet (id : string) (t : nat)     (* [transports.set(id, t)] *)
| TableDelete (id : string)            (* [transports.delete(id)] *)
| ConsoleLog (line : string).

(** Code that reads and writes the state, emits events and may throw.  A
    throw keeps the state and the events of what ran before it. *)
Definition M (A : Type) : Type := World -> Result A * World * list Event.

#[export] Instance M_ret : MRet M := fun A a w => (Ok a, w, []).

#[export] Instance M_bind : MBind M := fun A B f m w =>
  match m w with
  | (Ok a, w1, l1) => let '(r, w2, l2) := f a w1 in (r, w2, l1 ++ l2)
  | (Throw e, w1, l1) => (Throw e, w1, l1)
  end.

Definition throw {A} (e : Thrown) : M A := fun w => (Throw e, w, []).

Definition emit (e : Event) : M unit := fun w => (Ok tt, w, [e]).

Definition read {A} (f : World -> A) : M A := fun w => (Ok (f w), w, []).

Definition update (f : World -> World) : M unit := fun w => (Ok tt, f w, []).

(** The outcome of a call made outside the process, awaited. *)
Definition await {A} (r : Result A) : M A :=
  match r with
  | Ok a => mret a
  | Throw e => throw e
  end.

(** [try { body } catch (error) { handler(error) }] *)
Definition try_catch {A} (body : M A) (handler : Thrown -> M A) : M A :=
  fun w =>
    match body w with
    | (Ok a, w1, l1) => (Ok a, w1, l1)
    | (Throw e, w1, l1) =>
        let '(r, w2, l2) := handler e w1 in (r, w2, l1 ++ l2)
    end.

Definition result_of {A} (x : Result A * World * list Event) : Result A :=
  x.1.1.
Definition world_of {A} (x : Result A * World * list Event) : World :=
  x.1.2.
Definition events_of {A} (x : Result A * World * list Event) : list Event :=
  x.2.

(** What the connected client and the runtime answer during one
    invocation of a handler. *)
Inductive SamplingContent := TextContent (t : string) | NonTextContent.

Inductive ElicitAction := accept | decline | cancel.

Record ElicitContent := {
  confirm : option bool;      (* [content.confirm] *)
  reason : option string;     (* [content.reason] *)
}.

Record ElicitResult := {
  action : ElicitAction;
  content : option ElicitContent;
}.

Inductive ElicitParams :=
| FormElicit (message : string)
| UrlElicit (message elicitationId url : string).

Record Environment := {
  (** [extra.sendNotification] *)
  sendNotification : Notification -> Result unit;
  (** [server.server.createMessage]: the prompt and [maxTokens] *)
  createMessage : string -> float -> Result SamplingContent;
  (** [server.server.elicitInput] *)
  elicitInput : ElicitParams -> Result ElicitResult;
  (** the successive results of [Math.random()] *)
  Math_random : nat -> float;
  (** [Date.now()] *)
  Date_now : Z;
}.

(** [await extra.sendNotification(n)]: the call is seen from outside
    whether the promise resolves or rejects. *)
Definition extra_sendNotification (env : Environment) (n : Notification)
  : M unit :=
  emit (SendNotification n);;
  await (sendNotification env n).

Definition nl : string := String (ascii_of_nat 10) EmptyString.
Definition dq : string := String (ascii_of_nat 34) EmptyString.

Definition message_of (error : Thrown) : string :=
  match error with
  | Error m => m                 (* [error instanceof Error ? error.message] *)
  | NotAnError => "Unknown error"
  end.

(* ===================================================================== *)
(** * src/tools.ts                                                        *)
(* ===================================================================== *)

Module Tools.

Section WithRuntime.

Context `{rt : Runtime}.

(** [`${x}`] for a Number [x] *)
Definition Number_toString : float -> string :=
  Js.Number_toString shortest_decimal.

(** [server.tool(name, description, schema, annotations, cb)] on the server
    object [srv].  A handle always names an object of the store; the last
    case is there for totality. *)
Definition server_tool (srv : nat) (name : string) (cb : ToolCallback)
  : M unit :=
  fun w =>
    match servers w !! srv with
    | Some s =>
        match Sdk.tool name cb s with
        | Ok s' => (Ok tt, with_servers (<[srv := s']> (servers w)) w, [])
        | Throw e => (Throw e, w, [])
        end
    | None => (Throw NotAnError, w, [])
    end.

(** ** hello *)

Definition hello (name : string) : CallToolResult :=
  text_result ("Hello, " +:+ name +:+ "! Welcome to MCP.").

(** ** get_weather *)

Definition JSON_atom (a : JsonAtom) : option string :=
  match a with
  | JString s => Some (JSON_quote s)
  | JNumber x =>
      Some (if PrimFloat.is_nan x || PrimFloat.is_infinity x then "null"
            else Number_toString x)
  | JUndefined => None
  end.

(** The lines of the members of an object, for an indentation of two. *)
Fixpoint JSON_members (fields : JsonObject) : list string :=
  match fields with
  | [] => []
  | (k, v) :: rest =>
      match JSON_atom v with
      | Some s => ("  " +:+ JSON_quote k +:+ ": " +:+ s) :: JSON_members rest
      | None => JSON_members rest
      end
  end.

Fixpoint join (sep : string) (l : list string) : string :=
  match l with
  | [] => ""
  | [x] => x
  | x :: rest => x +:+ sep +:+ join sep rest
  end.

(** [JSON.stringify(obj, null, 2)] for a flat object *)
Definition JSON_stringify_2 (obj : JsonObject) : string :=
  match JSON_members obj with
  | [] => "{}"
  | ms => "{" +:+ nl +:+ join ("," +:+ nl) ms +:+ nl +:+ "}"
  end.

(** [array[x]] for a Number [x] *)
Definition array_get (l : list string) (x : float) : JsonAtom :=
  match Js.safe_integer x with
  | Some z =>
      if (0 <=? z)%Z then
        match l !! Z.to_nat z with
        | Some s => JString s
        | None => JUndefined
        end
      else JUndefined
  | None => JUndefined
  end.

Definition get_weather (env : Environment) (city : string) : CallToolResult :=
  let weather : JsonObject :=
    [ ("location", JString city);
      ("temperature",
        JNumber (Math_round (15 + Math_random env 0 * 20)%float));
      ("unit", JString "celsius");
      ("conditions",
        array_get ["sunny"; "cloudy"; "rainy"; "windy"]
          (Math_floor (Math_random env 1 * 4)%float));
      ("humidity",
        JNumber (Math_round (40 + Math_random env 2 * 40)%float)) ] in
  {| text := JSON_stringify_2 weather; isError := false;
     structuredContent := Some weather |}.

(** ** ask_llm *)

Definition ask_llm (env : Environment) (prompt : string)
    (maxTokens : option float) : M CallToolResult :=
  try_catch
    (result ← await (createMessage env prompt (default 100%float maxTokens));
     mret (text_result
             ("LLM Response: " +:+
              match result with
              | TextContent t => t
              | NonTextContent => "[non-text response]"
              end)))
    (fun error =>
       mret (error_result
               ("Sampling not supported or failed: " +:+ message_of error))).

(** ** long_task *)

Definition progress_notification (i numSteps : float) : Notification :=
  Progress "long_task" (i / numSteps)%float 1%float.

(** The loop [for (let i = 0; i < numSteps; i++) { ... }], started at [i].
    [fuel] bounds the number of iterations that are run; the result tells
    whether the loop came to its end within them. *)
Fixpoint long_task_loop (env : Environment) (fuel : nat) (i numSteps : float)
  : M bool :=
  if (i <? numSteps)%float then
    match fuel with
    | O => mret false
    | S fuel' =>
        extra_sendNotification env (progress_notification i numSteps);;
        emit (SetTimeout 1000);;
        long_task_loop env fuel' (i + 1)%float numSteps
    end
  else mret true.

(** The handler; [None] when the loop is still running after [fuel]
    iterations. *)
Definition long_task (env : Environment) (fuel : nat) (taskName : string)
    (steps : option float) : M (option CallToolResult) :=
  let numSteps := default 5%float steps in
  finished ← long_task_loop env fuel 0%float numSteps;
  if finished : bool then
    mret (Some (text_result
                  ("Task " +:+ dq +:+ taskName +:+ dq +:+
                   " completed successfully after " +:+
                   Number_toString numSteps +:+ " steps!")))
  else mret None.

(** ** load_bonus_tool and bonus_calculator *)

(** [z.enum(['add', 'subtract', 'multiply', 'divide'])] *)
Inductive Operation := add | subtract | multiply | divide.

Definition operation_name (o : Operation) : string :=
  match o with
  | add => "add"
  | subtract => "subtract"
  | multiply => "multiply"
  | divide => "divide"
  end.

(** The object literal [ops] of the handler. *)
Definition ops (a b : float) : gmap string float :=
  <["add" := (a + b)%float]>
  (<["subtract" := (a - b)%float]>
  (<["multiply" := (a * b)%float]>
  (<["divide" := if negb (b =? 0)%float then (a / b)%float else nan]> ∅))).

(** [`${v}`] for [v : number | undefined] *)
Definition template_number (v : option float) : string :=
  match v with
  | Some x => Number_toString x
  | None => "undefined"
  end.

Definition bonus_calculator (a b : float) (operation : Operation)
  : CallToolResult :=
  text_result
    (Number_toString a +:+ " " +:+ operation_name operation +:+ " " +:+
     Number_toString b +:+ " = " +:+
     template_number (ops a b !! operation_name operation)).

Definition already_loaded : string :=
  "Bonus tool is already loaded! Try calling 'bonus_calculator'.".

Definition has_been_loaded : string :=
  "Bonus tool 'bonus_calculator' has been loaded! The tools list has been updated.".

(** The handler of load_bonus_tool registered on the server object [srv]. *)
Definition load_bonus_tool (srv : nat) (env : Environment)
  : M CallToolResult :=
  loaded ← read bonusToolLoaded;
  if loaded : bool then mret (text_result already_loaded)
  else
    server_tool srv "bonus_calculator" cb_bonus_calculator;;
    update (with_bonusToolLoaded true);;
    extra_sendNotification env ToolListChanged;;
    mret (text_result has_been_loaded).

(** ** confirm_action *)

Definition confirm_action (env : Environment) (action_text : string)
    (destructive : option bool) : M CallToolResult :=
  try_catch
    (let warningText :=
       if default false destructive
       then " (WARNING: This action is destructive!)" else "" in
     result ← await (elicitInput env
                       (FormElicit ("Please confirm: " +:+ action_text
                                    +:+ warningText)));
     match action result with
     | accept =>
         let c := default {| confirm := None; reason := None |}
                    (content result) in
         if default false (confirm c) then
           mret (text_result
                   ("Action confirmed: " +:+ action_text +:+ nl +:+
                    "Reason: " +:+
                    Js.or_default (reason c) "No reason provided"))
         else
           mret (text_result ("Action declined by user: " +:+ action_text))
     | decline =>
         mret (text_result ("User declined to respond for: " +:+ action_text))
     | cancel =>
         mret (text_result ("User cancelled elicitation for: "
                            +:+ action_text))
     end)
    (fun error =>
       mret (error_result
               ("Elicitation not supported or failed: "
                +:+ message_of error))).

(** ** get_feedback *)

(** [feedbackUrl] is computed before the [try]: what
    [encodeURIComponent] throws leaves the handler. *)
Definition URIError : Thrown := Error "URI malformed".

Definition get_feedback (env : Environment) (question : string)
  : M CallToolResult :=
  encoded ← await (match encodeURIComponent question with
                   | Some encoded => Ok encoded
                   | None => Throw URIError
                   end);
  let feedbackUrl :=
    "https://github.com/SamMorrowDrums/mcp-starters/issues/new?template=workshop-feedback.yml&title="
    +:+ encoded in
  try_catch
    (result ← await (elicitInput env
                       (UrlElicit
                          ("Please answer this question: " +:+ question)
                          ("feedback-" +:+ Js.Z_to_string (Date_now env))
                          feedbackUrl));
     match action result with
     | accept => mret (text_result "Thank you for providing your answer!")
     | decline =>
         mret (text_result
                 ("No problem! You can answer the question anytime at: "
                  +:+ feedbackUrl))
     | cancel => mret (text_result "Feedback request cancelled.")
     end)
    (fun error =>
       mret (text_result
               ("URL elicitation not supported or failed: "
                +:+ message_of error +:+ nl +:+ nl +:+
                "You can still answer at: " +:+ feedbackUrl))).

(** ** registerTools *)

Definition registerHelloTool (srv : nat) : M unit :=
  server_tool srv "hello" cb_hello.
Definition registerWeatherTool (srv : nat) : M unit :=
  server_tool srv "get_weather" cb_get_weather.
Definition registerAskLlmTool (srv : nat) : M unit :=
  server_tool srv "ask_llm" cb_ask_llm.
Definition registerLongTaskTool (srv : nat) : M unit :=
  server_tool srv "long_task" cb_long_task.
Definition registerLoadBonusTool (srv : nat) : M unit :=
  server_tool srv "load_bonus_tool" cb_load_bonus_tool.
Definition registerConfirmActionTool (srv : nat) : M unit :=
  server_tool srv "confirm_action" cb_confirm_action.
Definition registerGetFeedbackTool (srv : nat) : M unit :=
  server_tool srv "get_feedback" cb_get_feedback.

Definition registerTools (srv : nat) : M unit :=
  registerHelloTool srv;;
  registerWeatherTool srv;;
  registerAskLlmTool srv;;
  registerLongTaskTool srv;;
  registerLoadBonusTool srv;;
  registerConfirmActionTool srv;;
  registerGetFeedbackTool srv.

End WithRuntime.

End Tools.

(* ===================================================================== *)
(** * src/prompts.ts                                                      *)
(* ===================================================================== *)

Module Prompts.

(** [{ messages: [{ role: 'user', content: { type: 'text', text } }] }].
    The type checker takes [text] for a string; what it is at run time is
    what the property lookup yields. *)
Record GetPromptResult (T : Type) := {
  role : string;
  prompt_text : T;
}.
Arguments role {T} _.
Arguments prompt_text {T} _.

Definition formal_text (name : string) : string :=
  "Please compose a formal, professional greeting for " +:+ name +:+ ".".
Definition casual_text (name : string) : string :=
  "Write a casual, friendly hello to " +:+ name +:+ ".".
Definition enthusiastic_text (name : string) : string :=
  "Create an excited, enthusiastic greeting for " +:+ name +:+ "!".

(** The object literal [styles] of the greet prompt. *)
Definition styles (name : string) : gmap string string :=
  <["formal" := formal_text name]>
  (<["casual" := casual_text name]>
  (<["enthusiastic" := enthusiastic_text name]> ∅)).

(** The handler of the greet prompt. *)
Definition greet (name : string) (style : option string)
  : GetPromptResult (Js.Value string) :=
  let text :=
    Js.or (Js.get (styles name) (Js.or_default style "casual"))
          (Js.get (styles name) "casual") in
  {| role := "user"; prompt_text := text |}.

Definition focusInstructions : gmap string string :=
  <["security" :=
      "Focus on security vulnerabilities and potential exploits."]>
  (<["performance" :=
      "Focus on performance optimizations and efficiency issues."]>
  (<["readability" :=
      "Focus on code clarity, naming, and maintainability."]>
  (<["all" :=
      "Provide a comprehensive review covering security, performance, and readability."]>
   ∅))).

Definition fence : string := "```".

(** The handler of the code_review prompt. *)
Definition code_review (code language : string) (focus : option string)
  : GetPromptResult string :=
  let instruction :=
    Js.or (Js.get focusInstructions (Js.or_default focus "all"))
          (Js.get focusInstructions "all") in
  {| role := "user";
     prompt_text :=
       "Please review the following " +:+ language +:+ " code. " +:+
       Js.template instruction +:+ nl +:+ nl +:+
       fence +:+ language +:+ nl +:+ code +:+ nl +:+ fence |}.

(** [server.prompt(name, description, schema, cb)] on the server [srv] *)
Definition server_prompt (srv : nat) (name : string) (cb : PromptCallback)
  : M unit :=
  fun w =>
    match servers w !! srv with
    | Some s =>
        match Sdk.prompt name cb s with
        | Ok s' => (Ok tt, with_servers (<[srv := s']> (servers w)) w, [])
        | Throw e => (Throw e, w, [])
        end
    | None => (Throw NotAnError, w, [])
    end.

Definition registerGreetPrompt (srv : nat) : M unit :=
  server_prompt srv "greet" cb_greet.
Definition registerCodeReviewPrompt (srv : nat) : M unit :=
  server_prompt srv "code_review" cb_code_review.

Definition registerPrompts (srv : nat) : M unit :=
  registerGreetPrompt srv;;
  registerCodeReviewPrompt srv.

End Prompts.

(* ===================================================================== *)
(** * src/resources.ts                                                    *)
(* ===================================================================== *)

Module Resources.

Section WithRuntime.

Context `{rt : Runtime}.

Record Item := { item_name : string; description : string }.

Definition ITEMS_DATA : gmap string Item :=
  <["1" := {| item_name := "Widget"; description := "A useful widget" |}]>
  (<["2" := {| item_name := "Gadget"; description := "A fancy gadget" |}]>
  (<["3" := {| item_name := "Gizmo"; description := "A mysterious gizmo" |}]>
   ∅)).

(** [{ contents: [{ uri, mimeType, text }] }] *)
Record ReadResourceResult := {
  uri : string;
  mimeType : string;
  resource_text : string;
}.

Definition about_text : string :=
  "MCP TypeScript Starter v1.0.0" +:+ nl +:+ nl +:+
  "This is a feature-complete MCP server demonstrating:" +:+ nl +:+
  "- Tools with annotations and structured output" +:+ nl +:+
  "- Resources (static and dynamic)" +:+ nl +:+
  "- Resource templates" +:+ nl +:+
  "- Prompts with completions" +:+ nl +:+
  "- Sampling, progress updates, and dynamic tool loading" +:+ nl +:+ nl +:+
  "For more information, visit: https://modelcontextprotocol.io".

Definition about : ReadResourceResult :=
  {| uri := "info://about"; mimeType := "text/plain";
     resource_text := about_text |}.

Definition greeting (href name : string) : ReadResourceResult :=
  {| uri := href; mimeType := "text/plain";
     resource_text :=
       "Hello, " +:+ name +:+ "! This greeting was generated just for you." |}.

(** The handler of the item template; [{ id, ...item }] has the own
    enumerable properties of [item] after [id], and a member of
    [Object.prototype] has none. *)
Definition items (href id : string) : Result ReadResourceResult :=
  let spread :=
    match Js.get ITEMS_DATA id with
    | Js.VUndefined => None
    | Js.VOwn item =>
        Some [ ("name", JString (item_name item));
               ("description", JString (description item)) ]
    | Js.VInherited _ => Some []
    end in
  match spread with
  | None => Throw (Error ("Item not found: " +:+ id))
  | Some fields =>
      Ok {| uri := href; mimeType := "application/json";
            resource_text :=
              Tools.JSON_stringify_2 (("id", JString id) :: fields) |}
  end.

Definition server_resource (srv : nat) (uri : string) (cb : ResourceCallback)
  : M unit :=
  fun w =>
    match servers w !! srv with
    | Some s =>
        match Sdk.resource uri cb s with
        | Ok s' => (Ok tt, with_servers (<[srv := s']> (servers w)) w, [])
        | Throw e => (Throw e, w, [])
        end
    | None => (Throw NotAnError, w, [])
    end.

Definition server_resourceTemplate (srv : nat) (name : string)
    (cb : ResourceCallback) : M unit :=
  fun w =>
    match servers w !! srv with
    | Some s =>
        match Sdk.resourceTemplate name cb s with
        | Ok s' => (Ok tt, with_servers (<[srv := s']> (servers w)) w, [])
        | Throw e => (Throw e, w, [])
        end
    | None => (Throw NotAnError, w, [])
    end.

Definition registerAboutResource (srv : nat) : M unit :=
  server_resource srv "info://about" cb_about.
Definition registerGreetingTemplate (srv : nat) : M unit :=
  server_resourceTemplate srv "Personalized Greeting" cb_greeting.
Definition registerItemsTemplate (srv : nat) : M unit :=
  server_resourceTemplate srv "Item Data" cb_items.

Definition registerResources (srv : nat) : M unit :=
  registerAboutResource srv;;
  registerGreetingTemplate srv;;
  registerItemsTemplate srv.

End WithRuntime.

End Resources.

(* ===================================================================== *)
(** * src/server.ts                                                       *)
(* ===================================================================== *)

Module Server.

(** [new McpServer(...)]: a new object in the store, and its handle. *)
Definition new_server : M nat :=
  fun w =>
    (Ok (length (servers w)),
     with_servers (servers w ++ [new_McpServer]) w, []).

Definition createServer : M nat :=
  server ← new_server;
  Tools.registerTools server;;
  Resources.registerResources server;;
  Prompts.registerPrompts server;;
  mret server.

End Server.

(* ===================================================================== *)
(** * src/http.ts                                                         *)
(* ===================================================================== *)

Module Http.

(** [const PORT = parseInt(process.env.PORT || '3000', 10)], as a function
    of the value of the environment variable. *)
Definition PORT (env_PORT : option string) : Js.IntOrNaN :=
  Js.parseInt (Js.or_default env_PORT "3000") 10.

Section WithRuntime.

Context `{rt : Runtime}.

(** [transports.has(id)] *)
Definition has (id : string) (w : World) : bool :=
  bool_decide (is_Some (transports w !! id)).

(** [sessionId && transports.has(sessionId)], with the transport
    [transports.get(sessionId)!] when it holds. *)
Definition known (sessionId : option string) (w : World) : option nat :=
  match sessionId with
  | Some id => if Js.truthy_string id then transports w !! id else None
  | None => None
  end.

(** [res.status(s).json(b)] *)
Definition respond (s : Z) (b : Body) : M unit :=
  emit (Respond {| status := s; session_header := None; payload := b |}).

(** [new StreamableHTTPServerTransport(...)]: a new object in the store. *)
Definition new_transport : M nat :=
  fun w =>
    (Ok (length (transportObjects w)),
     with_transportObjects (transportObjects w ++ [new_Transport]) w, []).

(** [await server.connect(transport)] *)
Definition connect (server t : nat) : M unit :=
  update (fun w =>
    with_transportObjects
      (alter (bind_server server) t (transportObjects w)) w).

(** [await transport.handleRequest(req, res, req.body)] on the transport
    object [t] *)
Definition transport_handleRequest (t : nat) (req : Request) : M unit :=
  fun w =>
    match transportObjects w !! t with
    | Some tr =>
        let '(tr', resp, drew) :=
          Sdk.handleRequest (randomUUID (uuidsDrawn w)) tr req in
        (Ok tt,
         with_uuidsDrawn (if drew : bool then S (uuidsDrawn w)
                          else uuidsDrawn w)
           (with_transportObjects (<[t := tr']> (transportObjects w)) w),
         [Respond resp])
    | None => (Throw NotAnError, w, [])
    end.

(** [transports.delete(id)] *)
Definition table_delete (id : string) : M unit :=
  update (fun w => with_transports (delete id (transports w)) w);;
  emit (TableDelete id).

(** [transports.set(id, t)] *)
Definition table_set (id : string) (t : nat) : M unit :=
  update (fun w => with_transports (<[id := t]> (transports w)) w);;
  emit (TableSet id t).

(** The [onclose] callback http.ts gives to the transport object [t]. *)
Definition onclose (t : nat) : M unit :=
  tr ← read (fun w => transportObjects w !! t);
  match tr ≫= sessionId with
  | Some id =>
      if Js.truthy_string id then
        table_delete id;;
        emit (ConsoleLog ("Session closed: " +:+ id))
      else mret tt
  | None => mret tt
  end.

(** [await transport.close()]: the transport closes and calls [onclose]. *)
Definition transport_close (t : nat) : M unit :=
  update (fun w =>
    with_transportObjects (alter mark_closed t (transportObjects w)) w);;
  onclose t.

(** The POST branch up to and including
    [await transport.handleRequest(req, res, req.body)]: the transport of
    the session named by the request, or else a new server and a new
    transport, and the dispatch of the request to it.  The rest of the
    branch is [post_store]. *)
Definition post_dispatch (req : Request) : M nat :=
  known_transport ← read (known (mcp_session_id req));
  transport ←
    match known_transport with
    | Some transport => mret transport
    | None =>
        server ← Server.createServer;
        transport ← new_transport;
        connect server transport;;
        mret transport
    end;
  transport_handleRequest transport req;;
  mret transport.

(** The rest of the POST branch: store the transport once [handleRequest]
    has set its session id. *)
Definition post_store (transport : nat) : M unit :=
  tr ← read (fun w => transportObjects w !! transport);
  match tr ≫= sessionId with
  | Some id =>
      stored ← read (has id);
      if Js.truthy_string id && negb stored then
        table_set id transport;;
        emit (ConsoleLog ("New session: " +:+ id))
      else mret tt
  | None => mret tt
  end.

(** [app.all('/mcp', async (req, res) => { ... })] *)
Definition handle (req : Request) : M unit :=
  let sessionId := mcp_session_id req in
  if String.eqb (req_method req) "GET" then
    t ← read (known sessionId);
    match t with
    | None => respond 400 (ErrorBody "Invalid or missing session ID")
    | Some transport => transport_handleRequest transport req
    end
  else if String.eqb (req_method req) "POST" then
    transport ← post_dispatch req;
    post_store transport
  else if String.eqb (req_method req) "DELETE" then
    t ← read (known sessionId);
    match t with
    | Some transport =>
        transport_close transport;;
        table_delete (default "" sessionId);;
        respond 200 (MessageBody "Session closed")
    | None => respond 404 (ErrorBody "Session not found")
    end
  else respond 405 (ErrorBody "Method not allowed").

(** [app.get('/health', ...)] *)
Record Health := {
  health_status : string;
  health_server : string;
  version : string;
  sessions : nat;
}.

Definition health (w : World) : Health :=
  {| health_status := "ok"; health_server := "mcp-typescript-starter";
     version := "1.0.0"; sessions := size (transports w) |}.

End WithRuntime.

End Http.

(* ===================================================================== *)
(** * The running process                                                 *)
(* ===================================================================== *)

Module System.

Section WithRuntime.

Context `{rt : Runtime}.

(** The arguments of a tool call once the schema of the tool has accepted
    them. *)
Inductive ToolArguments :=
| HelloArgs (name : string)
| WeatherArgs (city : string)
| AskLlmArgs (prompt : string) (maxTokens : option float)
| LongTaskArgs (taskName : string) (steps : option float)
| NoArgs
| ConfirmActionArgs (action_text : string) (destructive : option bool)
| FeedbackArgs (question : string)
| CalculatorArgs (a b : float) (operation : Tools.Operation).

Definition some {A} (m : M A) : M (option A) := a ← m; mret (Some a).

(** The callback [cb] of the server object [srv] called on [args].  The
    schema of load_bonus_tool is empty and accepts every object. *)
Definition run_callback (srv : nat) (cb : ToolCallback) (args : ToolArguments)
    (env : Environment) (fuel : nat) : M (option CallToolResult) :=
  match cb, args with
  | cb_hello, HelloArgs name => mret (Some (Tools.hello name))
  | cb_get_weather, WeatherArgs city => mret (Some (Tools.get_weather env city))
  | cb_ask_llm, AskLlmArgs prompt maxTokens =>
      some (Tools.ask_llm env prompt maxTokens)
  | cb_long_task, LongTaskArgs taskName steps =>
      Tools.long_task env fuel taskName steps
  | cb_load_bonus_tool, _ => some (Tools.load_bonus_tool srv env)
  | cb_confirm_action, ConfirmActionArgs a d =>
      some (Tools.confirm_action env a d)
  | cb_get_feedback, FeedbackArgs q => some (Tools.get_feedback env q)
  | cb_bonus_calculator, CalculatorArgs a b operation =>
      mret (Some (Tools.bonus_calculator a b operation))
  | _, _ => throw (Error "Invalid arguments")
  end.

(** The message of the protocol error (invalid parameters) for a tool
    that is not registered. *)
Definition tool_not_found (name : string) : string :=
  "MCP error -32602: Tool " +:+ name +:+ " not found".

(** A [tools/call] request as the SDK serves it on the server object
    [srv]: a name that is not registered comes back as an error result
    with that message, and what the callback throws comes back as an
    error result too. *)
Definition callTool (srv : nat) (name : string) (args : ToolArguments)
    (env : Environment) (fuel : nat) : M (option CallToolResult) :=
  s ← read (fun w => servers w !! srv);
  match s ≫= (fun s => registeredTools s !! name) with
  | None => mret (Some (error_result (tool_not_found name)))
  | Some cb =>
      try_catch (run_callback srv cb args env fuel)
        (fun error => mret (Some (error_result (message_of error))))
  end.

Inductive PromptArguments :=
| GreetArgs (name : string) (style : option string)
| CodeReviewArgs (code language : string) (focus : option string).

Inductive ResourceRequest :=
| ReadAbout
| ReadGreeting (href name : string)
| ReadItem (href id : string).

(** What the process does, one operation at a time. *)
Inductive Op :=
| OpCreateServer
| OpCallTool (srv : nat) (name : string) (args : ToolArguments)
    (env : Environment) (fuel : nat)
| OpGetPrompt (args : PromptArguments)
| OpReadResource (r : ResourceRequest)
| OpExchange (req : Request)            (* a request to /mcp *)
| OpHealth                              (* a request to /health *)
| OpTransportClosed (t : nat).          (* a transport closes by itself *)

Inductive Outcome :=
| Created (srv : nat)
| ToolResult (r : option CallToolResult)
| PromptResult (r : Prompts.GetPromptResult (Js.Value string) +
                    Prompts.GetPromptResult string)
| ResourceResult (r : Result Resources.ReadResourceResult)
| HealthResult (h : Http.Health)
| Done.

Definition run (op : Op) : M Outcome :=
  match op with
  | OpCreateServer => srv ← Server.createServer; mret (Created srv)
  | OpCallTool srv name args env fuel =>
      r ← callTool srv name args env fuel; mret (ToolResult r)
  | OpGetPrompt (GreetArgs name style) =>
      mret (PromptResult (inl (Prompts.greet name style)))
  | OpGetPrompt (CodeReviewArgs code language focus) =>
      mret (PromptResult (inr (Prompts.code_review code language focus)))
  | OpReadResource ReadAbout => mret (ResourceResult (Ok Resources.about))
  | OpReadResource (ReadGreeting href name) =>
      mret (ResourceResult (Ok (Resources.greeting href name)))
  | OpReadResource (ReadItem href id) =>
      mret (ResourceResult (Resources.items href id))
  | OpExchange req => Http.handle req;; mret Done
  | OpHealth => h ← read Http.health; mret (HealthResult h)
  | OpTransportClosed t => Http.transport_close t;; mret Done
  end.

Definition step (op : Op) (w : World) : World := world_of (run op w).

(** The state after the operations [ops], the first one first. *)
Fixpoint exec (ops : list Op) (w : World) : World :=
  match ops with
  | [] => w
  | op :: rest => exec rest (step op w)
  end.

(** Whether [op] is a call of load_bonus_tool on a server object of [w]. *)
Definition loads_bonus (op : Op) (w : World) : bool :=
  match op with
  | OpCallTool srv name _ _ _ =>
      String.eqb name "load_bonus_tool"
      && bool_decide (srv < length (servers w))%nat
  | _ => false
  end.

End WithRuntime.

End System.

(** A runtime and a client to run closed examples with. *)
Definition example_runtime : Runtime :=
  {| shortest_decimal := fun _ => "";
     JSON_quote := fun s => dq +:+ s +:+ dq;
     encodeURIComponent := fun s => Some s;
     Math_round := fun x => x;
     Math_floor := fun x => x;
     randomUUID := fun k => "uuid-" +:+ Js.Z_to_string (Z.of_nat k) |}.

(** A client that takes every notification and supports neither sampling
    nor elicitation. *)
Definition quiet_client : Environment :=
  {| sendNotification := fun _ => Ok tt;
     createMessage := fun _ _ => Throw (Error "Method not found");
     elicitInput := fun _ => Throw (Error "Method not found");
     Math_random := fun _ => 0%float;
     Date_now := 0 |}.

(** A client whose connection is gone: it takes no notification. *)
Definition gone_client : Environment :=
  {| sendNotification := fun _ => Throw (Error "Not connected");
     createMessage := fun _ _ => Throw (Error "Not connected");
     elicitInput := fun _ => Throw (Error "Not connected");
     Math_random := fun _ => 0%float;
     Date_now := 0 |}.

(** The registries of a server as [createServer] leaves it. *)
Definition base_tools : gmap string ToolCallback :=
  <["get_feedback" := cb_get_feedback]>
  (<["confirm_action" := cb_confirm_action]>
  (<["load_bonus_tool" := cb_load_bonus_tool]>
  (<["long_task" := cb_long_task]>
  (<["ask_llm" := cb_ask_llm]>
  (<["get_weather" := cb_get_weather]>
  (<["hello" := cb_hello]> ∅)))))).

Definition base_server : McpServer :=
  {| registeredTools := base_tools;
     registeredResources := <["info://about" := cb_about]> ∅;
     registeredResourceTemplates :=
       <["Item Data" := cb_items]>
       (<["Personalized Greeting" := cb_greeting]> ∅);
     registeredPrompts :=
       <["code_review" := cb_code_review]> (<["greet" := cb_greet]> ∅) |}.

(** A server on which load_bonus_tool has registered the calculator. *)
Definition with_bonus (s : McpServer) : McpServer :=
  {| registeredTools :=
       <["bonus_calculator" := cb_bonus_calculator]> (registeredTools s);
     registeredResources := registeredResources s;
     registeredResourceTemplates := registeredResourceTemplates s;
     registeredPrompts := registeredPrompts s |}.

(* ===================================================================== *)
(** * Notions used in the statements                                      *)
(* ===================================================================== *)

(** [m] leaves the part [part] of the state as it finds it, whether it
    returns or throws. *)
Definition keeps {A X} (part : World -> X) (m : M A) : Prop :=
  forall w, part (world_of (m w)) = part w.

(** [m] leaves the whole state as it finds it. *)
Definition stateless {A} (m : M A) : Prop := keeps (fun w => w) m.

(** The part of the state the server factory and the tools own. *)
Definition registry_part (w : World) : bool * list McpServer :=
  (bonusToolLoaded w, servers w).

(** The part of the state http.ts owns. *)
Definition session_part (w : World)
  : gmap string nat * list Transport * nat :=
  (transports w, transportObjects w, uuidsDrawn w).

(** Every server is as [createServer] made it, or has the calculator
    added, which takes the flag to be set. *)
Definition tools_ok (w : World) : Prop :=
  forall srv s, servers w !! srv = Some s ->
    s = base_server \/
    (bonusToolLoaded w = true /\ s = with_bonus base_server).

(** Every entry of the session table is a non-empty id that maps to a
    transport object which has opened the session of that id. *)
Definition table_ok (w : World) : Prop :=
  forall id t, transports w !! id = Some t ->
    Js.truthy_string id = true /\
    exists tr, transportObjects w !! t = Some tr /\
               sessionId tr = Some id /\ initialized tr = true.

Record invariant (w : World) : Prop := {
  inv_tools : tools_ok w;
  inv_table : table_ok w;
}.

(** The id was drawn: it is one of the results [crypto.randomUUID()] has
    given so far. *)
Definition drawn `{rt : Runtime} (w : World) (id : string) : Prop :=
  exists k, (k < uuidsDrawn w)%nat /\ id = randomUUID k.

(** Every id of the session table was drawn. *)
Definition issued_ok `{rt : Runtime} (w : World) : Prop :=
  forall id t, transports w !! id = Some t -> drawn w id.

(** The state once the POST branch has made a server and a transport for a
    request that names no session of the table, before the dispatch. *)
Definition with_new_session_objects (w : World) : World :=
  with_transportObjects
    (transportObjects w ++ [bind_server (length (servers w)) new_Transport])
    (with_servers (servers w ++ [base_server]) w).

(** The state once the transport made for an initialize request has
    opened its session, before the table is touched. *)
Definition with_opened_session `{rt : Runtime} (w : World) : World :=
  with_uuidsDrawn (S (uuidsDrawn w))
    (with_transportObjects
       (transportObjects w ++
        [open_session (randomUUID (uuidsDrawn w))
           (bind_server (length (servers w)) new_Transport)])
       (with_servers (servers w ++ [base_server]) w)).

Definition ok_response (id : option string) : Response :=
  {| status := 200; session_header := id; payload := ProtocolBody |}.

Definition error_response (s : Z) (msg : string) : Response :=
  {| status := s; session_header := None; payload := ErrorBody msg |}.

(** The world and the response of a dispatch to the transport object [t],
    which is [tr]. *)
Definition dispatched `{rt : Runtime} (w : World) (t : nat) (tr : Transport) (req : Request)
  : World * Response :=
  let '(tr', resp, drew) :=
    Sdk.handleRequest (randomUUID (uuidsDrawn w)) tr req in
  (with_uuidsDrawn (if drew : bool then S (uuidsDrawn w) else uuidsDrawn w)
     (with_transportObjects (<[t := tr']> (transportObjects w)) w),
   resp).

(** What a request to /mcp, or a transport that closes, can do to the
    state. *)
Inductive session_step `{rt : Runtime} (w : World) : World -> Prop :=
| same_state :
    session_step w w
| objects_made :
    session_step w (with_new_session_objects w)
| session_opened :
    session_step w (with_opened_session w)
| session_stored :
    let id := randomUUID (uuidsDrawn w) in
    Js.truthy_string id = true ->
    transports w !! id = None ->
    session_step w
      (with_transports
         (<[id := length (transportObjects w)]> (transports w))
         (with_opened_session w))
| transport_closed (t : nat) :
    session_step w
      (with_transportObjects (alter mark_closed t (transportObjects w)) w)
| session_closed (id : string) (t : nat) :
    session_step w
      (with_transports (delete id (transports w))
         (with_transportObjects (alter mark_closed t (transportObjects w)) w)).

(** The request names no session of the table: it carries no id, or one
    the table has no entry for. *)
Definition unknown_session (req : Request) (w : World) : Prop :=
  forall id, mcp_session_id req = Some id -> transports w !! id = None.

(** The verb is none of those the endpoint serves. *)
Definition disallowed_verb (req : Request) : Prop :=
  req_method req <> "GET" /\ req_method req <> "POST" /\
  req_method req <> "DELETE".

(** The progress notifications of a long_task of five steps. *)
Definition five_progress_notifications : list Notification :=
  map (fun i => Progress "long_task" (i / 5)%float 1%float)
    [0; 1; 2; 3; 4]%float.

(** The events of a loop that sends the notifications [ns]. *)
Definition progress_events (ns : list Notification) : list Event :=
  flat_map (fun n => [SendNotification n; SetTimeout 1000]) ns.

(** The notifications among the events, in their order. *)
Definition notifications (evs : list Event) : list Notification :=
  omap (fun e => match e with SendNotification n => Some n | _ => None end)
    evs.

Definition progress_value (n : Notification) : option float :=
  match n with
  | Progress _ p _ => Some p
  | ToolListChanged => None
  end.

(** Each float is below the next one. *)
Fixpoint increasing (l : list float) : bool :=
  match l with
  | x :: (y :: _) as rest => (x <? y)%float && increasing rest
  | _ => true
  end.

(** The value [ops[operation]] is to have: the operation on the two
    Numbers, but for a division by zero. *)
Definition calculation (a b : float) (operation : Tools.Operation) : float :=
  match operation with
  | Tools.add => (a + b)%float
  | Tools.subtract => (a - b)%float
  | Tools.multiply => (a * b)%float
  | Tools.divide => if (b =? 0)%float then nan else (a / b)%float
  end.

(** The Number [x] is the rational [q]. *)
Definition denotes (x : float) (q : Q) : bool :=
  match Js.exact x with
  | Some r => Qeq_bool r q
  | None => false
  end.

(** The same on the binary64 values of the standard: the exact result,
    rounded to the nearest. *)
Definition ieee_calculation (a b : float) (operation : Tools.Operation)
  : spec_float :=
  match operation with
  | Tools.add => SF64add (Prim2SF a) (Prim2SF b)
  | Tools.subtract => SF64sub (Prim2SF a) (Prim2SF b)
  | Tools.multiply => SF64mul (Prim2SF a) (Prim2SF b)
  | Tools.divide => SF64div (Prim2SF a) (Prim2SF b)
  end.

(** Runs and requests of the examples. *)
Definition run_load_bonus_once : list System.Op :=
  [ System.OpCreateServer;
    System.OpCallTool 0 "load_bonus_tool" System.NoArgs quiet_client 0 ].

Definition two_sessions_one_loaded : list System.Op :=
  [ System.OpCreateServer; System.OpCreateServer;
    System.OpCallTool 0 "load_bonus_tool" System.NoArgs quiet_client 0 ].

Definition initialize_request : Request :=
  {| req_method := "POST"; mcp_session_id := None;
     body := InitializeRequest |}.

Definition one_session : list System.Op :=
  [ System.OpExchange initialize_request ].

(* ===================================================================== *)
(** * Notions of the further properties                                   *)
(* ===================================================================== *)

(** The string does not go on with a decimal digit. *)
Definition no_digit_ahead (s : string) : bool :=
  match s with
  | String c _ => bool_decide (Js.digit_value 10 c = None)
  | EmptyString => true
  end.

(** The responses among the events, in their order. *)
Definition responses (evs : list Event) : list Response :=
  omap (fun e => match e with Respond r => Some r | _ => None end) evs.

(** How many calls of [extra.sendNotification] with the list-changed
    notification are among the events. *)
Definition list_changes (evs : list Event) : nat :=
  length (omap (fun e => match e with
                         | SendNotification ToolListChanged => Some tt
                         | _ => None
                         end) evs).

(** The events of the operations [ops] run from [w], the first one first. *)
Fixpoint trace `{rt : Runtime} (ops : list System.Op) (w : World)
  : list Event :=
  match ops with
  | [] => []
  | op :: rest => events_of (System.run op w) ++ trace rest (System.step op w)
  end.

(** What [onclose] does for a transport of the session [id]. *)
Definition session_closed_events (id : string) : list Event :=
  [ TableDelete id; ConsoleLog ("Session closed: " +:+ id) ].

Definition delete_request (id : string) : Request :=
  {| req_method := "DELETE"; mcp_session_id := Some id; body := OtherMessage |}.

Definition two_sessions : list System.Op :=
  [ System.OpExchange initialize_request;
    System.OpExchange initialize_request ].

(** What a request to /mcp, or a transport that closes, does to the
    state, with what is known of the transport that closes: no entry of
    the table is its own, or the entry that leaves the table is the only
    one that can be. *)
Inductive session_change `{rt : Runtime} (w : World) : World -> Prop :=
| change_none :
    session_change w w
| change_made :
    session_change w (with_new_session_objects w)
| change_opened :
    session_change w (with_opened_session w)
| change_stored :
    let id := randomUUID (uuidsDrawn w) in
    Js.truthy_string id = true ->
    transports w !! id = None ->
    session_change w
      (with_transports
         (<[id := length (transportObjects w)]> (transports w))
         (with_opened_session w))
| change_closed (t : nat) :
    (forall id, transports w !! id <> Some t) ->
    session_change w
      (with_transportObjects (alter mark_closed t (transportObjects w)) w)
| change_unregistered (id : string) (t : nat) :
    (forall id', transports w !! id' = Some t -> id' = id) ->
    session_change w
      (with_transports (delete id (transports w))
         (with_transportObjects (alter mark_closed t (transportObjects w)) w)).

(** Every transport object is bound to a server object, no two of them to
    the same one, and the transports of the table are not closed. *)
Record objects_ok (w : World) : Prop := {
  objects_bound :
    forall t tr, transportObjects w !! t = Some tr ->
      exists srv, connected tr = Some srv /\ (srv < length (servers w))%nat;
  objects_apart :
    forall t1 t2 tr1 tr2,
      transportObjects w !! t1 = Some tr1 ->
      transportObjects w !! t2 = Some tr2 ->
      connected tr1 = connected tr2 -> t1 = t2;
  objects_open :
    forall id t tr, transports w !! id = Some t ->
      transportObjects w !! t = Some tr -> closed tr = false;
}.

(** The server has the calculator among its tools. *)
Definition has_calculator (s : McpServer) : Prop :=
  is_Some (registeredTools s !! "bonus_calculator").

(** When the flag is set, one server has the calculator and the others
    are as [createServer] made them; when it is not, all of them are. *)
Definition owner_ok (w : World) : Prop :=
  if bonusToolLoaded w then
    exists srv, servers w !! srv = Some (with_bonus base_server) /\
      forall j s, servers w !! j = Some s -> j <> srv -> s = base_server
  else forall j s, servers w !! j = Some s -> s = base_server.

(** The values [i], [i + 1], ... the counter of the loop of long_task takes
    in [k] iterations, and its value after them. *)
Fixpoint counter_values (k : nat) (i : float) : list float :=
  match k with
  | O => []
  | S k' => i :: counter_values k' (i + 1)%float
  end.

Fixpoint counter_after (k : nat) (i : float) : float :=
  match k with
  | O => i
  | S k' => counter_after k' (i + 1)%float
  end.

(** The progress notifications of long_task for these counter values. *)
Definition progress_of (numSteps : float) (values : list float)
  : list Notification :=
  map (fun i => Tools.progress_notification i numSteps) values.

(** [`Please confirm: ${action}${warningText}`] of confirm_action *)
Definition confirm_message (action_text : string) (destructive : option bool)
  : string :=
  "Please confirm: " +:+ action_text +:+
  (if default false destructive
   then " (WARNING: This action is destructive!)" else "").

(** [feedbackUrl] of get_feedback, for the encoded question *)
Definition feedbackUrl (encoded : string) : string :=
  "https://github.com/SamMorrowDrums/mcp-starters/issues/new?template=workshop-feedback.yml&title="
  +:+ encoded.

(** [focusInstructions.all], and the text of the code_review prompt for an
    instruction. *)
Definition all_instruction : string :=
  "Provide a comprehensive review covering security, performance, and readability.".

Definition review_text (language instruction code : string) : string :=
  "Please review the following " +:+ language +:+ " code. " +:+
  instruction +:+ nl +:+ nl +:+
  Prompts.fence +:+ language +:+ nl +:+ code +:+ nl +:+ Prompts.fence.

(** The result of the item template for the object with these fields. *)
Definition item_json `{rt : Runtime} (href : string) (fields : JsonObject)
  : Resources.ReadResourceResult :=
  {| Resources.uri := href; Resources.mimeType := "application/json";
     Resources.resource_text := Tools.JSON_stringify_2 fields |}.

(* ===================================================================== *)
(** * The runtime at work                                                 *)
(* ===================================================================== *)

Example parseInt_3000 : Js.parseInt "3000" 10 = Js.IntNum 3000.
Proof. reflexivity. Qed.

Example parseInt_prefix : Js.parseInt "  -80abc" 10 = Js.IntNum (-80).
Proof. reflexivity. Qed.

Example parseInt_abc : Js.parseInt "abc" 10 = Js.NaN.
Proof. reflexivity. Qed.

Example parseInt_hex : Js.parseInt "0x1f" 16 = Js.IntNum 31.
Proof. reflexivity. Qed.

Example Number_toString_18 f : Js.Number_toString f 18%float = "18".
Proof. vm_compute. reflexivity. Qed.

Example Number_toString_neg f : Js.Number_toString f (-5)%float = "-5".
Proof. vm_compute. reflexivity. Qed.

Example Number_toString_zero f : Js.Number_toString f (-0)%float = "0".
Proof. vm_compute. reflexivity. Qed.

Example get_inherited :
  Js.get (<["a" := "x"]> ∅) "toString" = Js.VInherited "toString".
Proof. vm_compute. reflexivity. Qed.
(** Distinct integers print differently. *)
Lemma Z_to_string_inj (x y : Z) :
  0 <= x -> 0 <= y -> Js.Z_to_string x = Js.Z_to_string y -> x = y.
Proof.
  unfold Js.Z_to_string. intros Hx Hy H.
  apply DecimalZ.to_int_inj.
  assert (forall z, 0 <= z ->
            NilZero.int_of_string (NilZero.string_of_int (Z.to_int z))
            = Some (Z.to_int z)) as Hisi.
  { intros z Hz. apply NilZero.isi.
    - destruct z as [|p|p]; cbn; try done.
      intros [= Hp]. by apply DecimalPos.Unsigned.to_uint_nonnil in Hp.
    - destruct z as [|p|p]; cbn; try done; lia. }
  pose proof (Hisi x Hx) as H1. pose proof (Hisi y Hy) as H2.
  rewrite H in H1. congruence.
Qed.

(** The ids of the runtime of the examples are never drawn twice. *)
Lemma example_randomUUID_inj : Inj (=) (=) (@randomUUID example_runtime).
Proof.
  intros j k H. cbn in H. injection H as H.
  apply Z_to_string_inj in H; lia.
Qed.

(* ===================================================================== *)
(** * Facts about the effects                                             *)
(* ===================================================================== *)

Lemma bind_eq {A B} (m : M A) (f : A -> M B) (w : World) :
  (m ≫= f) w =
  match m w with
  | (Ok a, w1, l1) => let '(r, w2, l2) := f a w1 in (r, w2, l1 ++ l2)
  | (Throw e, w1, l1) => (Throw e, w1, l1)
  end.
Proof. reflexivity. Qed.

(** A first step that returns without an event is transparent. *)
Lemma bind_silent {A B} (m : M A) (f : A -> M B) (w w1 : World) (a : A) :
  m w = (Ok a, w1, []) -> (m ≫= f) w = f a w1.
Proof.
  intros H. rewrite bind_eq, H. by destruct (f a w1) as [[??]?].
Qed.

Lemma bind_throw {A B} (m : M A) (f : A -> M B) (w w1 : World) e l :
  m w = (Throw e, w1, l) -> (m ≫= f) w = (Throw e, w1, l).
Proof. intros H. by rewrite bind_eq, H. Qed.

Lemma bind_read {A B} (g : World -> A) (f : A -> M B) (w : World) :
  (read g ≫= f) w = f (g w) w.
Proof. by apply bind_silent. Qed.

Lemma bind_update {B} (g : World -> World) (f : unit -> M B) (w : World) :
  (update g ≫= f) w = f tt (g w).
Proof. by apply bind_silent. Qed.

Lemma bind_emit {B} (e : Event) (f : unit -> M B) (w : World) :
  (emit e ≫= f) w =
  (result_of (f tt w), world_of (f tt w), e :: events_of (f tt w)).
Proof. rewrite bind_eq. cbn. by destruct (f tt w) as [[??]?]. Qed.

Lemma bind_mret {A B} (a : A) (f : A -> M B) (w : World) :
  (mret a ≫= f) w = f a w.
Proof. by apply bind_silent. Qed.

Lemma triple_eta {A} (x : Result A * World * list Event) :
  x = (result_of x, world_of x, events_of x).
Proof. by destruct x as [[??]?]. Qed.

(* ===================================================================== *)
(** * The server factory                                                  *)
(* ===================================================================== *)

Lemma lookup_last {A} (l : list A) (x : A) : (l ++ [x]) !! length l = Some x.
Proof. by rewrite list_lookup_middle. Qed.

Lemma insert_last {A} (l : list A) (x y : A) :
  <[length l := y]> (l ++ [x]) = l ++ [y].
Proof. rewrite insert_app_r_alt; [|lia]. by rewrite Nat.sub_diag. Qed.

Section ServerFactory.

Context `{rt : Runtime}.

Lemma server_tool_last l s w name cb :
  registeredTools s !! name = None ->
  Tools.server_tool (length l) name cb (with_servers (l ++ [s]) w)
  = (Ok tt,
     with_servers
       (l ++ [ {| registeredTools := <[name := cb]> (registeredTools s);
                  registeredResources := registeredResources s;
                  registeredResourceTemplates := registeredResourceTemplates s;
                  registeredPrompts := registeredPrompts s |} ]) w, []).
Proof.
  intros H. unfold Tools.server_tool, Sdk.tool. cbn.
  by rewrite lookup_last, H, insert_last.
Qed.

Lemma server_resource_last l s w uri cb :
  registeredResources s !! uri = None ->
  Resources.server_resource (length l) uri cb (with_servers (l ++ [s]) w)
  = (Ok tt,
     with_servers
       (l ++ [ {| registeredTools := registeredTools s;
                  registeredResources := <[uri := cb]> (registeredResources s);
                  registeredResourceTemplates := registeredResourceTemplates s;
                  registeredPrompts := registeredPrompts s |} ]) w, []).
Proof.
  intros H. unfold Resources.server_resource, Sdk.resource. cbn.
  by rewrite lookup_last, H, insert_last.
Qed.

Lemma server_resourceTemplate_last l s w name cb :
  registeredResourceTemplates s !! name = None ->
  Resources.server_resourceTemplate (length l) name cb
    (with_servers (l ++ [s]) w)
  = (Ok tt,
     with_servers
       (l ++ [ {| registeredTools := registeredTools s;
                  registeredResources := registeredResources s;
                  registeredResourceTemplates :=
                    <[name := cb]> (registeredResourceTemplates s);
                  registeredPrompts := registeredPrompts s |} ]) w, []).
Proof.
  intros H. unfold Resources.server_resourceTemplate, Sdk.resourceTemplate.
  cbn. by rewrite lookup_last, H, insert_last.
Qed.

Lemma server_prompt_last l s w name cb :
  registeredPrompts s !! name = None ->
  Prompts.server_prompt (length l) name cb (with_servers (l ++ [s]) w)
  = (Ok tt,
     with_servers
       (l ++ [ {| registeredTools := registeredTools s;
                  registeredResources := registeredResources s;
                  registeredResourceTemplates := registeredResourceTemplates s;
                  registeredPrompts := <[name := cb]> (registeredPrompts s) |} ])
       w, []).
Proof.
  intros H. unfold Prompts.server_prompt, Sdk.prompt. cbn.
  by rewrite lookup_last, H, insert_last.
Qed.

(** One registration on the server just created, in a chain of them. *)
Ltac register_step lem :=
  erewrite bind_silent; [| apply lem; vm_compute; reflexivity];
  cbn [registeredTools registeredResources registeredResourceTemplates
       registeredPrompts new_McpServer].

Lemma registerTools_last l w res tpl pr :
  Tools.registerTools (length l)
    (with_servers
       (l ++ [ {| registeredTools := ∅; registeredResources := res;
                  registeredResourceTemplates := tpl;
                  registeredPrompts := pr |} ]) w)
  = (Ok tt,
     with_servers
       (l ++ [ {| registeredTools := base_tools; registeredResources := res;
                  registeredResourceTemplates := tpl;
                  registeredPrompts := pr |} ]) w, []).
Proof.
  unfold Tools.registerTools, Tools.registerHelloTool,
    Tools.registerWeatherTool, Tools.registerAskLlmTool,
    Tools.registerLongTaskTool, Tools.registerLoadBonusTool,
    Tools.registerConfirmActionTool, Tools.registerGetFeedbackTool.
  do 6 register_step server_tool_last.
  rewrite server_tool_last by (vm_compute; reflexivity).
  reflexivity.
Qed.

Lemma registerResources_last l w tools pr :
  Resources.registerResources (length l)
    (with_servers
       (l ++ [ {| registeredTools := tools; registeredResources := ∅;
                  registeredResourceTemplates := ∅;
                  registeredPrompts := pr |} ]) w)
  = (Ok tt,
     with_servers
       (l ++ [ {| registeredTools := tools;
                  registeredResources := registeredResources base_server;
                  registeredResourceTemplates :=
                    registeredResourceTemplates base_server;
                  registeredPrompts := pr |} ]) w, []).
Proof.
  unfold Resources.registerResources, Resources.registerAboutResource,
    Resources.registerGreetingTemplate, Resources.registerItemsTemplate.
  register_step server_resource_last.
  register_step server_resourceTemplate_last.
  rewrite server_resourceTemplate_last by (vm_compute; reflexivity).
  reflexivity.
Qed.

Lemma registerPrompts_last l w tools res tpl :
  Prompts.registerPrompts (length l)
    (with_servers
       (l ++ [ {| registeredTools := tools; registeredResources := res;
                  registeredResourceTemplates := tpl;
                  registeredPrompts := ∅ |} ]) w)
  = (Ok tt,
     with_servers
       (l ++ [ {| registeredTools := tools; registeredResources := res;
                  registeredResourceTemplates := tpl;
                  registeredPrompts := registeredPrompts base_server |} ])
       w, []).
Proof.
  unfold Prompts.registerPrompts, Prompts.registerGreetPrompt,
    Prompts.registerCodeReviewPrompt.
  register_step server_prompt_last.
  rewrite server_prompt_last by (vm_compute; reflexivity).
  reflexivity.
Qed.

(** [createServer] in one equation: it returns the handle of a new object
    whose registries are those of [base_server], and changes nothing else. *)
Lemma createServer_eq (w : World) :
  Server.createServer w =
  (Ok (length (servers w)), with_servers (servers w ++ [base_server]) w, []).
Proof.
  unfold Server.createServer.
  erewrite bind_silent; [| reflexivity].
  erewrite bind_silent; [| apply registerTools_last].
  erewrite bind_silent; [| apply registerResources_last].
  erewrite bind_silent; [| apply registerPrompts_last].
  reflexivity.
Qed.

End ServerFactory.

(* ===================================================================== *)
(** * Code that leaves a part of the state alone                          *)
(* ===================================================================== *)

Section Keeps.

Context {X : Type} (part : World -> X).

Lemma keeps_mret {A} (a : A) : keeps part (mret a).
Proof. by intros w. Qed.

Lemma keeps_throw {A} (e : Thrown) : keeps part (@throw A e).
Proof. by intros w. Qed.

Lemma keeps_emit (e : Event) : keeps part (emit e).
Proof. by intros w. Qed.

Lemma keeps_read {A} (f : World -> A) : keeps part (read f).
Proof. by intros w. Qed.

Lemma keeps_await {A} (r : Result A) : keeps part (await r).
Proof. by destruct r; intros w. Qed.

Lemma keeps_update (g : World -> World) :
  (forall w, part (g w) = part w) -> keeps part (update g).
Proof. intros H w. apply H. Qed.

Lemma keeps_bind {A B} (m : M A) (f : A -> M B) :
  keeps part m -> (forall a, keeps part (f a)) -> keeps part (m ≫= f).
Proof.
  intros Hm Hf w. rewrite bind_eq. specialize (Hm w).
  destruct (m w) as [[[a|e] w1] l1]; cbn in Hm; [|done].
  specialize (Hf a w1). destruct (f a w1) as [[??]?]. cbn in *. congruence.
Qed.

Lemma keeps_try_catch {A} (body : M A) (handler : Thrown -> M A) :
  keeps part body -> (forall e, keeps part (handler e)) ->
  keeps part (try_catch body handler).
Proof.
  intros Hb Hh w. unfold try_catch. specialize (Hb w).
  destruct (body w) as [[[a|e] w1] l1]; cbn in Hb; [done|].
  specialize (Hh e w1). destruct (handler e w1) as [[??]?]. cbn in *.
  congruence.
Qed.

Lemma keeps_extra_sendNotification env n :
  keeps part (extra_sendNotification env n).
Proof.
  apply keeps_bind; [apply keeps_emit|]. intros _. apply keeps_await.
Qed.

End Keeps.

Create HintDb keeps discriminated.

#[export] Hint Resolve keeps_mret keeps_throw keeps_emit keeps_read
  keeps_await keeps_extra_sendNotification : keeps.
#[export] Hint Extern 2 (keeps _ (_ ≫= _)) =>
  apply keeps_bind; [| intros ?] : keeps.
#[export] Hint Extern 2 (keeps _ (try_catch _ _)) =>
  apply keeps_try_catch; [| intros ?] : keeps.
#[export] Hint Extern 2 (keeps _ (update _)) =>
  apply keeps_update; intros ?; reflexivity : keeps.
#[export] Hint Extern 3 (keeps _ (match ?x with _ => _ end)) =>
  destruct x : keeps.
#[export] Hint Extern 1 (stateless _) => unfold stateless : keeps.

(* ===================================================================== *)
(** * The tool handlers                                                   *)
(* ===================================================================== *)

Section ToolHandlers.

Context `{rt : Runtime}.

Lemma ask_llm_stateless env prompt maxTokens :
  stateless (Tools.ask_llm env prompt maxTokens).
Proof. unfold Tools.ask_llm. auto 10 with keeps. Qed.

Lemma confirm_action_stateless env a d :
  stateless (Tools.confirm_action env a d).
Proof. unfold Tools.confirm_action. auto 10 with keeps. Qed.

Lemma get_feedback_stateless env q :
  stateless (Tools.get_feedback env q).
Proof. unfold Tools.get_feedback. auto 10 with keeps. Qed.

Lemma long_task_loop_stateless env fuel :
  forall i numSteps, stateless (Tools.long_task_loop env fuel i numSteps).
Proof.
  unfold stateless.
  induction fuel as [|fuel IH]; intros i numSteps; cbn;
    destruct (i <? numSteps)%float; auto 10 with keeps.
Qed.

Lemma long_task_stateless env fuel taskName steps :
  stateless (Tools.long_task env fuel taskName steps).
Proof.
  unfold Tools.long_task.
  apply keeps_bind; [apply long_task_loop_stateless|].
  intros []; auto with keeps.
Qed.

(** The two behaviours of load_bonus_tool. *)
Lemma load_bonus_tool_loaded srv env w :
  bonusToolLoaded w = true ->
  Tools.load_bonus_tool srv env w
  = (Ok (text_result Tools.already_loaded), w, []).
Proof.
  intros H. unfold Tools.load_bonus_tool. by rewrite bind_read, H.
Qed.

Lemma load_bonus_tool_fresh srv env w s :
  bonusToolLoaded w = false ->
  servers w !! srv = Some s ->
  registeredTools s !! "bonus_calculator" = None ->
  Tools.load_bonus_tool srv env w
  = (match sendNotification env ToolListChanged with
     | Ok _ => Ok (text_result Tools.has_been_loaded)
     | Throw e => Throw e
     end,
     with_bonusToolLoaded true
       (with_servers (<[srv := with_bonus s]> (servers w)) w),
     [SendNotification ToolListChanged]).
Proof.
  intros Hflag Hs Hnone. unfold Tools.load_bonus_tool.
  rewrite bind_read, Hflag.
  erewrite bind_silent; cycle 1.
  { unfold Tools.server_tool, Sdk.tool. rewrite Hs, Hnone. reflexivity. }
  rewrite bind_update.
  unfold extra_sendNotification.
  rewrite bind_eq. cbn.
  destruct (sendNotification env ToolListChanged); reflexivity.
Qed.

Lemma server_tool_keeps_sessions srv name cb :
  keeps session_part (Tools.server_tool srv name cb).
Proof.
  intros w. unfold Tools.server_tool.
  destruct (servers w !! srv) as [s|]; [|done].
  by destruct (Sdk.tool name cb s).
Qed.

Lemma load_bonus_tool_keeps_sessions srv env :
  keeps session_part (Tools.load_bonus_tool srv env).
Proof.
  unfold Tools.load_bonus_tool.
  pose proof (server_tool_keeps_sessions srv) as H.
  auto 10 with keeps.
Qed.

End ToolHandlers.

(* ===================================================================== *)
(** * The session transport manager                                       *)
(* ===================================================================== *)

Section Http.

Context `{rt : Runtime}.


Lemma transport_handleRequest_eq t tr req w :
  transportObjects w !! t = Some tr ->
  Http.transport_handleRequest t req w
  = (Ok tt, (dispatched w t tr req).1, [Respond (dispatched w t tr req).2]).
Proof.
  intros H. unfold Http.transport_handleRequest, dispatched. rewrite H.
  by destruct (Sdk.handleRequest _ tr req) as [[??]?].
Qed.

Lemma dispatched_frame w t tr req :
  bonusToolLoaded (dispatched w t tr req).1 = bonusToolLoaded w /\
  servers (dispatched w t tr req).1 = servers w /\
  transports (dispatched w t tr req).1 = transports w.
Proof.
  unfold dispatched. by destruct (Sdk.handleRequest _ tr req) as [[??]?].
Qed.

Lemma handle_GET_unknown req w :
  req_method req = "GET" ->
  Http.known (mcp_session_id req) w = None ->
  Http.handle req w
  = (Ok tt, w,
     [Respond {| status := 400; session_header := None;
                 payload := ErrorBody "Invalid or missing session ID" |}]).
Proof.
  intros Hm Hk. unfold Http.handle. rewrite Hm. cbn [String.eqb Ascii.eqb Bool.eqb].
  by rewrite bind_read, Hk.
Qed.

Lemma handle_GET_known req w t :
  req_method req = "GET" ->
  Http.known (mcp_session_id req) w = Some t ->
  Http.handle req w = Http.transport_handleRequest t req w.
Proof.
  intros Hm Hk. unfold Http.handle. rewrite Hm. cbn [String.eqb Ascii.eqb Bool.eqb].
  by rewrite bind_read, Hk.
Qed.

Lemma handle_DELETE_unknown req w :
  req_method req = "DELETE" ->
  Http.known (mcp_session_id req) w = None ->
  Http.handle req w
  = (Ok tt, w,
     [Respond {| status := 404; session_header := None;
                 payload := ErrorBody "Session not found" |}]).
Proof.
  intros Hm Hk. unfold Http.handle. rewrite Hm. cbn [String.eqb Ascii.eqb Bool.eqb].
  by rewrite bind_read, Hk.
Qed.

Lemma handle_other req w :
  req_method req <> "GET" -> req_method req <> "POST" ->
  req_method req <> "DELETE" ->
  Http.handle req w
  = (Ok tt, w,
     [Respond {| status := 405; session_header := None;
                 payload := ErrorBody "Method not allowed" |}]).
Proof.
  intros H1 H2 H3. unfold Http.handle.
  apply String.eqb_neq in H1, H2, H3. by rewrite H1, H2, H3.
Qed.

Lemma known_Some id t w :
  Http.known (Some id) w = Some t <->
  Js.truthy_string id = true /\ transports w !! id = Some t.
Proof.
  unfold Http.known. destruct (Js.truthy_string id).
  - split; [by intros ->|by intros [_ ->]].
  - split; [done|by intros [? _]].
Qed.

Lemma truthy_string_ne id : Js.truthy_string id = true <-> id <> "".
Proof. by destruct id. Qed.

(** [transport.close()] on an object that carries the session id [id]. *)
Lemma transport_close_eq t tr id w :
  transportObjects w !! t = Some tr ->
  sessionId tr = Some id ->
  Js.truthy_string id = true ->
  Http.transport_close t w
  = (Ok tt,
     with_transports (delete id (transports w))
       (with_transportObjects (alter mark_closed t (transportObjects w)) w),
     [TableDelete id; ConsoleLog ("Session closed: " +:+ id)]).
Proof.
  intros Ht Hid Htr. unfold Http.transport_close, Http.onclose.
  rewrite bind_update, bind_read. cbn [transportObjects with_transportObjects].
  rewrite list_lookup_alter_eq, Ht.
  cbn. rewrite Hid, Htr. reflexivity.
Qed.

Lemma handle_DELETE_known req w id t tr :
  req_method req = "DELETE" ->
  mcp_session_id req = Some id ->
  Http.known (Some id) w = Some t ->
  transportObjects w !! t = Some tr ->
  sessionId tr = Some id ->
  Http.handle req w
  = (Ok tt,
     with_transports (delete id (transports w))
       (with_transportObjects (alter mark_closed t (transportObjects w)) w),
     [TableDelete id; ConsoleLog ("Session closed: " +:+ id); TableDelete id;
      Respond {| status := 200; session_header := None;
                 payload := MessageBody "Session closed" |}]).
Proof.
  intros Hm Hh Hk Ht Hid. unfold Http.handle.
  rewrite Hm. cbn [String.eqb Ascii.eqb Bool.eqb].
  rewrite Hh, bind_read, Hk.
  apply known_Some in Hk as [Htr _].
  rewrite bind_eq, (transport_close_eq _ _ _ _ Ht Hid Htr).
  unfold Http.table_delete, Http.respond, mbind, M_bind, update, emit. cbn.
  by rewrite delete_delete_eq.
Qed.

End Http.

(* ===================================================================== *)
(** * Tool calls and the registries                                       *)
(* ===================================================================== *)

Lemma base_tools_lookup name cb :
  base_tools !! name = Some cb ->
  (name, cb) ∈
    [ ("get_feedback", cb_get_feedback); ("confirm_action", cb_confirm_action);
      ("load_bonus_tool", cb_load_bonus_tool); ("long_task", cb_long_task);
      ("ask_llm", cb_ask_llm); ("get_weather", cb_get_weather);
      ("hello", cb_hello) ].
Proof.
  unfold base_tools. intros H.
  repeat (apply lookup_insert_Some in H as [[<- <-]|[_ H]];
          [set_solver|]).
  by rewrite lookup_empty in H.
Qed.

Lemma base_tools_load name :
  base_tools !! name = Some cb_load_bonus_tool -> name = "load_bonus_tool".
Proof.
  intros H%base_tools_lookup.
  repeat (apply elem_of_cons in H as [H|H]; [congruence|]).
  by apply elem_of_nil in H.
Qed.

Lemma base_tools_no_bonus : base_tools !! "bonus_calculator" = None.
Proof. vm_compute. reflexivity. Qed.

Lemma base_tools_has_load :
  base_tools !! "load_bonus_tool" = Some cb_load_bonus_tool.
Proof. vm_compute. reflexivity. Qed.

(** On a server of a well-formed state, the name of load_bonus_tool and
    no other is bound to its callback. *)
Lemma tools_ok_load w srv s name :
  tools_ok w -> servers w !! srv = Some s ->
  registeredTools s !! name = Some cb_load_bonus_tool <->
  name = "load_bonus_tool".
Proof.
  intros Hok Hs. destruct (Hok _ _ Hs) as [->|[_ ->]]; cbn.
  - split; [apply base_tools_load|intros ->; apply base_tools_has_load].
  - split.
    + intros [[_ ?]|[_ H]]%lookup_insert_Some; [done|].
      by apply base_tools_load.
    + intros ->. rewrite lookup_insert_ne by done. apply base_tools_has_load.
Qed.

Section ToolCalls.

Context `{rt : Runtime}.

Lemma some_world {A} (m : M A) w :
  world_of (System.some m w) = world_of (m w).
Proof.
  unfold System.some. rewrite bind_eq.
  by destruct (m w) as [[[?|?] ?] ?].
Qed.

Lemma run_callback_stateless srv cb args env fuel :
  cb <> cb_load_bonus_tool ->
  stateless (System.run_callback srv cb args env fuel).
Proof.
  intros Hcb w.
  destruct cb, args; try done; cbn [System.run_callback];
    rewrite ?some_world;
    first [ apply ask_llm_stateless | apply long_task_stateless
          | apply confirm_action_stateless | apply get_feedback_stateless ].
Qed.

Lemma run_callback_load srv args env fuel w :
  world_of (System.run_callback srv cb_load_bonus_tool args env fuel w)
  = world_of (Tools.load_bonus_tool srv env w).
Proof. destruct args; cbn [System.run_callback]; apply some_world. Qed.

Lemma try_catch_mret_world {A} (body : M A) (h : Thrown -> A) w :
  world_of (try_catch body (fun e => mret (h e)) w) = world_of (body w).
Proof. unfold try_catch. by destruct (body w) as [[[?|?] ?] ?]. Qed.

(** The state after a tool call: only the callback of load_bonus_tool
    changes it. *)
Lemma callTool_world srv name args env fuel w :
  world_of (System.callTool srv name args env fuel w) =
  match servers w !! srv ≫= (fun s => registeredTools s !! name) with
  | Some cb_load_bonus_tool => world_of (Tools.load_bonus_tool srv env w)
  | _ => w
  end.
Proof.
  unfold System.callTool. rewrite bind_read.
  destruct (servers w !! srv ≫= _) as [cb|]; [|done].
  rewrite try_catch_mret_world.
  destruct (decide (cb = cb_load_bonus_tool)) as [->|Hcb].
  - apply run_callback_load.
  - rewrite run_callback_stateless by done. by destruct cb.
Qed.

Lemma callTool_keeps_sessions srv name args env fuel :
  keeps session_part (System.callTool srv name args env fuel).
Proof.
  intros w. rewrite callTool_world.
  destruct (servers w !! srv ≫= _) as [[]|]; try done.
  apply load_bonus_tool_keeps_sessions.
Qed.

(** The flag after a tool call. *)
Lemma callTool_flag srv name args env fuel w :
  tools_ok w ->
  bonusToolLoaded (world_of (System.callTool srv name args env fuel w))
  = bonusToolLoaded w
    || (String.eqb name "load_bonus_tool"
        && bool_decide (srv < length (servers w))%nat).
Proof.
  intros Hok. rewrite callTool_world.
  destruct (servers w !! srv) as [s|] eqn:Hs; cbn.
  - rewrite bool_decide_eq_true_2 by (by eapply lookup_lt_Some).
    rewrite andb_true_r.
    destruct (registeredTools s !! name) as [cb|] eqn:Hcb.
    + destruct (decide (cb = cb_load_bonus_tool)) as [->|Hne].
      * apply (tools_ok_load _ _ _ _ Hok Hs) in Hcb as ->. cbn.
        rewrite orb_true_r.
        destruct (bonusToolLoaded w) eqn:Hflag.
        { by rewrite load_bonus_tool_loaded. }
        destruct (Hok _ _ Hs) as [->|[? _]]; [|congruence].
        by erewrite load_bonus_tool_fresh.
      * assert (String.eqb name "load_bonus_tool" = false) as ->.
        { apply String.eqb_neq. intros ->.
          pose proof (proj2 (tools_ok_load _ _ _ "load_bonus_tool" Hok Hs)
                        eq_refl). congruence. }
        rewrite orb_false_r. by destruct cb.
    + assert (String.eqb name "load_bonus_tool" = false) as ->.
      { apply String.eqb_neq. intros ->.
        pose proof (proj2 (tools_ok_load _ _ _ "load_bonus_tool" Hok Hs)
                      eq_refl). congruence. }
      by rewrite orb_false_r.
  - rewrite bool_decide_eq_false_2 by (by apply lookup_ge_None, Nat.nlt_ge in Hs).
    by rewrite andb_false_r, orb_false_r.
Qed.

Lemma callTool_tools_ok srv name args env fuel w :
  tools_ok w -> tools_ok (world_of (System.callTool srv name args env fuel w)).
Proof.
  intros Hok. rewrite callTool_world.
  destruct (servers w !! srv) as [s|] eqn:Hs; cbn; [|done].
  destruct (registeredTools s !! name) as [[]|]; try done.
  destruct (bonusToolLoaded w) eqn:Hflag.
  { by rewrite load_bonus_tool_loaded. }
  destruct (Hok _ _ Hs) as [->|[? _]]; [|congruence].
  erewrite load_bonus_tool_fresh; [|done..|apply base_tools_no_bonus].
  cbn. intros srv' s' Hs'. cbn in Hs'.
  apply list_lookup_insert_Some in Hs' as [(-> & <- & _)|[_ Hs']].
  - by right.
  - destruct (Hok _ _ Hs') as [->|[? _]]; [by left|congruence].
Qed.

End ToolCalls.

Section HttpPost.

Context `{rt : Runtime}.

Lemma world_eta w :
  with_uuidsDrawn (uuidsDrawn w)
    (with_transportObjects (transportObjects w) w) = w.
Proof. by destruct w. Qed.

(** A transport that has opened its session is left as it is by every
    request, and draws no session id. *)
Lemma handleRequest_initialized uuid tr req :
  initialized tr = true ->
  exists resp, Sdk.handleRequest uuid tr req = (tr, resp, false).
Proof.
  intros Hi. unfold Sdk.handleRequest. rewrite Hi. cbn.
  destruct (String.eqb _ "POST"); [destruct (body req)|];
    repeat match goal with |- context [if ?b then _ else _] => destruct b end;
    eauto.
Qed.

Lemma dispatched_initialized w t tr req :
  transportObjects w !! t = Some tr -> initialized tr = true ->
  (dispatched w t tr req).1 = w.
Proof.
  intros Ht Hi. unfold dispatched.
  destruct (handleRequest_initialized (randomUUID (uuidsDrawn w)) tr req Hi)
    as [resp ->].
  cbn. rewrite list_insert_id by done. apply world_eta.
Qed.

Lemma alter_last {A} (f : A -> A) (l : list A) (x : A) :
  alter f (length l) (l ++ [x]) = l ++ [f x].
Proof. rewrite alter_app_r_alt; [|lia]. by rewrite Nat.sub_diag. Qed.

(** The POST branch up to the dispatch, for a session of the table. *)
Lemma post_dispatch_known req w t tr :
  Http.known (mcp_session_id req) w = Some t ->
  transportObjects w !! t = Some tr ->
  Http.post_dispatch req w
  = (Ok t, (dispatched w t tr req).1, [Respond (dispatched w t tr req).2]).
Proof.
  intros Hk Ht. unfold Http.post_dispatch.
  rewrite bind_read, Hk, bind_mret.
  rewrite bind_eq, (transport_handleRequest_eq _ _ _ _ Ht). reflexivity.
Qed.

(** The same for a request that names no session of the table: a server
    and a transport are made first. *)
Lemma post_dispatch_new req w :
  Http.known (mcp_session_id req) w = None ->
  let w1 := with_new_session_objects w in
  let t := length (transportObjects w) in
  let tr := bind_server (length (servers w)) new_Transport in
  Http.post_dispatch req w
  = (Ok t, (dispatched w1 t tr req).1, [Respond (dispatched w1 t tr req).2]).
Proof.
  intros Hk w1 t tr. unfold Http.post_dispatch.
  rewrite bind_read, Hk.
  assert ((server ← Server.createServer;
           transport ← Http.new_transport;
           Http.connect server transport;; mret transport) w
          = (Ok t, w1, [])) as Hnew.
  { erewrite bind_silent; [|apply createServer_eq].
    erewrite bind_silent; [|reflexivity].
    unfold Http.connect. rewrite bind_update. cbn.
    rewrite alter_last. reflexivity. }
  erewrite bind_silent; [|exact Hnew].
  rewrite bind_eq, (transport_handleRequest_eq t tr).
  - reflexivity.
  - apply lookup_last.
Qed.

Lemma post_store_eq t tr w :
  transportObjects w !! t = Some tr ->
  Http.post_store t w =
  match sessionId tr with
  | Some id =>
      if Js.truthy_string id && negb (Http.has id w) then
        (Ok tt, with_transports (<[id := t]> (transports w)) w,
         [TableSet id t; ConsoleLog ("New session: " +:+ id)])
      else (Ok tt, w, [])
  | None => (Ok tt, w, [])
  end.
Proof.
  intros Ht. unfold Http.post_store. rewrite bind_read, Ht. cbn.
  destruct (sessionId tr) as [id|]; [|done].
  rewrite bind_read.
  destruct (Js.truthy_string id && negb (Http.has id w)); [|done].
  reflexivity.
Qed.

Lemma has_true id t w : transports w !! id = Some t -> Http.has id w = true.
Proof. intros H. unfold Http.has. by rewrite H, bool_decide_eq_true_2. Qed.

Lemma has_false id w : transports w !! id = None -> Http.has id w = false.
Proof.
  intros H. unfold Http.has. rewrite H. apply bool_decide_eq_false_2.
  by intros [? ?].
Qed.

Lemma handle_POST req w :
  req_method req = "POST" ->
  Http.handle req w
  = (transport ← Http.post_dispatch req; Http.post_store transport) w.
Proof.
  intros Hm. unfold Http.handle. rewrite Hm. reflexivity.
Qed.

(** A POST for a session of the table: the request is dispatched and the
    state stays as it is. *)
Lemma handle_POST_known req w id t :
  table_ok w ->
  req_method req = "POST" ->
  mcp_session_id req = Some id ->
  Http.known (Some id) w = Some t ->
  exists resp, Http.handle req w = (Ok tt, w, [Respond resp]).
Proof.
  intros Hok Hm Hh Hk. rewrite handle_POST by done.
  pose proof Hk as [_ Hid]%known_Some.
  destruct (Hok _ _ Hid) as (_ & tr & Ht & Hs & Hi).
  rewrite <- Hh in Hk.
  rewrite bind_eq, (post_dispatch_known _ _ _ _ Hk Ht).
  rewrite (dispatched_initialized _ _ _ _ Ht Hi).
  rewrite (post_store_eq _ _ _ Ht), Hs, (has_true _ _ _ Hid), andb_false_r.
  eauto.
Qed.

(** A POST that names no session of the table and is no initialize
    request: refused by the new transport, which is left behind. *)
Lemma handle_POST_new_other req w :
  req_method req = "POST" ->
  Http.known (mcp_session_id req) w = None ->
  body req = OtherMessage ->
  Http.handle req w
  = (Ok tt, with_new_session_objects w,
     [Respond (error_response 400 "Bad Request: Server not initialized")]).
Proof.
  intros Hm Hk Hb. rewrite handle_POST by done.
  rewrite bind_eq, (post_dispatch_new _ _ Hk).
  unfold dispatched, Sdk.handleRequest. rewrite Hm, Hb. cbn.
  rewrite insert_last.
  rewrite (post_store_eq _ (bind_server (length (servers w)) new_Transport))
    by apply lookup_last.
  cbn. reflexivity.
Qed.

(** A POST that names no session of the table and is an initialize
    request: the new transport opens a session and answers; then the
    table gets its entry, unless the id is empty or taken. *)
Lemma handle_POST_new_initialize req w :
  req_method req = "POST" ->
  Http.known (mcp_session_id req) w = None ->
  body req = InitializeRequest ->
  let id := randomUUID (uuidsDrawn w) in
  let t := length (transportObjects w) in
  Http.post_dispatch req w
  = (Ok t, with_opened_session w, [Respond (ok_response (Some id))]) /\
  Http.handle req w
  = if Js.truthy_string id && negb (Http.has id w) then
      (Ok tt,
       with_transports (<[id := t]> (transports w)) (with_opened_session w),
       [Respond (ok_response (Some id)); TableSet id t;
        ConsoleLog ("New session: " +:+ id)])
    else (Ok tt, with_opened_session w, [Respond (ok_response (Some id))]).
Proof.
  intros Hm Hk Hb id t.
  assert (Http.post_dispatch req w
          = (Ok t, with_opened_session w, [Respond (ok_response (Some id))]))
    as Hd.
  { rewrite (post_dispatch_new _ _ Hk).
    unfold dispatched, Sdk.handleRequest. rewrite Hm, Hb. cbn.
    by rewrite insert_last. }
  split; [done|].
  rewrite handle_POST by done. rewrite bind_eq, Hd.
  erewrite post_store_eq by apply lookup_last.
  cbn -[Js.truthy_string]. fold id.
  replace (Http.has id (with_opened_session w)) with (Http.has id w)
    by reflexivity.
  by destruct (Js.truthy_string id && negb (Http.has id w)).
Qed.

End HttpPost.

(* ===================================================================== *)
(** * Invariants of the running process                                   *)
(* ===================================================================== *)

(** [table_ok] goes over to a state with fewer entries whose transport
    objects still carry what they carried. *)
Lemma table_ok_mono w w' :
  (forall id t, transports w' !! id = Some t -> transports w !! id = Some t) ->
  (forall t tr, transportObjects w !! t = Some tr ->
     exists tr', transportObjects w' !! t = Some tr' /\
                 sessionId tr' = sessionId tr /\
                 initialized tr' = initialized tr) ->
  table_ok w -> table_ok w'.
Proof.
  intros Hsub Hobj Hok id t Hid.
  destruct (Hok id t (Hsub _ _ Hid)) as (Htr & tr & Ht & Hs & Hi).
  split; [done|].
  destruct (Hobj _ _ Ht) as (tr' & Ht' & Hs' & Hi').
  exists tr'. split; [done|]. split; congruence.
Qed.

Lemma objects_extended (l l' : list Transport) t tr :
  l !! t = Some tr ->
  exists tr', (l ++ l') !! t = Some tr' /\ sessionId tr' = sessionId tr /\
              initialized tr' = initialized tr.
Proof. intros H. exists tr. split; [by apply lookup_app_l_Some|done]. Qed.

Lemma objects_closed (l : list Transport) t0 t tr :
  l !! t = Some tr ->
  exists tr', alter mark_closed t0 l !! t = Some tr' /\
              sessionId tr' = sessionId tr /\
              initialized tr' = initialized tr.
Proof.
  intros H. destruct (decide (t0 = t)) as [->|Hne].
  - exists (mark_closed tr). by rewrite list_lookup_alter_eq, H.
  - exists tr. by rewrite list_lookup_alter_ne.
Qed.

Lemma tools_ok_registry w w' :
  registry_part w' = registry_part w -> tools_ok w -> tools_ok w'.
Proof.
  unfold registry_part. intros [= Hf Hs] Hok srv s. rewrite Hf, Hs. apply Hok.
Qed.

Lemma tools_ok_created w w' :
  bonusToolLoaded w' = bonusToolLoaded w ->
  servers w' = servers w ++ [base_server] ->
  tools_ok w -> tools_ok w'.
Proof.
  intros Hf Hs Hok srv s. rewrite Hf, Hs.
  intros [H|[_ H]]%lookup_app_Some; [by apply (Hok srv)|].
  apply list_lookup_singleton_Some in H as [_ <-]. by left.
Qed.

Section Invariants.

Context `{rt : Runtime}.

Lemma session_step_table_ok w w' :
  session_step w w' -> table_ok w -> table_ok w'.
Proof.
  intros Hstep Hok. destruct Hstep as [| | |id Htr Hnone|t|id t].
  - done.
  - revert Hok. apply table_ok_mono; [done|]. apply objects_extended.
  - revert Hok. apply table_ok_mono; [done|]. apply objects_extended.
  - intros id' t' Hid'. cbn in Hid'.
    apply lookup_insert_Some in Hid' as [[<- <-]|[_ Hid']].
    + split; [done|]. eexists. split; [apply lookup_last|done].
    + destruct (Hok id' t' Hid') as (Htr' & tr & Ht & Hs).
      split; [done|]. exists tr. split; [|done].
      cbn. by apply lookup_app_l_Some.
  - revert Hok. apply table_ok_mono; [done|]. intros. by apply objects_closed.
  - revert Hok. apply table_ok_mono.
    + cbn. by intros id' t' [_ ?]%lookup_delete_Some.
    + intros. by apply objects_closed.
Qed.

Lemma session_step_flag w w' :
  session_step w w' -> bonusToolLoaded w' = bonusToolLoaded w.
Proof. by destruct 1. Qed.

Lemma session_step_servers w w' :
  session_step w w' ->
  servers w' = servers w \/ servers w' = servers w ++ [base_server].
Proof. destruct 1; auto. Qed.

Lemma session_step_tools_ok w w' :
  session_step w w' -> tools_ok w -> tools_ok w'.
Proof.
  intros Hstep.
  destruct (session_step_servers _ _ Hstep) as [Hs|Hs].
  - apply tools_ok_registry. unfold registry_part.
    by rewrite Hs, (session_step_flag _ _ Hstep).
  - apply tools_ok_created; [by apply session_step_flag|done].
Qed.

(** Closing a transport, whatever it is: the object is marked, and the
    entry of its session id, if it has one, leaves the table. *)
Lemma transport_close_step t w :
  session_step w (world_of (Http.transport_close t w)).
Proof.
  unfold Http.transport_close, Http.onclose.
  rewrite bind_update, bind_read.
  set (w1 := with_transportObjects _ w).
  destruct (transportObjects w1 !! t ≫= sessionId) as [id|]; cbn.
  - destruct (Js.truthy_string id).
    + unfold Http.table_delete, mbind, M_bind, update, emit. cbn.
      apply session_closed.
    + apply transport_closed.
  - apply transport_closed.
Qed.

(** Every request to /mcp is a [session_step]. *)
Lemma handle_step req w :
  table_ok w -> session_step w (world_of (Http.handle req w)).
Proof.
  intros Hok.
  destruct (String.eqb_spec (req_method req) "GET") as [Hget|Hget].
  { destruct (Http.known (mcp_session_id req) w) as [t|] eqn:Hk.
    - rewrite (handle_GET_known _ _ _ Hget Hk).
      destruct (mcp_session_id req) as [id|] eqn:Hh; [|done].
      pose proof Hk as [_ Hid]%known_Some.
      destruct (Hok _ _ Hid) as (_ & tr & Ht & _ & Hi).
      rewrite (transport_handleRequest_eq _ _ _ _ Ht). cbn.
      rewrite (dispatched_initialized _ _ _ _ Ht Hi). constructor.
    - rewrite (handle_GET_unknown _ _ Hget Hk). constructor. }
  destruct (String.eqb_spec (req_method req) "POST") as [Hpost|Hpost].
  { destruct (Http.known (mcp_session_id req) w) as [t|] eqn:Hk.
    - destruct (mcp_session_id req) as [id|] eqn:Hh; [|done].
      destruct (handle_POST_known _ _ _ _ Hok Hpost Hh Hk) as [resp ->].
      constructor.
    - destruct (body req) eqn:Hb.
      + destruct (handle_POST_new_initialize _ _ Hpost Hk Hb) as [_ ->].
        destruct (Js.truthy_string _) eqn:Htr; cbn; [|constructor].
        destruct (Http.has _ w) eqn:Hhas; cbn; [constructor|].
        apply session_stored; [done|].
        unfold Http.has in Hhas. apply bool_decide_eq_false in Hhas.
        by apply eq_None_not_Some.
      + rewrite (handle_POST_new_other _ _ Hpost Hk Hb). constructor. }
  destruct (String.eqb_spec (req_method req) "DELETE") as [Hdel|Hdel].
  { destruct (Http.known (mcp_session_id req) w) as [t|] eqn:Hk.
    - destruct (mcp_session_id req) as [id|] eqn:Hh; [|done].
      pose proof Hk as [_ Hid]%known_Some.
      destruct (Hok _ _ Hid) as (_ & tr & Ht & Hs & _).
      rewrite (handle_DELETE_known _ _ _ _ _ Hdel Hh Hk Ht Hs).
      apply session_closed.
    - rewrite (handle_DELETE_unknown _ _ Hdel Hk). constructor. }
  rewrite handle_other by done. constructor.
Qed.

End Invariants.

Lemma startup_invariant : invariant startup.
Proof. split; [by intros srv s H|by intros id t H]. Qed.

Section SystemFacts.

Context `{rt : Runtime}.

Lemma bind_mret_world {A B} (m : M A) (f : A -> B) w :
  world_of ((a ← m; mret (f a)) w) = world_of (m w).
Proof. rewrite bind_eq. by destruct (m w) as [[[?|?] ?] ?]. Qed.

(** The state after an operation. *)
Lemma step_CreateServer w :
  System.step System.OpCreateServer w
  = with_servers (servers w ++ [base_server]) w.
Proof.
  unfold System.step, System.run. rewrite bind_mret_world.
  by rewrite createServer_eq.
Qed.

Lemma step_CallTool srv name args env fuel w :
  System.step (System.OpCallTool srv name args env fuel) w
  = world_of (System.callTool srv name args env fuel w).
Proof. unfold System.step, System.run. apply bind_mret_world. Qed.

Lemma step_Exchange req w :
  System.step (System.OpExchange req) w = world_of (Http.handle req w).
Proof. unfold System.step, System.run. apply (bind_mret_world _ (fun _ => System.Done)). Qed.

Lemma step_TransportClosed t w :
  System.step (System.OpTransportClosed t) w
  = world_of (Http.transport_close t w).
Proof. unfold System.step, System.run. apply (bind_mret_world _ (fun _ => System.Done)). Qed.

Lemma step_invariant op w : invariant w -> invariant (System.step op w).
Proof.
  intros [Htools Htable]. destruct op as [|srv name args env fuel|p|r|req| |t].
  - rewrite step_CreateServer. split.
    + by apply (tools_ok_created w).
    + revert Htable. apply table_ok_mono; [done|]. intros t tr ?. by exists tr.
  - rewrite step_CallTool. split.
    + by apply callTool_tools_ok.
    + pose proof (callTool_keeps_sessions srv name args env fuel w) as H.
      unfold session_part in H. injection H as H1 H2 _.
      revert Htable. apply table_ok_mono.
      * intros id t. by rewrite H1.
      * intros t tr. rewrite H2. intros ?. by exists tr.
  - by destruct p.
  - by destruct r.
  - rewrite step_Exchange.
    pose proof (handle_step req w Htable) as Hstep. split.
    + by apply (session_step_tools_ok w).
    + by apply (session_step_table_ok w).
  - done.
  - rewrite step_TransportClosed.
    pose proof (transport_close_step t w) as Hstep. split.
    + by apply (session_step_tools_ok w).
    + by apply (session_step_table_ok w).
Qed.

Lemma exec_invariant ops : forall w, invariant w -> invariant (System.exec ops w).
Proof.
  induction ops as [|op ops IH]; intros w Hw; cbn; [done|].
  by apply IH, step_invariant.
Qed.

(** Every state the process gets to is well formed. *)
Lemma reachable_invariant ops : invariant (System.exec ops startup).
Proof. apply exec_invariant, startup_invariant. Qed.

(** How one operation moves the flag, in a well-formed state. *)
Lemma step_flag op w :
  invariant w ->
  bonusToolLoaded (System.step op w)
  = bonusToolLoaded w || System.loads_bonus op w.
Proof.
  intros [Htools Htable]. destruct op as [|srv name args env fuel|p|r|req| |t].
  - rewrite step_CreateServer. cbn. by rewrite orb_false_r.
  - rewrite step_CallTool. by apply callTool_flag.
  - destruct p; cbn; by rewrite orb_false_r.
  - destruct r; cbn; by rewrite orb_false_r.
  - rewrite step_Exchange. cbn. rewrite orb_false_r.
    by apply session_step_flag, handle_step.
  - cbn. by rewrite orb_false_r.
  - rewrite step_TransportClosed. cbn. rewrite orb_false_r.
    apply session_step_flag, transport_close_step.
Qed.

Lemma exec_app ops1 ops2 w :
  System.exec (ops1 ++ ops2) w = System.exec ops2 (System.exec ops1 w).
Proof. revert w. induction ops1 as [|op ops1 IH]; intros w; cbn; [done|apply IH]. Qed.

End SystemFacts.

(* ===================================================================== *)
(** * Session ids                                                         *)
(* ===================================================================== *)

Section SessionIds.

Context `{rt : Runtime}.

Lemma session_step_uuids w w' :
  session_step w w' -> (uuidsDrawn w <= uuidsDrawn w')%nat.
Proof. destruct 1; cbn; lia. Qed.

Lemma drawn_mono w w' id :
  (uuidsDrawn w <= uuidsDrawn w')%nat -> drawn w id -> drawn w' id.
Proof. intros Hle (k & Hk & ->). exists k. split; [lia|done]. Qed.

Lemma session_step_issued w w' :
  session_step w w' -> issued_ok w -> issued_ok w'.
Proof.
  intros Hstep Hok id t Hid.
  pose proof (session_step_uuids _ _ Hstep) as Hle.
  destruct Hstep as [| | |id0 Htr Hnone|t0|id0 t0]; cbn in Hid.
  - by apply (Hok id t).
  - by apply (Hok id t).
  - apply (drawn_mono w); [done|]. by apply (Hok id t).
  - apply lookup_insert_Some in Hid as [[<- _]|[_ Hid]].
    + exists (uuidsDrawn w). split; [cbn; lia|done].
    + apply (drawn_mono w); [done|]. by apply (Hok id t).
  - by apply (Hok id t).
  - apply lookup_delete_Some in Hid as [_ Hid]. by apply (Hok id t).
Qed.

(** With ids that are never drawn twice, an id that was drawn and is not
    in the table does not come into it. *)
Lemma session_step_absent w w' id :
  Inj (=) (=) randomUUID ->
  session_step w w' -> drawn w id ->
  transports w !! id = None -> transports w' !! id = None.
Proof.
  intros Hinj Hstep (k & Hk & ->) Hnone.
  destruct Hstep as [| | |id0 Htr Hnone0|t0|id0 t0]; cbn; try done.
  - rewrite lookup_insert_ne; [done|].
    intros Heq. apply Hinj in Heq. lia.
  - by apply lookup_delete_None; right.
Qed.

(** An operation other than a request to /mcp and the closing of a
    transport leaves the part of http.ts as it is. *)
Lemma step_sessions op w :
  invariant w ->
  session_step w (System.step op w) \/
  session_part (System.step op w) = session_part w.
Proof.
  intros [Htools Htable]. destruct op as [|srv name args env fuel|p|r|req| |t].
  - right. by rewrite step_CreateServer.
  - right. rewrite step_CallTool. apply callTool_keeps_sessions.
  - right. by destruct p.
  - right. by destruct r.
  - left. rewrite step_Exchange. by apply handle_step.
  - by right.
  - left. rewrite step_TransportClosed. apply transport_close_step.
Qed.

Lemma exec_issued ops :
  forall w, invariant w -> issued_ok w -> issued_ok (System.exec ops w).
Proof.
  induction ops as [|op ops IH]; intros w Hinv Hok; cbn; [done|].
  apply IH; [by apply step_invariant|].
  destruct (step_sessions op w Hinv) as [Hstep|Heq].
  - by apply (session_step_issued w).
  - unfold session_part in Heq. injection Heq as H1 _ H3.
    intros id t. rewrite H1. intros (k & Hk & ->)%Hok.
    exists k. split; [lia|done].
Qed.

Lemma reachable_issued ops : issued_ok (System.exec ops startup).
Proof.
  apply exec_issued; [apply startup_invariant|]. by intros id t H.
Qed.

Lemma exec_absent ops id :
  Inj (=) (=) randomUUID ->
  forall w, invariant w -> drawn w id -> transports w !! id = None ->
  transports (System.exec ops w) !! id = None.
Proof.
  intros Hinj. induction ops as [|op ops IH]; intros w Hinv Hd Hnone; cbn;
    [done|].
  destruct (step_sessions op w Hinv) as [Hstep|Heq].
  - apply IH; [by apply step_invariant| |by apply (session_step_absent w)].
    apply (drawn_mono w); [by apply session_step_uuids|done].
  - unfold session_part in Heq. injection Heq as H1 _ H3.
    apply IH; [by apply step_invariant| |by rewrite H1].
    apply (drawn_mono w); [lia|done].
Qed.

End SessionIds.

(* ===================================================================== *)
(** * The dynamically-loaded capability flag                              *)
(* ===================================================================== *)

(** C6. The flag is false when the process starts.  In every state the
    process gets to, an operation leaves a flag that is set as it is, and
    sets a flag that is not set exactly when the operation is a call of
    load_bonus_tool on one of the servers: the flag after the operation
    is the flag before it, or-ed with whether the operation is such a
    call.  So the first call of load_bonus_tool sets it, nothing else
    does, and nothing resets it.  A call counts once it has run to its
    end, also when it ends by its notification being refused. *)
Theorem flag_lifecycle `{rt : Runtime} (ops : list System.Op)
    (op : System.Op) :
  bonusToolLoaded startup = false /\
  bonusToolLoaded (System.step op (System.exec ops startup))
  = bonusToolLoaded (System.exec ops startup)
    || System.loads_bonus op (System.exec ops startup).
Proof.
  split; [reflexivity|]. apply step_flag, reachable_invariant.
Qed.

Section Flag.

Context `{rt : Runtime}.

(** Once set, the flag stays set. *)
Lemma flag_never_reset ops1 ops2 :
  bonusToolLoaded (System.exec ops1 startup) = true ->
  bonusToolLoaded (System.exec (ops1 ++ ops2) startup) = true.
Proof.
  rewrite exec_app. generalize (reachable_invariant ops1).
  generalize (System.exec ops1 startup) as w.
  induction ops2 as [|op ops2 IH]; intros w Hinv Hw; cbn; [done|].
  apply IH; [by apply step_invariant|].
  by rewrite step_flag, Hw.
Qed.

(** The flag is set after a run exactly when the run has a call of
    load_bonus_tool on a server that exists at that point. *)
Lemma flag_set_iff ops :
  bonusToolLoaded (System.exec ops startup) = true <->
  exists ops1 op ops2,
    ops = ops1 ++ op :: ops2 /\
    System.loads_bonus op (System.exec ops1 startup) = true.
Proof.
  induction ops as [|op ops IH] using rev_ind.
  - split; [done|]. intros (ops1 & op & ops2 & H & _). by destruct ops1.
  - rewrite exec_app. cbn.
    rewrite step_flag by apply reachable_invariant.
    rewrite orb_true_iff, IH. split.
    + intros [(ops1 & op' & ops2 & -> & H)|H].
      * exists ops1, op', (ops2 ++ [op]). by rewrite <- app_assoc.
      * exists ops, op, []. done.
    + intros (ops1 & op' & ops2 & Heq & H).
      destruct ops2 as [|x ops2 _] using rev_ind.
      * apply app_inj_tail in Heq as [-> ->]. by right.
      * left. rewrite app_comm_cons, app_assoc in Heq.
        apply app_inj_tail in Heq as [-> _]. eauto.
Qed.

End Flag.

(* ===================================================================== *)
(** * The server factory and the bonus unit                               *)
(* ===================================================================== *)

(** C2, as the code has it.  [createServer] never fails and emits
    nothing; it leaves the flag, the session table, the transports and
    the servers made before as they are, and adds one server; that server
    has the seven tools of [registerTools] and no bonus_calculator,
    whatever the flag is. *)
Theorem createServer_contract (w : World) :
  let r := Server.createServer w in
  result_of r = Ok (length (servers w)) /\
  events_of r = [] /\
  bonusToolLoaded (world_of r) = bonusToolLoaded w /\
  session_part (world_of r) = session_part w /\
  servers (world_of r) = servers w ++ [base_server] /\
  registeredTools base_server !! "bonus_calculator" = None /\
  forall name,
    is_Some (registeredTools base_server !! name) <->
    name ∈ [ "hello"; "get_weather"; "ask_llm"; "long_task";
             "load_bonus_tool"; "confirm_action"; "get_feedback" ].
Proof.
  cbn zeta. rewrite createServer_eq.
  split; [reflexivity|]. split; [reflexivity|]. split; [reflexivity|].
  split; [reflexivity|]. split; [reflexivity|].
  split; [apply base_tools_no_bonus|].
  intros name. cbn. split.
  - intros [cb H%base_tools_lookup].
    repeat (apply elem_of_cons in H as [[= -> _]|H]; [set_solver|]).
    by apply elem_of_nil in H.
  - intros H.
    repeat (apply elem_of_cons in H as [->|H];
            [eexists; vm_compute; reflexivity|]).
    by apply elem_of_nil in H.
Qed.


(** C2, as the claim has it, fails: after load_bonus_tool has run, the
    flag is set, and a server made then has no bonus_calculator. *)
Lemma createServer_ignores_flag :
  let w := @System.exec example_runtime run_load_bonus_once startup in
  let r := Server.createServer w in
  bonusToolLoaded w = true /\
  exists srv s,
    result_of r = Ok srv /\ servers (world_of r) !! srv = Some s /\
    registeredTools s !! "bonus_calculator" = None /\
    ~ (is_Some (registeredTools s !! "bonus_calculator")
       <-> bonusToolLoaded w = true).
Proof.
  cbn zeta. split; [vm_compute; reflexivity|].
  exists 1%nat, base_server. rewrite createServer_eq.
  split; [vm_compute; reflexivity|].
  split; [vm_compute; reflexivity|].
  split; [apply base_tools_no_bonus|].
  change (registeredTools base_server) with base_tools.
  rewrite base_tools_no_bonus. intros [_ H].
  destruct H as [? ?]; [vm_compute; reflexivity|done].
Qed.

(* ===================================================================== *)
(** * Loading the bonus unit twice                                        *)
(* ===================================================================== *)

Section LoadBonus.

Context `{rt : Runtime}.

(** A call of load_bonus_tool on a server of a well-formed state runs the
    handler; what the handler throws comes back as an error result. *)
Lemma callTool_load_bonus srv s args env fuel w :
  tools_ok w -> servers w !! srv = Some s ->
  System.callTool srv "load_bonus_tool" args env fuel w
  = try_catch (System.some (Tools.load_bonus_tool srv env))
      (fun error => mret (Some (error_result (message_of error)))) w.
Proof.
  intros Hok Hs. unfold System.callTool. rewrite bind_read, Hs. cbn.
  rewrite (proj2 (tools_ok_load _ _ _ "load_bonus_tool" Hok Hs) eq_refl).
  by destruct args.
Qed.

Lemma callTool_load_bonus_loaded srv s args env fuel w :
  tools_ok w -> servers w !! srv = Some s -> bonusToolLoaded w = true ->
  System.callTool srv "load_bonus_tool" args env fuel w
  = (Ok (Some (text_result Tools.already_loaded)), w, []).
Proof.
  intros Hok Hs Hf. rewrite (callTool_load_bonus _ _ _ _ _ _ Hok Hs).
  unfold try_catch, System.some.
  by rewrite bind_eq, load_bonus_tool_loaded.
Qed.

Lemma callTool_load_bonus_fresh srv args env fuel w :
  tools_ok w -> servers w !! srv = Some base_server ->
  bonusToolLoaded w = false ->
  System.callTool srv "load_bonus_tool" args env fuel w
  = (Ok (Some match sendNotification env ToolListChanged with
              | Ok _ => text_result Tools.has_been_loaded
              | Throw e => error_result (message_of e)
              end),
     with_bonusToolLoaded true
       (with_servers (<[srv := with_bonus base_server]> (servers w)) w),
     [SendNotification ToolListChanged]).
Proof.
  intros Hok Hs Hf. rewrite (callTool_load_bonus _ _ _ _ _ _ Hok Hs).
  unfold try_catch, System.some.
  rewrite bind_eq.
  erewrite load_bonus_tool_fresh; [|done..|apply base_tools_no_bonus].
  by destruct (sendNotification env ToolListChanged).
Qed.

End LoadBonus.





(* ===================================================================== *)
(** * The exchanges at the protocol endpoint                              *)
(* ===================================================================== *)

Section Exchanges.

Context `{rt : Runtime}.

Lemma unknown_session_known req w :
  unknown_session req w -> Http.known (mcp_session_id req) w = None.
Proof.
  unfold unknown_session, Http.known. intros H.
  destruct (mcp_session_id req) as [id|]; [|done].
  rewrite (H id eq_refl). by destruct (Js.truthy_string id).
Qed.

(** A request that names no session of the table is served the same
    whatever it names. *)
Lemma handle_unknown_same m b id id' w :
  Http.known id w = None -> Http.known id' w = None ->
  Http.handle {| req_method := m; mcp_session_id := id; body := b |} w
  = Http.handle {| req_method := m; mcp_session_id := id'; body := b |} w.
Proof.
  intros Hk Hk'.
  destruct (String.eqb_spec m "GET") as [->|Hget].
  { by rewrite !handle_GET_unknown. }
  destruct (String.eqb_spec m "POST") as [->|Hpost].
  { destruct b.
    - set (req := Build_Request _ id _). set (req' := Build_Request _ id' _).
      destruct (handle_POST_new_initialize req w eq_refl Hk eq_refl)
        as [_ ->].
      by destruct (handle_POST_new_initialize req' w eq_refl Hk' eq_refl)
        as [_ ->].
    - by rewrite !handle_POST_new_other. }
  destruct (String.eqb_spec m "DELETE") as [->|Hdel].
  { by rewrite !handle_DELETE_unknown. }
  by rewrite !handle_other.
Qed.

End Exchanges.

(** C3.  A GET or a DELETE that names no session of the table, be it
    that it names none at all, and a request with a verb other than GET,
    POST and DELETE, leave the session table as it is, and the whole
    state with it; the only thing they do is to answer 400, 404 and 405. *)
Theorem error_exchange_leaves_table `{rt : Runtime} (req : Request)
    (w : World) :
  (req_method req = "GET" /\ unknown_session req w) \/
  (req_method req = "DELETE" /\ unknown_session req w) \/
  disallowed_verb req ->
  transports (world_of (Http.handle req w)) = transports w /\
  world_of (Http.handle req w) = w /\
  result_of (Http.handle req w) = Ok tt /\
  events_of (Http.handle req w)
  = [Respond
       (if String.eqb (req_method req) "GET" then
          error_response 400 "Invalid or missing session ID"
        else if String.eqb (req_method req) "DELETE" then
          error_response 404 "Session not found"
        else error_response 405 "Method not allowed")].
Proof.
  intros [[Hm Hu]|[[Hm Hu]|(H1 & H2 & H3)]].
  - rewrite (handle_GET_unknown _ _ Hm (unknown_session_known _ _ Hu)), Hm.
    by repeat split.
  - rewrite (handle_DELETE_unknown _ _ Hm (unknown_session_known _ _ Hu)), Hm.
    by repeat split.
  - rewrite (handle_other _ _ H1 H2 H3).
    apply String.eqb_neq in H1, H3. rewrite H1, H3.
    by repeat split.
Qed.


(** The theorem at work: a GET that names a session nobody opened, in a
    process with one session. *)
Lemma error_exchange_leaves_table_witness :
  let w := @System.exec example_runtime one_session startup in
  let req := {| req_method := "GET"; mcp_session_id := Some "no-such-id";
                body := OtherMessage |} in
  transports (world_of (@Http.handle example_runtime req w)) = transports w /\
  world_of (@Http.handle example_runtime req w) = w /\
  result_of (@Http.handle example_runtime req w) = Ok tt /\
  events_of (@Http.handle example_runtime req w)
  = [Respond
       (if String.eqb (req_method req) "GET" then
          error_response 400 "Invalid or missing session ID"
        else if String.eqb (req_method req) "DELETE" then
          error_response 404 "Session not found"
        else error_response 405 "Method not allowed")].
Proof.
  cbn zeta.
  refine (@error_exchange_leaves_table example_runtime _ _ _).
  left. split; [reflexivity|].
  intros id [= <-]. vm_compute. reflexivity.
Defined.

(** C4.  In a state the process gets to, a DELETE that carries the id
    [id]: when the table has an entry for [id], answers 200 and leaves
    the table without that entry and otherwise as it was; from then on,
    in every state in which the table has no entry for [id], a request
    that carries [id] is served as the same request with any id the table
    has no entry for, and when no id is drawn twice the table has no
    entry for [id] ever after; when the table has no entry for [id], the
    DELETE answers 404 and leaves the state as it is. *)
Theorem delete_exchange `{rt : Runtime} (ops : list System.Op) (id : string)
    (b : Payload) :
  let w := System.exec ops startup in
  let r := Http.handle
             {| req_method := "DELETE"; mcp_session_id := Some id;
                body := b |} w in
  match transports w !! id with
  | Some t =>
      result_of r = Ok tt /\
      last (events_of r)
      = Some (Respond {| status := 200; session_header := None;
                         payload := MessageBody "Session closed" |}) /\
      transports (world_of r) = delete id (transports w) /\
      transports (world_of r) !! id = None /\
      (forall later m b' id',
         let w' := System.exec later (world_of r) in
         transports w' !! id = None ->
         transports w' !! id' = None ->
         Http.handle {| req_method := m; mcp_session_id := Some id;
                        body := b' |} w'
         = Http.handle {| req_method := m; mcp_session_id := Some id';
                          body := b' |} w') /\
      (Inj (=) (=) randomUUID ->
       forall later,
         transports (System.exec later (world_of r)) !! id = None)
  | None =>
      r = (Ok tt, w, [Respond (error_response 404 "Session not found")])
  end.
Proof.
  intros w r. pose proof (reachable_invariant ops) as Hinv.
  pose proof (reachable_issued ops) as Hissued.
  fold w in Hinv, Hissued. pose proof Hinv as [_ Htable].
  destruct (transports w !! id) as [t|] eqn:Hid.
  - destruct (Htable _ _ Hid) as (Htr & tr & Ht & Hs & _).
    assert (Http.known (Some id) w = Some t) as Hk by by apply known_Some.
    pose proof (step_invariant
                  (System.OpExchange (Build_Request "DELETE" (Some id) b))
                  w Hinv) as Hinv'.
    rewrite step_Exchange in Hinv'. fold r in Hinv'.
    subst r.
    rewrite (handle_DELETE_known (Build_Request "DELETE" (Some id) b)
               w id t tr eq_refl eq_refl Hk Ht Hs) in *.
    cbn [result_of world_of events_of fst snd] in *.
    split; [done|]. split; [done|]. split; [done|].
    split; [apply lookup_delete_eq|]. split.
    + intros later m b' id' Hnone Hnone'. apply handle_unknown_same.
      * unfold Http.known. by rewrite Htr.
      * unfold Http.known. rewrite Hnone'.
        by destruct (Js.truthy_string id').
    + intros Hinj later. apply exec_absent; [done|done| |].
      * destruct (Hissued _ _ Hid) as (k & Hk' & ->). by exists k.
      * apply lookup_delete_eq.
  - subst r. apply handle_DELETE_unknown; [done|].
    unfold Http.known. cbn. rewrite Hid. by destruct (Js.truthy_string id).
Qed.

(** The theorem at work on the session a process has opened: the DELETE
    of its id answers 200 and empties the table, and the id is not in
    the table after the next handshake either. *)
Lemma delete_exchange_witness :
  let w := @System.exec example_runtime one_session startup in
  let r := @Http.handle example_runtime
             {| req_method := "DELETE"; mcp_session_id := Some "uuid-0";
                body := OtherMessage |} w in
  transports w !! "uuid-0" = Some 0%nat /\
  result_of r = Ok tt /\
  last (events_of r)
  = Some (Respond {| status := 200; session_header := None;
                     payload := MessageBody "Session closed" |}) /\
  transports (world_of r) = delete "uuid-0" (transports w) /\
  transports (world_of r) = ∅ /\
  transports (@System.exec example_runtime one_session (world_of r))
  !! "uuid-0" = None.
Proof.
  cbn zeta.
  pose proof (@delete_exchange example_runtime one_session "uuid-0"
                OtherMessage) as H.
  cbn zeta in H.
  assert (transports (@System.exec example_runtime one_session startup)
          !! "uuid-0" = Some 0%nat) as Hid by (vm_compute; reflexivity).
  rewrite Hid in H. destruct H as (H1 & H2 & H3 & _ & _ & H4).
  split; [exact Hid|]. split; [exact H1|]. split; [exact H2|].
  split; [exact H3|]. split.
  - rewrite H3. vm_compute. reflexivity.
  - exact (H4 example_randomUUID_inj one_session).
Defined.

(** [Respond resp ∈ l] for a list [l] of events: [resp] is one of the
    responses of [l]. *)
Ltac response_among H :=
  repeat (apply elem_of_cons in H as [H|H];
          [first [discriminate H | injection H as H]|]);
  try (by apply elem_of_nil in H).

Section NewSession.

Context `{rt : Runtime}.

(** A transport that has opened its session puts no other id than its
    own on a response. *)
Lemma dispatched_header w t tr req id id' :
  initialized tr = true -> sessionId tr = Some id' ->
  session_header (dispatched w t tr req).2 = Some id -> id = id'.
Proof.
  intros Hi Hs. unfold dispatched, Sdk.handleRequest. rewrite Hi, Hs. cbn.
  destruct (String.eqb _ "POST"); [destruct (body req)|];
    repeat match goal with |- context [if ?b then _ else _] => destruct b end;
    repeat match goal with |- context [match ?o with _ => _ end] =>
             destruct o end;
    cbn; congruence.
Qed.

(** A POST for a session of the table, with the response. *)
Lemma handle_POST_session req w id t tr :
  req_method req = "POST" ->
  mcp_session_id req = Some id ->
  transports w !! id = Some t ->
  Js.truthy_string id = true ->
  transportObjects w !! t = Some tr ->
  sessionId tr = Some id -> initialized tr = true ->
  Http.handle req w = (Ok tt, w, [Respond (dispatched w t tr req).2]).
Proof.
  intros Hm Hh Hid Htr Ht Hs Hi. rewrite handle_POST by done.
  assert (Http.known (mcp_session_id req) w = Some t) as Hk.
  { rewrite Hh. by apply known_Some. }
  rewrite bind_eq, (post_dispatch_known _ _ _ _ Hk Ht).
  rewrite (dispatched_initialized _ _ _ _ Ht Hi).
  by rewrite (post_store_eq _ _ _ Ht), Hs, (has_true _ _ _ Hid), andb_false_r.
Qed.

(** A GET that names a session of the table is answered by the transport
    of the session, with the id of the session. *)
Lemma handle_GET_session id b w :
  table_ok w -> is_Some (transports w !! id) ->
  Http.handle {| req_method := "GET"; mcp_session_id := Some id; body := b |}
    w
  = (Ok tt, w, [Respond (ok_response (Some id))]).
Proof.
  intros Hok [t Hid].
  destruct (Hok _ _ Hid) as (Htr & tr & Ht & Hs & Hi).
  rewrite (handle_GET_known _ _ t) by (done || by apply known_Some).
  rewrite (transport_handleRequest_eq _ _ _ _ Ht).
  rewrite (dispatched_initialized _ _ _ _ Ht Hi).
  unfold dispatched, Sdk.handleRequest, Sdk.session_matches.
  rewrite Hi, Hs. cbn. by rewrite bool_decide_eq_true_2.
Qed.

(** A DELETE that names a session of the table is answered 200. *)
Lemma handle_DELETE_session id b w :
  table_ok w -> is_Some (transports w !! id) ->
  responses
    (events_of
       (Http.handle {| req_method := "DELETE"; mcp_session_id := Some id;
                       body := b |} w))
  = [{| status := 200; session_header := None;
        payload := MessageBody "Session closed" |}].
Proof.
  intros Hok [t Hid].
  destruct (Hok _ _ Hid) as (Htr & tr & Ht & Hs & Hi).
  by rewrite (handle_DELETE_known _ _ id t tr)
    by (done || by apply known_Some).
Qed.

(** The id a response of an exchange carries is in the table when the
    exchange is over; when it was not in the table before, the exchange
    has written the response and has stored the entry, and nothing
    else. *)
Lemma handle_header req w resp id :
  table_ok w ->
  Respond resp ∈ events_of (Http.handle req w) ->
  session_header resp = Some id ->
  Js.truthy_string id = true ->
  is_Some (transports (world_of (Http.handle req w)) !! id) /\
  (transports w !! id = None ->
   Http.handle req w
   = (Ok tt,
      with_transports (<[id := length (transportObjects w)]> (transports w))
        (with_opened_session w),
      [Respond (ok_response (Some id));
       TableSet id (length (transportObjects w));
       ConsoleLog ("New session: " +:+ id)])).
Proof.
  intros Hok.
  destruct (String.eqb_spec (req_method req) "GET") as [Hget|Hget].
  { destruct (Http.known (mcp_session_id req) w) as [t'|] eqn:Hk.
    - rewrite (handle_GET_known _ _ _ Hget Hk).
      destruct (mcp_session_id req) as [id'|] eqn:Hh; [|done].
      pose proof Hk as [_ Hid]%known_Some.
      destruct (Hok _ _ Hid) as (_ & tr & Ht & Hs & Hi).
      rewrite (transport_handleRequest_eq _ _ _ _ Ht).
      rewrite (dispatched_initialized _ _ _ _ Ht Hi).
      cbn [events_of world_of fst snd]. intros H Hhd _. response_among H.
      subst resp. apply (dispatched_header _ _ _ _ _ _ Hi Hs) in Hhd as ->.
      split; [by eexists|congruence].
    - rewrite (handle_GET_unknown _ _ Hget Hk).
      cbn [events_of world_of fst snd]. intros H Hhd _. response_among H.
      by subst resp. }
  destruct (String.eqb_spec (req_method req) "POST") as [Hpost|Hpost].
  { destruct (Http.known (mcp_session_id req) w) as [t'|] eqn:Hk.
    - destruct (mcp_session_id req) as [id'|] eqn:Hh; [|done].
      pose proof Hk as [Htr' Hid]%known_Some.
      destruct (Hok _ _ Hid) as (_ & tr & Ht & Hs & Hi).
      rewrite (handle_POST_session _ _ _ _ _ Hpost Hh Hid Htr' Ht Hs Hi).
      cbn [events_of world_of fst snd]. intros H Hhd _. response_among H.
      subst resp. apply (dispatched_header _ _ _ _ _ _ Hi Hs) in Hhd as ->.
      split; [by eexists|congruence].
    - destruct (body req) eqn:Hb.
      + destruct (handle_POST_new_initialize _ _ Hpost Hk Hb) as [_ ->].
        destruct (Js.truthy_string (randomUUID (uuidsDrawn w))
                  && negb (Http.has (randomUUID (uuidsDrawn w)) w))
          eqn:Hif; cbn [events_of world_of fst snd];
          intros H Hhd Htr; response_among H; subst resp;
          injection Hhd as <-.
        * split; [|done]. cbn. rewrite lookup_insert_eq. by eexists.
        * rewrite Htr in Hif. cbn in Hif.
          apply negb_false_iff, bool_decide_eq_true in Hif.
          split; [exact Hif|].
          intros Hnone. rewrite Hnone in Hif. by destruct Hif.
      + rewrite (handle_POST_new_other _ _ Hpost Hk Hb).
        cbn [events_of world_of fst snd]. intros H Hhd _. response_among H.
        by subst resp. }
  destruct (String.eqb_spec (req_method req) "DELETE") as [Hdel|Hdel].
  { destruct (Http.known (mcp_session_id req) w) as [t'|] eqn:Hk.
    - destruct (mcp_session_id req) as [id'|] eqn:Hh; [|done].
      pose proof Hk as [_ Hid]%known_Some.
      destruct (Hok _ _ Hid) as (_ & tr & Ht & Hs & _).
      rewrite (handle_DELETE_known _ _ _ _ _ Hdel Hh Hk Ht Hs).
      cbn [events_of world_of fst snd]. intros H Hhd _. response_among H.
      by subst resp.
    - rewrite (handle_DELETE_unknown _ _ Hdel Hk).
      cbn [events_of world_of fst snd]. intros H Hhd _. response_among H.
      by subst resp. }
  rewrite handle_other by done.
  cbn [events_of world_of fst snd]. intros H Hhd _. response_among H.
  by subst resp.
Qed.

End NewSession.

(** C1.  An exchange is one step of a run of the process: the state the
    next request is served in is the state the handler leaves.  In every
    state the process gets to, when an exchange writes a response that
    carries a session id, the table has the entry of that id in the state
    the exchange leaves.  When the id is a new one, which the table did
    not have before, the exchange has written that one response and has
    stored the entry, the response first in the order of the events, and
    the table is the one of before with the new entry.  A follow-up with
    the id is served from the table: a GET is answered 200 with the id,
    a DELETE is answered that the session is closed. *)
Theorem new_session_stored_with_response `{rt : Runtime}
    (ops : list System.Op) (req : Request) (resp : Response) (id : string) :
  let w := System.exec ops startup in
  let r := Http.handle req w in
  let after := System.exec (ops ++ [System.OpExchange req]) startup in
  Respond resp ∈ events_of r ->
  session_header resp = Some id ->
  Js.truthy_string id = true ->
  after = world_of r /\
  is_Some (transports after !! id) /\
  (transports w !! id = None ->
   exists t,
     events_of r
     = [Respond (ok_response (Some id)); TableSet id t;
        ConsoleLog ("New session: " +:+ id)] /\
     transports after = <[id := t]> (transports w)) /\
  forall b,
    Http.handle {| req_method := "GET"; mcp_session_id := Some id;
                   body := b |} after
    = (Ok tt, after, [Respond (ok_response (Some id))]) /\
    responses
      (events_of
         (Http.handle {| req_method := "DELETE"; mcp_session_id := Some id;
                         body := b |} after))
    = [{| status := 200; session_header := None;
          payload := MessageBody "Session closed" |}].
Proof.
  intros w r after Hresp Hhd Htr.
  assert (after = world_of r) as Hafter.
  { unfold after. rewrite exec_app. cbn [System.exec]. apply step_Exchange. }
  destruct (reachable_invariant ops) as [_ Htable]. fold w in Htable.
  destruct (reachable_invariant (ops ++ [System.OpExchange req]))
    as [_ Htable'].
  fold after in Htable'.
  destruct (handle_header _ _ _ _ Htable Hresp Hhd Htr) as [Hin Hnew].
  fold r in Hin, Hnew. rewrite <- Hafter in Hin.
  split; [done|]. split; [done|]. split.
  - intros Hnone. exists (length (transportObjects w)).
    rewrite Hafter, (Hnew Hnone). by split.
  - intros b. split.
    + by apply handle_GET_session.
    + by apply handle_DELETE_session.
Qed.

(** The theorem at work on the first request a process gets. *)
Lemma new_session_stored_with_response_witness :
  let r := @Http.handle example_runtime initialize_request startup in
  let after :=
    @System.exec example_runtime [System.OpExchange initialize_request]
      startup in
  after = world_of r /\
  is_Some (transports after !! "uuid-0") /\
  (transports startup !! "uuid-0" = None ->
   exists t,
     events_of r
     = [Respond (ok_response (Some "uuid-0")); TableSet "uuid-0" t;
        ConsoleLog "New session: uuid-0"] /\
     transports after = <["uuid-0" := t]> (transports startup)) /\
  forall b,
    @Http.handle example_runtime
      {| req_method := "GET"; mcp_session_id := Some "uuid-0"; body := b |}
      after
    = (Ok tt, after, [Respond (ok_response (Some "uuid-0"))]) /\
    responses
      (events_of
         (@Http.handle example_runtime
            {| req_method := "DELETE"; mcp_session_id := Some "uuid-0";
               body := b |} after))
    = [{| status := 200; session_header := None;
          payload := MessageBody "Session closed" |}].
Proof.
  cbn zeta.
  refine (@new_session_stored_with_response example_runtime []
            initialize_request (ok_response (Some "uuid-0")) "uuid-0" _ _ _).
  - vm_compute. apply list_elem_of_In. left. reflexivity.
  - reflexivity.
  - reflexivity.
Defined.

(* ===================================================================== *)
(** * long_task                                                           *)
(* ===================================================================== *)

Section LongTask.

Context `{rt : Runtime}.

Lemma long_task_loop_end env fuel i n w :
  (i <? n)%float = false ->
  Tools.long_task_loop env fuel i n w = (Ok true, w, []).
Proof. intros H. destruct fuel; cbn; by rewrite H. Qed.

Lemma long_task_loop_step env fuel i n w :
  (i <? n)%float = true ->
  sendNotification env (Tools.progress_notification i n) = Ok tt ->
  Tools.long_task_loop env (S fuel) i n w
  = (result_of (Tools.long_task_loop env fuel (i + 1)%float n w),
     world_of (Tools.long_task_loop env fuel (i + 1)%float n w),
     SendNotification (Tools.progress_notification i n) :: SetTimeout 1000
     :: events_of (Tools.long_task_loop env fuel (i + 1)%float n w)).
Proof.
  intros Hlt Hok. cbn [Tools.long_task_loop]. rewrite Hlt.
  unfold extra_sendNotification. rewrite Hok.
  unfold mbind, M_bind, emit, await, mret, M_ret. cbn.
  by destruct (Tools.long_task_loop env fuel (i + 1)%float n w) as [[[?|?] ?] ?].
Qed.

Lemma long_task_loop_refused env fuel i n w e :
  (i <? n)%float = true ->
  sendNotification env (Tools.progress_notification i n) = Throw e ->
  Tools.long_task_loop env (S fuel) i n w
  = (Throw e, w, [SendNotification (Tools.progress_notification i n)]).
Proof.
  intros Hlt Hok. cbn [Tools.long_task_loop]. rewrite Hlt.
  unfold extra_sendNotification. rewrite Hok. reflexivity.
Qed.

Lemma long_task_loop_out_of_fuel env i n w :
  (i <? n)%float = true ->
  Tools.long_task_loop env 0 i n w = (Ok false, w, []).
Proof. intros H. cbn. by rewrite H. Qed.

End LongTask.

(** C7, as the code has it.  A call of long_task without [steps] takes
    five steps.  When the client takes the five progress notifications,
    and the loop is given its five iterations, the handler sends exactly
    these five, of progress 0/5, 1/5, 2/5, 3/5 and 4/5 in this order,
    each followed by a wait of a second, and then returns the completion
    message; the state is as before.  The five progress values are
    increasing. *)
Theorem long_task_default_progress `{rt : Runtime} (env : Environment)
    (fuel : nat) (taskName : string) (w : World) :
  (5 <= fuel)%nat ->
  Forall (fun n => sendNotification env n = Ok tt)
    five_progress_notifications ->
  Tools.long_task env fuel taskName None w
  = (Ok (Some (text_result
                 ("Task " +:+ dq +:+ taskName +:+ dq +:+
                  " completed successfully after 5 steps!"))),
     w, progress_events five_progress_notifications) /\
  notifications (progress_events five_progress_notifications)
  = five_progress_notifications /\
  omap progress_value five_progress_notifications
  = [0 / 5; 1 / 5; 2 / 5; 3 / 5; 4 / 5]%float /\
  increasing [0 / 5; 1 / 5; 2 / 5; 3 / 5; 4 / 5]%float = true.
Proof.
  intros Hfuel Hsend.
  split; [|by vm_compute].
  do 5 (destruct fuel as [|fuel]; [lia|]). clear Hfuel.
  unfold five_progress_notifications in Hsend. cbn [map] in Hsend.
  repeat match goal with
         | H : Forall _ (_ :: _) |- _ =>
             apply Forall_cons in H as [? H]
         end.
  unfold Tools.long_task. cbn [default].
  rewrite bind_eq.
  do 5 (rewrite long_task_loop_step; [|reflexivity|assumption]).
  rewrite long_task_loop_end by reflexivity.
  cbn [result_of world_of events_of fst snd].
  assert (Tools.Number_toString 5 = "5") as -> by (vm_compute; reflexivity).
  reflexivity.
Qed.

(** The theorem at work with a client that takes every notification. *)
Lemma long_task_default_progress_witness :
  @Tools.long_task example_runtime quiet_client 5 "demo" None startup
  = (Ok (Some (text_result
                 ("Task " +:+ dq +:+ "demo" +:+ dq +:+
                  " completed successfully after 5 steps!"))),
     startup, progress_events five_progress_notifications) /\
  notifications (progress_events five_progress_notifications)
  = five_progress_notifications /\
  omap progress_value five_progress_notifications
  = [0 / 5; 1 / 5; 2 / 5; 3 / 5; 4 / 5]%float /\
  increasing [0 / 5; 1 / 5; 2 / 5; 3 / 5; 4 / 5]%float = true.
Proof.
  refine (@long_task_default_progress example_runtime quiet_client 5 "demo"
            startup _ _).
  - lia.
  - repeat constructor.
Defined.

(** C7, as the claim has it, fails for a client that takes no
    notification: a call of long_task without [steps] calls
    [extra.sendNotification] with the first progress notification, the
    client refuses it, and the call ends there with the error of the
    refusal.  One notification was sent, not five, and no completion
    message is returned. *)
Lemma long_task_refused_notification :
  let r :=
    @Tools.long_task example_runtime gone_client 5 "demo" None startup in
  result_of r = Throw (Error "Not connected") /\
  events_of r
  = [SendNotification (Progress "long_task" (0 / 5)%float 1%float)] /\
  notifications (events_of r) <> five_progress_notifications.
Proof.
  cbn zeta.
  split; [vm_compute; reflexivity|].
  split; [vm_compute; reflexivity|].
  vm_compute. intros H. discriminate H.
Qed.

Section LongTaskRefused.

Context `{rt : Runtime}.

(** Whatever the client does with the notifications, a call of long_task
    without [steps] sends the five progress notifications in their order
    up to the first one the client refuses, and returns the completion
    message only when it has sent all five. *)
Lemma long_task_default_prefix env fuel taskName w :
  let r := Tools.long_task env fuel taskName None w in
  notifications (events_of r) `prefix_of` five_progress_notifications /\
  (forall res, result_of r = Ok (Some res) ->
     notifications (events_of r) = five_progress_notifications).
Proof.
  cbn zeta. unfold Tools.long_task. cbn [default]. rewrite bind_eq.
  do 5 (destruct fuel as [|fuel];
        [rewrite long_task_loop_out_of_fuel by reflexivity;
         cbn; split; [by eexists|done]|];
        match goal with
        | |- context [Tools.long_task_loop env (S _) ?i ?n w] =>
            destruct (sendNotification env (Tools.progress_notification i n))
              as [[]|e] eqn:?;
            [rewrite long_task_loop_step by (reflexivity || assumption)
            |rewrite (long_task_loop_refused _ _ _ _ _ e)
               by (reflexivity || assumption);
             cbn; split; [by eexists|done]]
        end).
  rewrite long_task_loop_end by reflexivity.
  cbn. split; [by exists []|done].
Qed.

End LongTaskRefused.

(* ===================================================================== *)
(** * The listen port                                                     *)
(* ===================================================================== *)

(** C8, as the code has it.  [PORT] is 3000 when the variable is unset
    or empty; the integer [parseInt] reads off the value when it reads
    one; and [NaN], not 3000, when the value is not empty and [parseInt]
    reads no integer off it. *)
Theorem PORT_cases (env_PORT : option string) :
  (env_PORT = None \/ env_PORT = Some "" ->
   Http.PORT env_PORT = Js.IntNum 3000) /\
  (forall s n, env_PORT = Some s -> Js.parseInt s 10 = Js.IntNum n ->
     Http.PORT env_PORT = Js.IntNum n) /\
  (forall s, env_PORT = Some s -> s <> "" -> Js.parseInt s 10 = Js.NaN ->
     Http.PORT env_PORT = Js.NaN).
Proof.
  unfold Http.PORT. split; [|split].
  - by intros [->| ->].
  - intros s n -> Hs. destruct s; [done|]. exact Hs.
  - intros s -> Hne Hs. destruct s; [done|]. exact Hs.
Qed.

(** C8, as the claim has it, fails for a value that is no number: the
    port is [NaN], not 3000. *)
Lemma PORT_unparseable :
  Js.parseInt "abc" 10 = Js.NaN /\
  Http.PORT (Some "abc") = Js.NaN /\
  Http.PORT (Some "abc") <> Js.IntNum 3000.
Proof. by vm_compute. Qed.

Example PORT_unset : Http.PORT None = Js.IntNum 3000.
Proof. reflexivity. Qed.

Example PORT_8080 : Http.PORT (Some "8080") = Js.IntNum 8080.
Proof. reflexivity. Qed.

Example PORT_prefix : Http.PORT (Some "80 81") = Js.IntNum 80.
Proof. reflexivity. Qed.

Example PORT_blank : Http.PORT (Some " ") = Js.NaN.
Proof. reflexivity. Qed.

(* ===================================================================== *)
(** * bonus_calculator                                                    *)
(* ===================================================================== *)

Section Calculator.

Context `{rt : Runtime}.

Lemma ops_lookup a b operation :
  Tools.ops a b !! Tools.operation_name operation
  = Some (calculation a b operation).
Proof.
  unfold Tools.ops.
  destruct operation; cbn [Tools.operation_name calculation];
    repeat (rewrite lookup_insert_ne by done);
    rewrite lookup_insert_eq; try done.
  by destruct (b =? 0)%float.
Qed.

Lemma Number_toString_nan : Tools.Number_toString nan = "NaN".
Proof. reflexivity. Qed.

End Calculator.

(** C9, as the code has it.  The handler of bonus_calculator is a total
    function: for all Numbers [a] and [b] and each of the four operations
    it returns a text result, no error.  The text ends with the value of
    the operation on [a] and [b]: for a division by a [b] that is zero,
    [NaN], printed "NaN"; in the other cases the result of the operator
    of the language, which is the operation of the standard on binary64
    values, the exact result rounded to the nearest Number. *)
Theorem bonus_calculator_total `{rt : Runtime} (a b : float)
    (operation : Tools.Operation) :
  Tools.bonus_calculator a b operation
  = text_result
      (Tools.Number_toString a +:+ " " +:+ Tools.operation_name operation
       +:+ " " +:+ Tools.Number_toString b +:+ " = " +:+
       Tools.Number_toString (calculation a b operation)) /\
  isError (Tools.bonus_calculator a b operation) = false /\
  ((b =? 0)%float = true ->
   Tools.bonus_calculator a b Tools.divide
   = text_result
       (Tools.Number_toString a +:+ " divide " +:+
        Tools.Number_toString b +:+ " = NaN")) /\
  (operation <> Tools.divide \/ (b =? 0)%float = false ->
   Prim2SF (calculation a b operation) = ieee_calculation a b operation).
Proof.
  unfold Tools.bonus_calculator. rewrite !ops_lookup.
  split; [reflexivity|]. split; [reflexivity|]. split.
  - intros Hb.
    cbn [Tools.template_number Tools.operation_name calculation].
    by rewrite Hb.
  - intros Hop. destruct operation; cbn [calculation ieee_calculation].
    + apply add_spec.
    + apply sub_spec.
    + apply mul_spec.
    + destruct Hop as [Hop|Hop]; [done|]. rewrite Hop. apply div_spec.
Qed.

Example calculator_scenario :
  @Tools.bonus_calculator example_runtime 6 3 Tools.multiply
  = text_result "6 multiply 3 = 18".
Proof. vm_compute. reflexivity. Qed.

Example calculator_divide_by_zero :
  @Tools.bonus_calculator example_runtime 1 0 Tools.divide
  = text_result "1 divide 0 = NaN".
Proof. vm_compute. reflexivity. Qed.

Example calculator_divide_by_negative_zero :
  @Tools.bonus_calculator example_runtime 1 (-0) Tools.divide
  = text_result "1 divide 0 = NaN".
Proof. vm_compute. reflexivity. Qed.

(** C9, as the claim has it, fails where the exact result is no Number:
    2^53 and 1 are Numbers, their sum 2^53 + 1 is not, and the handler
    answers that 2^53 add 1 is 2^53. *)
Lemma calculator_sum_rounded :
  let a := 9007199254740992%float in
  let b := 1%float in
  @Tools.bonus_calculator example_runtime a b Tools.add
  = text_result "9007199254740992 add 1 = 9007199254740992" /\
  denotes a (9007199254740992 # 1) = true /\
  denotes b (1 # 1) = true /\
  denotes (calculation a b Tools.add) (9007199254740992 # 1) = true /\
  denotes (calculation a b Tools.add) ((9007199254740992 # 1) + (1 # 1))
  = false.
Proof.
  cbn zeta.
  split; [vm_compute; reflexivity|].
  split; [vm_compute; reflexivity|].
  split; [vm_compute; reflexivity|].
  split; vm_compute; reflexivity.
Qed.

(** The same with fractions: the sum of the Numbers nearest to 0.1 and
    0.2 is not their sum as rationals. *)
Example calculator_tenths :
  let a := (1 / 10)%float in
  let b := (2 / 10)%float in
  match Js.exact a, Js.exact b with
  | Some x, Some y => denotes (calculation a b Tools.add) (x + y) = false
  | _, _ => False
  end.
Proof. vm_compute. reflexivity. Qed.

(* ===================================================================== *)
(** * The greet prompt                                                    *)
(* ===================================================================== *)

Lemma styles_lookup name key :
  Prompts.styles name !! key
  = if String.eqb key "formal" then Some (Prompts.formal_text name)
    else if String.eqb key "casual" then Some (Prompts.casual_text name)
    else if String.eqb key "enthusiastic"
         then Some (Prompts.enthusiastic_text name)
    else None.
Proof.
  unfold Prompts.styles.
  destruct (String.eqb_spec key "formal") as [->|H1].
  { by rewrite lookup_insert_eq. }
  rewrite lookup_insert_ne by done.
  destruct (String.eqb_spec key "casual") as [->|H2].
  { by rewrite lookup_insert_eq. }
  rewrite lookup_insert_ne by done.
  destruct (String.eqb_spec key "enthusiastic") as [->|H3].
  { by rewrite lookup_insert_eq. }
  by rewrite lookup_insert_ne.
Qed.

(** Without a style, or with an empty one, the prompt is the casual one. *)
Lemma greet_default name style :
  style = None \/ style = Some "" ->
  Prompts.greet name style
  = {| Prompts.role := "user";
       Prompts.prompt_text := Js.VOwn (Prompts.casual_text name) |}.
Proof.
  intros [->| ->]; unfold Prompts.greet; cbn [Js.or_default Js.truthy_string];
    unfold Js.get; by rewrite styles_lookup.
Qed.

(** With a style that is no key of [styles] and no member of
    [Object.prototype] either, the prompt is the casual one. *)
Lemma greet_fallback name style :
  style ∉ ["formal"; "casual"; "enthusiastic"] ->
  style ∉ Js.Object_prototype_keys ->
  Prompts.greet name (Some style)
  = {| Prompts.role := "user";
       Prompts.prompt_text := Js.VOwn (Prompts.casual_text name) |}.
Proof.
  intros Hkey Hproto. unfold Prompts.greet.
  destruct style as [|c s]; [by apply greet_default; right|].
  cbn [Js.or_default Js.truthy_string]. unfold Js.get at 1.
  rewrite styles_lookup.
  repeat match goal with
         | |- context [String.eqb ?x ?y] =>
             destruct (String.eqb_spec x y) as [Heq|_];
             [rewrite Heq in Hkey; set_solver|]
         end.
  rewrite bool_decide_eq_false_2 by done.
  unfold Js.or, Js.get. by rewrite styles_lookup.
Qed.

(** C10 at the input ["constructor"], a style that is none of the three:
    the lookup [styles[style]] finds the member [constructor] of
    [Object.prototype], a function, which is truthy, so the fallback to
    [styles.casual] is not taken and the text of the prompt is that
    function, not the casual message. *)
Theorem greet_inherited_style :
  ("constructor" ∉ ["formal"; "casual"; "enthusiastic"]) /\
  Prompts.greet "Ada" (Some "constructor")
  = {| Prompts.role := "user";
       Prompts.prompt_text := Js.VInherited "constructor" |} /\
  (Prompts.prompt_text (Prompts.greet "Ada" (Some "constructor")))
  <> (Js.VOwn (Prompts.casual_text "Ada")).
Proof.
  split; [|split].
  - intros H. repeat (apply elem_of_cons in H as [H|H]; [discriminate H|]).
    by apply elem_of_nil in H.
  - vm_compute. reflexivity.
  - vm_compute. discriminate.
Qed.

(** The same for every member of [Object.prototype]. *)
Lemma greet_inherited name style :
  style ∈ Js.Object_prototype_keys ->
  Prompts.greet name (Some style)
  = {| Prompts.role := "user"; Prompts.prompt_text := Js.VInherited style |}.
Proof.
  intros H. unfold Js.Object_prototype_keys in H.
  repeat (apply elem_of_cons in H as [->|H]; [by vm_compute|]).
  by apply elem_of_nil in H.
Qed.

(* ===================================================================== *)
(** * Scenarios                                                           *)
(* ===================================================================== *)

(** A handshake, then the greeting unit called with "Ada" on the server of
    the session. *)
Example scenario_greeting :
  let w := @System.exec example_runtime one_session startup in
  transports w !! "uuid-0" = Some 0%nat /\
  (transportObjects w !! 0%nat) ≫= connected = Some 0%nat /\
  result_of (@System.callTool example_runtime 0 "hello"
               (System.HelloArgs "Ada") quiet_client 0 w)
  = Ok (Some (text_result "Hello, Ada! Welcome to MCP.")).
Proof.
  cbn zeta. split; [vm_compute; reflexivity|].
  split; vm_compute; reflexivity.
Qed.

(** The calculator is not there before load_bonus_tool has run, and
    computes after. *)
Example scenario_calculator :
  let w := @System.exec example_runtime [System.OpCreateServer] startup in
  let six_times_three := System.CalculatorArgs 6 3 Tools.multiply in
  let loaded :=
    @System.callTool example_runtime 0 "load_bonus_tool" System.NoArgs
      quiet_client 0 w in
  result_of (@System.callTool example_runtime 0 "bonus_calculator"
               six_times_three quiet_client 0 w)
  = Ok (Some (error_result
                "MCP error -32602: Tool bonus_calculator not found")) /\
  result_of loaded = Ok (Some (text_result Tools.has_been_loaded)) /\
  result_of (@System.callTool example_runtime 0 "bonus_calculator"
               six_times_three quiet_client 0 (world_of loaded))
  = Ok (Some (text_result "6 multiply 3 = 18")).
Proof.
  cbn zeta. split; [vm_compute; reflexivity|].
  split; vm_compute; reflexivity.
Qed.

(** A DELETE with an id nobody was given: 404, and the count of sessions
    the health surface reports stays. *)
Example scenario_delete_unknown :
  let w := @System.exec example_runtime one_session startup in
  let r := @Http.handle example_runtime
             {| req_method := "DELETE"; mcp_session_id := Some "T";
                body := OtherMessage |} w in
  events_of r = [Respond (error_response 404 "Session not found")] /\
  Http.sessions (Http.health (world_of r)) = Http.sessions (Http.health w) /\
  Http.sessions (Http.health w) = 1%nat.
Proof.
  cbn zeta. split; [vm_compute; reflexivity|].
  split; vm_compute; reflexivity.
Qed.

(** A client whose connection is gone: load_bonus_tool sets the flag and
    registers the calculator all the same, and its failure comes back as
    an error result. *)
Example load_bonus_notification_refused :
  let w := @System.exec example_runtime [System.OpCreateServer] startup in
  let r := @System.callTool example_runtime 0 "load_bonus_tool"
             System.NoArgs gone_client 0 w in
  result_of r = Ok (Some (error_result "Not connected")) /\
  bonusToolLoaded (world_of r) = true /\
  servers (world_of r) !! 0%nat = Some (with_bonus base_server).
Proof.
  cbn zeta. split; [vm_compute; reflexivity|].
  split; vm_compute; reflexivity.
Qed.

(* ===================================================================== *)
(** * More on the listen port                                             *)
(* ===================================================================== *)

Lemma digits_prefix_stop s acc :
  no_digit_ahead s = true -> Js.digits_prefix 10 s acc = acc.
Proof.
  destruct s as [|c s]; [done|]. cbn [no_digit_ahead Js.digits_prefix].
  intros H%bool_decide_eq_true. by rewrite H.
Qed.

(** Reading the digits of a decimal numeral is what [Pos.of_uint_acc] does. *)
Lemma digits_prefix_acc (d : Decimal.uint) (rest : string) :
  no_digit_ahead rest = true ->
  forall acc : positive,
    Js.digits_prefix 10 (NilEmpty.string_of_uint d +:+ rest) (Some (Z.pos acc))
    = Some (Z.pos (Pos.of_uint_acc d acc)).
Proof.
  intros Hrest.
  induction d as [|d IH|d IH|d IH|d IH|d IH|d IH|d IH|d IH|d IH|d IH];
    intros acc;
    [by apply digits_prefix_stop|..];
    simpl; rewrite <- IH;
    match goal with
    | |- context [(Js.code ?c - 48)%Z] =>
        let v := eval vm_compute in (Js.code c - 48)%Z in
        change (Js.code c - 48)%Z with v
    end;
    do 2 f_equal; lia.
Qed.

Lemma digits_prefix_of_uint (d : Decimal.uint) (rest : string) :
  no_digit_ahead rest = true ->
  Js.digits_prefix 10 (NilEmpty.string_of_uint d +:+ rest) (Some 0)
  = Some (Z.of_N (Pos.of_uint d)).
Proof.
  intros Hrest.
  induction d as [|d IH|d IH|d IH|d IH|d IH|d IH|d IH|d IH|d IH|d IH];
    [by apply digits_prefix_stop|exact IH|..];
    simpl; by rewrite <- (digits_prefix_acc d rest Hrest).
Qed.

Lemma digits_prefix_start (d : Decimal.uint) (rest : string) :
  d <> Decimal.Nil ->
  Js.digits_prefix 10 (NilEmpty.string_of_uint d +:+ rest) None
  = Js.digits_prefix 10 (NilEmpty.string_of_uint d +:+ rest) (Some 0).
Proof. by destruct d. Qed.

(** A numeral starts with a digit: there is no white space to skip and no
    sign to take off. *)
Lemma numeral_head (d : Decimal.uint) (rest : string) :
  d <> Decimal.Nil ->
  Js.strip_sign (Js.trim_start (NilEmpty.string_of_uint d +:+ rest))
  = (1, NilEmpty.string_of_uint d +:+ rest).
Proof. by destruct d. Qed.

Lemma digits_prefix_numeral (d : Decimal.uint) (rest : string) :
  d <> Decimal.Nil -> no_digit_ahead rest = true ->
  Js.digits_prefix 10 (NilEmpty.string_of_uint d +:+ rest) None
  = Some (Z.of_N (Pos.of_uint d)).
Proof.
  intros Hd Hrest. rewrite digits_prefix_start by done.
  by apply digits_prefix_of_uint.
Qed.

Lemma string_of_uint_nonnil (d : Decimal.uint) :
  d <> Decimal.Nil -> NilZero.string_of_uint d = NilEmpty.string_of_uint d.
Proof. by destruct d. Qed.

(** [parseInt] reads the decimal numeral of an integer back, whatever
    follows it, as long as that is no further digit. *)
Lemma parseInt_Z_to_string (n : Z) (rest : string) :
  no_digit_ahead rest = true ->
  Js.parseInt (Js.Z_to_string n +:+ rest) 10 = Js.IntNum n.
Proof.
  intros Hrest. unfold Js.Z_to_string, Js.parseInt.
  assert (forall p, Pos.to_uint p <> Decimal.Nil) as Hnonnil
    by apply DecimalPos.Unsigned.to_uint_nonnil.
  destruct n as [|p|p]; cbn [Z.to_int NilZero.string_of_int].
  - rewrite string_of_uint_nonnil, numeral_head by done.
    cbn -[Js.digits_prefix NilEmpty.string_of_uint Pos.to_uint].
    by rewrite digits_prefix_numeral.
  - rewrite string_of_uint_nonnil, numeral_head by done.
    cbn -[Js.digits_prefix NilEmpty.string_of_uint Pos.to_uint].
    rewrite (digits_prefix_numeral (Pos.to_uint p) rest) by done.
    by rewrite DecimalPos.Unsigned.of_to.
  - rewrite string_of_uint_nonnil by done.
    change (Js.strip_sign (Js.trim_start _))
      with (-1, NilEmpty.string_of_uint (Pos.to_uint p) +:+ rest).
    cbn -[Js.digits_prefix NilEmpty.string_of_uint Pos.to_uint].
    rewrite digits_prefix_numeral by done.
    by rewrite DecimalPos.Unsigned.of_to.
Qed.

Lemma Z_to_string_truthy (n : Z) (rest : string) :
  Js.truthy_string (Js.Z_to_string n +:+ rest) = true.
Proof.
  unfold Js.Z_to_string. destruct n as [|p|p]; cbn; try done.
  pose proof (DecimalPos.Unsigned.to_uint_nonnil p). by destruct (Pos.to_uint p).
Qed.

(** X1.  When the variable PORT holds the decimal numeral of an integer of
    magnitude at most 2^53, up to which a Number is the integer itself,
    followed by nothing or by text that does not go on with a digit,
    [PORT] is that integer: also a negative one or one above 65535, for
    the code checks no range. *)
Theorem PORT_reads_numeral (n : Z) (rest : string) :
  Z.abs n <= Js.two53 ->
  no_digit_ahead rest = true ->
  Http.PORT (Some (Js.Z_to_string n +:+ rest)) = Js.IntNum n.
Proof.
  intros _ Hrest. unfold Http.PORT. cbn [Js.or_default].
  rewrite Z_to_string_truthy. by apply parseInt_Z_to_string.
Qed.

(** The theorem at work. *)
Lemma PORT_reads_numeral_witness :
  Http.PORT (Some "-8080 # the port") = Js.IntNum (-8080).
Proof.
  refine (PORT_reads_numeral (-8080) " # the port" _ eq_refl).
  unfold Js.two53. lia.
Defined.

Lemma digits_prefix_Some (R : Z) (s : string) :
  forall a, is_Some (Js.digits_prefix R s (Some a)).
Proof.
  induction s as [|c s IH]; intros a; cbn; [eauto|].
  destruct (Js.digit_value R c); [apply IH|eauto].
Qed.

Lemma digits_prefix_None (s : string) :
  Js.digits_prefix 10 s None = None <-> no_digit_ahead s = true.
Proof.
  destruct s as [|c s]; cbn; [done|].
  rewrite bool_decide_eq_true.
  destruct (Js.digit_value 10 c) as [d|]; [|done].
  split; [|done]. intros H.
  by destruct (digits_prefix_Some 10 s (10 * 0 + d)) as [m Hm]; rewrite Hm in H.
Qed.

(** X2.  [PORT] is [NaN] exactly when the variable holds a non-empty
    string in which, after the leading white space and one optional
    sign, no decimal digit comes first. *)
Theorem PORT_NaN_iff (s : string) :
  Http.PORT (Some s) = Js.NaN <->
  s <> "" /\ no_digit_ahead (Js.strip_sign (Js.trim_start s)).2 = true.
Proof.
  unfold Http.PORT. destruct s as [|c s].
  { split; [done|]. by intros [? _]. }
  cbn [Js.or_default Js.truthy_string]. unfold Js.parseInt.
  destruct (Js.strip_sign _) as [sign rest]. cbn -[Js.digits_prefix].
  rewrite <- digits_prefix_None.
  destruct (Js.digits_prefix 10 rest None); split; try done.
  - by intros [_ ?].
Qed.

(* ===================================================================== *)
(** * More on the requests to /mcp                                        *)
(* ===================================================================== *)

Section Requests.

Context `{rt : Runtime}.

(** What a request to /mcp does, verb by verb: it returns, writes one
    response, and only a POST adds to the table, only a DELETE takes
    from it. *)
Lemma handle_cases req w :
  table_ok w ->
  exists resp,
    result_of (Http.handle req w) = Ok tt /\
    responses (events_of (Http.handle req w)) = [resp] /\
    (req_method req <> "POST" ->
     transports (world_of (Http.handle req w)) ⊆ transports w) /\
    (req_method req <> "DELETE" ->
     transports w ⊆ transports (world_of (Http.handle req w))) /\
    list_changes (events_of (Http.handle req w)) = 0%nat.
Proof.
  intros Hok.
  destruct (String.eqb_spec (req_method req) "GET") as [Hget|Hget].
  { destruct (Http.known (mcp_session_id req) w) as [t|] eqn:Hk.
    - rewrite (handle_GET_known _ _ _ Hget Hk).
      destruct (mcp_session_id req) as [id|] eqn:Hh; [|done].
      pose proof Hk as [_ Hid]%known_Some.
      destruct (Hok _ _ Hid) as (_ & tr & Ht & _ & Hi).
      rewrite (transport_handleRequest_eq _ _ _ _ Ht).
      rewrite (dispatched_initialized _ _ _ _ Ht Hi). eexists. by cbn.
    - rewrite (handle_GET_unknown _ _ Hget Hk). eexists. by cbn. }
  destruct (String.eqb_spec (req_method req) "POST") as [Hpost|Hpost].
  { destruct (Http.known (mcp_session_id req) w) as [t|] eqn:Hk.
    - destruct (mcp_session_id req) as [id|] eqn:Hh; [|done].
      destruct (handle_POST_known _ _ _ _ Hok Hpost Hh Hk) as [resp ->].
      exists resp. by cbn.
    - destruct (body req) eqn:Hb.
      + destruct (handle_POST_new_initialize _ _ Hpost Hk Hb) as [_ ->].
        destruct (Js.truthy_string _) eqn:Htr; cbn [andb];
          [|eexists; by cbn].
        destruct (Http.has _ w) eqn:Hhas; cbn [negb];
          [eexists; by cbn|].
        eexists. split; [done|]. split; [done|]. split; [done|].
        split; [|done].
        intros _. cbn. apply insert_subseteq.
        unfold Http.has in Hhas. apply bool_decide_eq_false in Hhas.
        by apply eq_None_not_Some.
      + rewrite (handle_POST_new_other _ _ Hpost Hk Hb). eexists. by cbn. }
  destruct (String.eqb_spec (req_method req) "DELETE") as [Hdel|Hdel].
  { destruct (Http.known (mcp_session_id req) w) as [t|] eqn:Hk.
    - destruct (mcp_session_id req) as [id|] eqn:Hh; [|done].
      pose proof Hk as [_ Hid]%known_Some.
      destruct (Hok _ _ Hid) as (_ & tr & Ht & Hs & _).
      rewrite (handle_DELETE_known _ _ _ _ _ Hdel Hh Hk Ht Hs).
      eexists. split; [done|]. split; [done|]. split; [|done].
      intros _. cbn. apply delete_subseteq.
    - rewrite (handle_DELETE_unknown _ _ Hdel Hk). eexists. by cbn. }
  rewrite handle_other by done. eexists. by cbn.
Qed.

End Requests.

(** X3.  In every state the process gets to, the handler of /mcp returns
    for every request, whatever its verb, header and body, and writes
    exactly one response. *)
Theorem every_request_answered_once `{rt : Runtime} (ops : list System.Op)
    (req : Request) :
  let r := Http.handle req (System.exec ops startup) in
  result_of r = Ok tt /\ exists resp, responses (events_of r) = [resp].
Proof.
  cbn zeta.
  destruct (handle_cases req (System.exec ops startup)) as (resp & H1 & H2 & _).
  { apply reachable_invariant. }
  eauto.
Qed.

(** X4.  In every state the process gets to, a request that is no POST
    adds no entry to the session table, a request that is no DELETE
    takes none from it, and a request that is neither leaves the table
    as it is. *)
Theorem table_changes_by_verb `{rt : Runtime} (ops : list System.Op)
    (req : Request) :
  let w := System.exec ops startup in
  let w' := world_of (Http.handle req w) in
  (req_method req <> "POST" -> transports w' ⊆ transports w) /\
  (req_method req <> "DELETE" -> transports w ⊆ transports w') /\
  (req_method req <> "POST" -> req_method req <> "DELETE" ->
   transports w' = transports w).
Proof.
  cbn zeta.
  destruct (handle_cases req (System.exec ops startup))
    as (_ & _ & _ & H1 & H2 & _).
  { apply reachable_invariant. }
  split; [done|]. split; [done|]. intros Hp Hd.
  apply (anti_symm (⊆)); auto.
Qed.

(** X5.  In every state the process gets to, a GET or a POST that names a
    session of the table is handed to the transport of that session,
    which writes the one response.  The exchange makes no server and no
    transport, draws no session id, and leaves the table and the
    transport objects as they are; a GET leaves the whole state as it
    is.  What a POST asks of the server, a tool call say, is the
    server's to do, an operation of its own in a run: whichever call
    follows, the table, the transport objects and the ids drawn are
    still as they were before the exchange. *)
Theorem known_session_exchange `{rt : Runtime} (ops : list System.Op)
    (req : Request) (id : string) (t : nat) :
  let w := System.exec ops startup in
  let r := Http.handle req w in
  transports w !! id = Some t ->
  mcp_session_id req = Some id ->
  req_method req = "GET" \/ req_method req = "POST" ->
  result_of r = Ok tt /\
  (exists resp, responses (events_of r) = [resp]) /\
  session_part (world_of r) = session_part w /\
  length (servers (world_of r)) = length (servers w) /\
  (req_method req = "GET" -> world_of r = w) /\
  (forall srv name args env fuel,
     session_part
       (world_of (System.callTool srv name args env fuel (world_of r)))
     = session_part w).
Proof.
  cbn zeta. intros Hid Hh Hm.
  destruct (reachable_invariant ops) as [_ Htable].
  destruct (Htable _ _ Hid) as (Htr & tr & Ht & Hs & Hi).
  assert (Http.known (Some id) (System.exec ops startup) = Some t) as Hk
    by by apply known_Some.
  assert (exists resp,
            Http.handle req (System.exec ops startup)
            = (Ok tt, System.exec ops startup, [Respond resp])) as [resp ->].
  { destruct Hm as [Hm|Hm].
    - rewrite <- Hh in Hk. rewrite (handle_GET_known _ _ _ Hm Hk).
      rewrite (transport_handleRequest_eq _ _ _ _ Ht).
      rewrite (dispatched_initialized _ _ _ _ Ht Hi). eauto.
    - by apply (handle_POST_known _ _ id t). }
  cbn [result_of world_of events_of fst snd].
  split; [done|]. split; [by exists resp|]. split; [done|].
  split; [done|]. split; [done|].
  intros srv name args env fuel. apply callTool_keeps_sessions.
Qed.

(** The theorem at work after a handshake. *)
Lemma known_session_exchange_witness :
  let w := @System.exec example_runtime one_session startup in
  let req := {| req_method := "GET"; mcp_session_id := Some "uuid-0";
                body := OtherMessage |} in
  let r := @Http.handle example_runtime req w in
  result_of r = Ok tt /\
  (exists resp, responses (events_of r) = [resp]) /\
  session_part (world_of r) = session_part w /\
  length (servers (world_of r)) = length (servers w) /\
  (req_method req = "GET" -> world_of r = w) /\
  (forall srv name args env fuel,
     session_part
       (world_of (@System.callTool example_runtime srv name args env fuel
                    (world_of r)))
     = session_part w).
Proof.
  cbn zeta.
  refine (@known_session_exchange example_runtime one_session
            {| req_method := "GET"; mcp_session_id := Some "uuid-0";
               body := OtherMessage |} "uuid-0" 0 _ _ _).
  - vm_compute. reflexivity.
  - reflexivity.
  - left. reflexivity.
Defined.

(** X6.  Every POST that names no session of the table makes a server, with
    the tools, resources and prompts of [createServer], and a transport,
    in any state, whatever its body.  When the body is no initialize
    request the transport refuses it with status 400, no session id is
    drawn and the table stays as it is: the two objects are left behind. *)
Theorem POST_without_session_makes_server `{rt : Runtime} (req : Request)
    (w : World) :
  let r := Http.handle req w in
  req_method req = "POST" ->
  Http.known (mcp_session_id req) w = None ->
  result_of r = Ok tt /\
  servers (world_of r) = servers w ++ [base_server] /\
  length (transportObjects (world_of r)) = S (length (transportObjects w)) /\
  bonusToolLoaded (world_of r) = bonusToolLoaded w /\
  (body req = OtherMessage ->
   transports (world_of r) = transports w /\
   uuidsDrawn (world_of r) = uuidsDrawn w /\
   forall e, e ∈ events_of r -> exists resp, e = Respond resp /\ status resp = 400).
Proof.
  cbn zeta. intros Hm Hk. destruct (body req) eqn:Hb.
  - destruct (handle_POST_new_initialize _ _ Hm Hk Hb) as [_ ->].
    destruct (_ && _); cbn; rewrite length_app; cbn;
      (split; [done|]); (split; [done|]); (split; [lia|]); by split.
  - rewrite (handle_POST_new_other _ _ Hm Hk Hb). cbn.
    rewrite length_app. cbn.
    split; [done|]. split; [done|]. split; [lia|]. split; [done|].
    intros _. split; [done|]. split; [done|].
    intros e ->%list_elem_of_singleton. eauto.
Qed.

(** The theorem at work with a POST that names a session nobody has. *)
Lemma POST_without_session_makes_server_witness :
  let req := {| req_method := "POST"; mcp_session_id := Some "stale";
                body := OtherMessage |} in
  let r := @Http.handle example_runtime req startup in
  result_of r = Ok tt /\
  servers (world_of r) = servers startup ++ [base_server] /\
  length (transportObjects (world_of r))
  = S (length (transportObjects startup)) /\
  bonusToolLoaded (world_of r) = bonusToolLoaded startup /\
  (body req = OtherMessage ->
   transports (world_of r) = transports startup /\
   uuidsDrawn (world_of r) = uuidsDrawn startup /\
   forall e, e ∈ events_of r -> exists resp, e = Respond resp /\ status resp = 400).
Proof.
  cbn zeta.
  refine (@POST_without_session_makes_server example_runtime
            {| req_method := "POST"; mcp_session_id := Some "stale";
               body := OtherMessage |} startup _ _).
  - reflexivity.
  - vm_compute. reflexivity.
Defined.

(** X7.  A handshake and the DELETE of its session undo each other on the
    table.  In any state, when the id drawn for an initialize POST is not
    empty and not in the table, the POST answers with the id and then
    stores the transport under it, one session more for /health; a DELETE
    that names the id then closes the transport, which takes the entry
    out, answers 200, and leaves the table, and the count of /health, as
    they were before the POST. *)
Theorem session_round_trip `{rt : Runtime} (w : World) (req del : Request) :
  let id := randomUUID (uuidsDrawn w) in
  let opened := Http.handle req w in
  let closed := Http.handle del (world_of opened) in
  req_method req = "POST" -> body req = InitializeRequest ->
  Http.known (mcp_session_id req) w = None ->
  id <> "" -> transports w !! id = None ->
  req_method del = "DELETE" -> mcp_session_id del = Some id ->
  events_of opened
  = [ Respond (ok_response (Some id));
      TableSet id (length (transportObjects w));
      ConsoleLog ("New session: " +:+ id) ] /\
  transports (world_of opened)
  = <[id := length (transportObjects w)]> (transports w) /\
  Http.sessions (Http.health (world_of opened))
  = S (Http.sessions (Http.health w)) /\
  events_of closed
  = session_closed_events id
    ++ [ TableDelete id;
         Respond {| status := 200; session_header := None;
                    payload := MessageBody "Session closed" |} ] /\
  transports (world_of closed) = transports w /\
  Http.sessions (Http.health (world_of closed))
  = Http.sessions (Http.health w).
Proof.
  cbn zeta. intros Hm Hb Hk Hne Hnone Hdm Hdh.
  apply truthy_string_ne in Hne.
  destruct (handle_POST_new_initialize _ _ Hm Hk Hb) as [_ ->].
  rewrite Hne, (has_false _ _ Hnone). cbn [andb negb].
  cbn [events_of world_of fst snd].
  split; [done|]. split; [done|].
  split.
  { unfold Http.health. cbn. by rewrite map_size_insert_None. }
  erewrite (handle_DELETE_known del _ _ (length (transportObjects w)));
    [|done|done| |apply lookup_last|reflexivity].
  2: { apply known_Some. split; [done|]. cbn. apply lookup_insert_eq. }
  cbn [events_of world_of fst snd].
  split; [done|].
  assert (delete (randomUUID (uuidsDrawn w))
            (<[randomUUID (uuidsDrawn w) := length (transportObjects w)]>
               (transports w)) = transports w) as Hback
    by by apply delete_insert_id.
  split; [exact Hback|].
  unfold Http.health. cbn. by rewrite Hback.
Qed.

(** The theorem at work on the process as it starts. *)
Lemma session_round_trip_witness :
  let opened := @Http.handle example_runtime initialize_request startup in
  let closed :=
    @Http.handle example_runtime (delete_request "uuid-0") (world_of opened) in
  events_of opened
  = [ Respond (ok_response (Some "uuid-0")); TableSet "uuid-0" 0;
      ConsoleLog "New session: uuid-0" ] /\
  transports (world_of opened) = <["uuid-0" := 0%nat]> (transports startup) /\
  Http.sessions (Http.health (world_of opened))
  = S (Http.sessions (Http.health startup)) /\
  events_of closed
  = session_closed_events "uuid-0"
    ++ [ TableDelete "uuid-0";
         Respond {| status := 200; session_header := None;
                    payload := MessageBody "Session closed" |} ] /\
  transports (world_of closed) = transports startup /\
  Http.sessions (Http.health (world_of closed))
  = Http.sessions (Http.health startup).
Proof.
  cbn zeta.
  refine (@session_round_trip example_runtime startup initialize_request
            (delete_request "uuid-0") _ _ _ _ _ _ _).
  - reflexivity.
  - reflexivity.
  - reflexivity.
  - discriminate.
  - reflexivity.
  - reflexivity.
  - reflexivity.
Defined.

Section Fresh.

Context `{rt : Runtime}.

(** With ids that are never drawn twice, the id that is drawn next is not
    in the table. *)
Lemma next_id_fresh ops :
  Inj (=) (=) randomUUID ->
  let w := System.exec ops startup in
  transports w !! randomUUID (uuidsDrawn w) = None.
Proof.
  intros Hinj. cbn zeta.
  destruct (transports _ !! _) as [t|] eqn:H; [|done].
  destruct (reachable_issued ops _ _ H) as (k & Hk & Heq).
  apply Hinj in Heq. lia.
Qed.

End Fresh.

(** X8.  With session ids that are never empty and never drawn twice, every
    handshake opens a session, in every state the process gets to: an
    initialize POST that names no session of the table is answered with
    the id drawn for it, which was not in the table, and the transport
    is stored under that id; the table has this one entry more, and
    /health counts one session more. *)
Theorem handshake_opens_session `{rt : Runtime} (ops : list System.Op)
    (req : Request) :
  let w := System.exec ops startup in
  let id := randomUUID (uuidsDrawn w) in
  let r := Http.handle req w in
  Inj (=) (=) randomUUID -> (forall k, randomUUID k <> "") ->
  req_method req = "POST" -> body req = InitializeRequest ->
  Http.known (mcp_session_id req) w = None ->
  transports w !! id = None /\
  responses (events_of r) = [ok_response (Some id)] /\
  transports (world_of r) = <[id := length (transportObjects w)]> (transports w) /\
  Http.sessions (Http.health (world_of r)) = S (Http.sessions (Http.health w)) /\
  uuidsDrawn (world_of r) = S (uuidsDrawn w).
Proof.
  cbn zeta. intros Hinj Hne Hm Hb Hk.
  pose proof (next_id_fresh ops Hinj) as Hfresh. cbn zeta in Hfresh.
  split; [done|].
  destruct (handle_POST_new_initialize _ _ Hm Hk Hb) as [_ ->].
  rewrite (proj2 (truthy_string_ne _) (Hne _)), (has_false _ _ Hfresh).
  cbn [andb negb events_of world_of fst snd].
  split; [done|]. split; [done|]. split; [|done].
  unfold Http.health. cbn. by rewrite map_size_insert_None.
Qed.

Lemma example_randomUUID_nonempty k : @randomUUID example_runtime k <> "".
Proof. discriminate. Qed.

(** The theorem at work after a first handshake. *)
Lemma handshake_opens_session_witness :
  let w := @System.exec example_runtime one_session startup in
  let r := @Http.handle example_runtime initialize_request w in
  transports w !! "uuid-1" = None /\
  responses (events_of r) = [ok_response (Some "uuid-1")] /\
  transports (world_of r) = <["uuid-1" := 1%nat]> (transports w) /\
  Http.sessions (Http.health (world_of r)) = S (Http.sessions (Http.health w)) /\
  uuidsDrawn (world_of r) = S (uuidsDrawn w).
Proof.
  cbn zeta.
  refine (@handshake_opens_session example_runtime one_session
            initialize_request example_randomUUID_inj
            example_randomUUID_nonempty _ _ _).
  - reflexivity.
  - reflexivity.
  - reflexivity.
Defined.

(** X9.  In every state the process gets to, when the transport of a
    session of the table closes by itself, its [onclose] callback takes
    the entry of the session out of the table and logs it; the transport
    is closed, the servers stay, and a GET that names the session is
    then answered 400 like one that names none. *)
Theorem closing_transport_leaves_table `{rt : Runtime} (ops : list System.Op)
    (id : string) (t : nat) (b : Payload) :
  let w := System.exec ops startup in
  let r := System.run (System.OpTransportClosed t) w in
  transports w !! id = Some t ->
  result_of r = Ok System.Done /\
  events_of r = session_closed_events id /\
  transports (world_of r) = delete id (transports w) /\
  (closed <$> transportObjects (world_of r) !! t) = Some true /\
  servers (world_of r) = servers w /\
  events_of
    (Http.handle {| req_method := "GET"; mcp_session_id := Some id;
                    body := b |} (world_of r))
  = [Respond (error_response 400 "Invalid or missing session ID")].
Proof.
  cbn zeta. intros Hid.
  destruct (reachable_invariant ops) as [_ Htable].
  destruct (Htable _ _ Hid) as (Htr & tr & Ht & Hs & Hi).
  assert (System.run (System.OpTransportClosed t) (System.exec ops startup)
          = (Ok System.Done,
             with_transports (delete id (transports (System.exec ops startup)))
               (with_transportObjects
                  (alter mark_closed t
                     (transportObjects (System.exec ops startup)))
                  (System.exec ops startup)),
             session_closed_events id)) as ->.
  { unfold System.run. rewrite bind_eq.
    by rewrite (transport_close_eq _ _ _ _ Ht Hs Htr). }
  cbn [result_of world_of events_of fst snd].
  split; [done|]. split; [done|]. split; [done|].
  split; [cbn; by rewrite list_lookup_alter_eq, Ht|]. split; [done|].
  rewrite handle_GET_unknown; [done|done|].
  cbn. rewrite Htr. apply lookup_delete_eq.
Qed.

(** The theorem at work after a handshake. *)
Lemma closing_transport_leaves_table_witness :
  let w := @System.exec example_runtime one_session startup in
  let r := @System.run example_runtime (System.OpTransportClosed 0) w in
  result_of r = Ok System.Done /\
  events_of r = session_closed_events "uuid-0" /\
  transports (world_of r) = delete "uuid-0" (transports w) /\
  (closed <$> transportObjects (world_of r) !! 0%nat) = Some true /\
  servers (world_of r) = servers w /\
  events_of
    (@Http.handle example_runtime
       {| req_method := "GET"; mcp_session_id := Some "uuid-0";
          body := OtherMessage |} (world_of r))
  = [Respond (error_response 400 "Invalid or missing session ID")].
Proof.
  cbn zeta.
  refine (@closing_transport_leaves_table example_runtime one_session
            "uuid-0" 0 OtherMessage _).
  vm_compute. reflexivity.
Defined.

(* ===================================================================== *)
(** * More on the session table                                           *)
(* ===================================================================== *)

Section Changes.

Context `{rt : Runtime}.

Lemma transport_close_change t w :
  table_ok w -> session_change w (world_of (Http.transport_close t w)).
Proof.
  intros Hok. unfold Http.transport_close, Http.onclose.
  rewrite bind_update, bind_read.
  cbn [transportObjects with_transportObjects].
  rewrite list_lookup_alter_eq.
  destruct (transportObjects w !! t) as [tr|] eqn:Ht; cbn.
  - destruct (sessionId tr) as [id|] eqn:Hid; cbn.
    + destruct (Js.truthy_string id) eqn:Htr.
      * unfold Http.table_delete, mbind, M_bind, update, emit. cbn.
        apply change_unregistered. intros id' Hid'.
        destruct (Hok _ _ Hid') as (_ & tr' & Ht' & Hs' & _). congruence.
      * apply change_closed. intros id' Hid'.
        destruct (Hok _ _ Hid') as (Htr' & tr' & Ht' & Hs' & _). congruence.
    + apply change_closed. intros id' Hid'.
      destruct (Hok _ _ Hid') as (_ & tr' & Ht' & Hs' & _). congruence.
  - apply change_closed. intros id' Hid'.
    destruct (Hok _ _ Hid') as (_ & tr' & Ht' & _). congruence.
Qed.

(** Every request to /mcp is a [session_change]. *)
Lemma handle_change req w :
  table_ok w -> session_change w (world_of (Http.handle req w)).
Proof.
  intros Hok.
  destruct (String.eqb_spec (req_method req) "GET") as [Hget|Hget].
  { destruct (Http.known (mcp_session_id req) w) as [t|] eqn:Hk.
    - rewrite (handle_GET_known _ _ _ Hget Hk).
      destruct (mcp_session_id req) as [id|] eqn:Hh; [|done].
      pose proof Hk as [_ Hid]%known_Some.
      destruct (Hok _ _ Hid) as (_ & tr & Ht & _ & Hi).
      rewrite (transport_handleRequest_eq _ _ _ _ Ht). cbn.
      rewrite (dispatched_initialized _ _ _ _ Ht Hi). constructor.
    - rewrite (handle_GET_unknown _ _ Hget Hk). constructor. }
  destruct (String.eqb_spec (req_method req) "POST") as [Hpost|Hpost].
  { destruct (Http.known (mcp_session_id req) w) as [t|] eqn:Hk.
    - destruct (mcp_session_id req) as [id|] eqn:Hh; [|done].
      destruct (handle_POST_known _ _ _ _ Hok Hpost Hh Hk) as [resp ->].
      constructor.
    - destruct (body req) eqn:Hb.
      + destruct (handle_POST_new_initialize _ _ Hpost Hk Hb) as [_ ->].
        destruct (Js.truthy_string _) eqn:Htr; cbn; [|constructor].
        destruct (Http.has _ w) eqn:Hhas; cbn; [constructor|].
        apply change_stored; [done|].
        unfold Http.has in Hhas. apply bool_decide_eq_false in Hhas.
        by apply eq_None_not_Some.
      + rewrite (handle_POST_new_other _ _ Hpost Hk Hb). constructor. }
  destruct (String.eqb_spec (req_method req) "DELETE") as [Hdel|Hdel].
  { destruct (Http.known (mcp_session_id req) w) as [t|] eqn:Hk.
    - destruct (mcp_session_id req) as [id|] eqn:Hh; [|done].
      pose proof Hk as [_ Hid]%known_Some.
      destruct (Hok _ _ Hid) as (_ & tr & Ht & Hs & _).
      rewrite (handle_DELETE_known _ _ _ _ _ Hdel Hh Hk Ht Hs).
      apply change_unregistered. intros id' Hid'.
      destruct (Hok _ _ Hid') as (_ & tr' & Ht' & Hs' & _). congruence.
    - rewrite (handle_DELETE_unknown _ _ Hdel Hk). constructor. }
  rewrite handle_other by done. constructor.
Qed.

Lemma objects_ok_new (w w' : World) (tr : Transport) :
  servers w' = servers w ++ [base_server] ->
  transportObjects w' = transportObjects w ++ [tr] ->
  connected tr = Some (length (servers w)) -> closed tr = false ->
  (forall id t, transports w' !! id = Some t ->
     transports w !! id = Some t \/ t = length (transportObjects w)) ->
  objects_ok w -> objects_ok w'.
Proof.
  intros Hservers Hobjects Hc Hcl Htbl [Hb Ha Ho].
  split; rewrite ?Hservers, ?Hobjects.
  - intros t tr' [H|[_ H]]%lookup_app_Some.
    + destruct (Hb _ _ H) as (srv & ? & ?). exists srv.
      rewrite length_app. cbn. split; [done|lia].
    + apply list_lookup_singleton_Some in H as [_ <-].
      exists (length (servers w)). rewrite length_app. cbn. split; [done|lia].
  - intros t1 t2 tr1 tr2 [H1|[Hl1 H1]]%lookup_app_Some
      [H2|[Hl2 H2]]%lookup_app_Some Heq.
    + by apply (Ha _ _ _ _ H1 H2).
    + apply list_lookup_singleton_Some in H2 as [_ <-].
      destruct (Hb _ _ H1) as (srv & Hs & Hlt). rewrite Hs, Hc in Heq.
      injection Heq as ->. lia.
    + apply list_lookup_singleton_Some in H1 as [_ <-].
      destruct (Hb _ _ H2) as (srv & Hs & Hlt). rewrite Hs, Hc in Heq.
      injection Heq as <-. lia.
    + apply list_lookup_singleton_Some in H1 as [H1 _].
      apply list_lookup_singleton_Some in H2 as [H2 _]. lia.
  - intros id t tr' Hid [H|[_ H]]%lookup_app_Some.
    + destruct (Htbl _ _ Hid) as [Hid'| ->].
      * by apply (Ho id t).
      * apply lookup_lt_Some in H. lia.
    + by apply list_lookup_singleton_Some in H as [_ <-].
Qed.

Lemma lookup_mark_closed (l : list Transport) t0 t tr :
  alter mark_closed t0 l !! t = Some tr ->
  exists tr0, l !! t = Some tr0 /\ connected tr = connected tr0 /\
              (t <> t0 -> closed tr = closed tr0).
Proof.
  destruct (decide (t0 = t)) as [->|Hne].
  - rewrite list_lookup_alter_eq.
    destruct (l !! t) as [tr0|]; [|done]. intros [= <-]. by exists tr0.
  - rewrite list_lookup_alter_ne by done. intros H. exists tr.
    split; [done|]. split; [done|]. done.
Qed.

Lemma objects_ok_closed (w w' : World) t0 :
  servers w' = servers w ->
  transportObjects w' = alter mark_closed t0 (transportObjects w) ->
  (forall id t, transports w' !! id = Some t ->
     transports w !! id = Some t /\ t <> t0) ->
  objects_ok w -> objects_ok w'.
Proof.
  intros Hservers Hobjects Htbl [Hb Ha Ho].
  split; rewrite ?Hservers, ?Hobjects.
  - intros t tr (tr0 & H & Hc & _)%lookup_mark_closed.
    rewrite Hc. by apply (Hb t).
  - intros t1 t2 tr1 tr2 (tr01 & H1 & Hc1 & _)%lookup_mark_closed
      (tr02 & H2 & Hc2 & _)%lookup_mark_closed.
    rewrite Hc1, Hc2. by apply Ha.
  - intros id t tr Hid (tr0 & H & _ & Hcl)%lookup_mark_closed.
    destruct (Htbl _ _ Hid) as [Hid' Hne].
    rewrite Hcl by done. by apply (Ho id t).
Qed.

Lemma session_change_objects_ok w w' :
  session_change w w' -> objects_ok w -> objects_ok w'.
Proof.
  intros Hchange Hok.
  destruct Hchange as [| | |id Htr Hnone|t Hfree|id t Honly].
  - done.
  - eapply (objects_ok_new w); [reflexivity|reflexivity|done|done| |done].
    auto.
  - eapply (objects_ok_new w); [reflexivity|reflexivity|done|done| |done].
    auto.
  - eapply (objects_ok_new w); [reflexivity|reflexivity|done|done| |done].
    cbn. intros id' t' [[_ <-]|[_ H]]%lookup_insert_Some; auto.
  - eapply (objects_ok_closed w); [reflexivity|reflexivity| |done]. cbn.
    intros id' t' H. split; [done|]. intros ->. by apply (Hfree id').
  - eapply (objects_ok_closed w); [reflexivity|reflexivity| |done]. cbn.
    intros id' t' [Hne H]%lookup_delete_Some. split; [done|].
    intros ->. by apply Hne, eq_sym, Honly.
Qed.

Lemma server_tool_keeps_length srv name cb :
  keeps (fun w => length (servers w)) (Tools.server_tool srv name cb).
Proof.
  intros w. unfold Tools.server_tool.
  destruct (servers w !! srv) as [s|]; [|done].
  destruct (Sdk.tool name cb s); [|done]. cbn. apply length_insert.
Qed.

Lemma callTool_servers_length srv name args env fuel w :
  length (servers (world_of (System.callTool srv name args env fuel w)))
  = length (servers w).
Proof.
  rewrite callTool_world.
  destruct (servers w !! srv ≫= _) as [[]|]; try done.
  revert w. change (keeps (fun w => length (servers w))
                      (Tools.load_bonus_tool srv env)).
  unfold Tools.load_bonus_tool.
  pose proof (server_tool_keeps_length srv) as H.
  auto 10 with keeps.
Qed.

Lemma objects_ok_sessions w w' :
  session_part w' = session_part w ->
  (length (servers w) <= length (servers w'))%nat ->
  objects_ok w -> objects_ok w'.
Proof.
  unfold session_part. intros [= Ht Ho _] Hle [Hb Ha Hop].
  split; rewrite ?Ht, ?Ho; [|done..].
  intros t tr H. destruct (Hb _ _ H) as (srv & ? & ?). exists srv.
  split; [done|lia].
Qed.

Lemma step_objects_ok op w :
  invariant w -> objects_ok w -> objects_ok (System.step op w).
Proof.
  intros [Htools Htable] Hok.
  destruct op as [|srv name args env fuel|p|r|req| |t].
  - rewrite step_CreateServer. apply (objects_ok_sessions w); [done| |done].
    cbn. rewrite length_app. lia.
  - rewrite step_CallTool. apply (objects_ok_sessions w); [| |done].
    + apply callTool_keeps_sessions.
    + by rewrite callTool_servers_length.
  - by destruct p.
  - by destruct r.
  - rewrite step_Exchange. apply (session_change_objects_ok w); [|done].
    by apply handle_change.
  - done.
  - rewrite step_TransportClosed.
    apply (session_change_objects_ok w); [|done].
    by apply transport_close_change.
Qed.

Lemma exec_objects_ok ops :
  forall w, invariant w -> objects_ok w -> objects_ok (System.exec ops w).
Proof.
  induction ops as [|op ops IH]; intros w Hinv Hok; cbn; [done|].
  apply IH; [by apply step_invariant|by apply step_objects_ok].
Qed.

Lemma reachable_objects_ok ops : objects_ok (System.exec ops startup).
Proof.
  apply exec_objects_ok; [apply startup_invariant|].
  split; cbn; intros; by rewrite ?lookup_nil, ?lookup_empty in *.
Qed.

End Changes.

(** X10.  In every state the process gets to, an entry of the session table
    has a non-empty id that [crypto.randomUUID] has given, and holds a
    transport that has opened the session of that very id, is not closed,
    and is connected to a server that exists. *)
Theorem session_table_sound `{rt : Runtime} (ops : list System.Op)
    (id : string) (t : nat) :
  let w := System.exec ops startup in
  transports w !! id = Some t ->
  id <> "" /\ drawn w id /\
  exists tr srv,
    transportObjects w !! t = Some tr /\
    sessionId tr = Some id /\ initialized tr = true /\ closed tr = false /\
    connected tr = Some srv /\ is_Some (servers w !! srv).
Proof.
  cbn zeta. intros Hid.
  destruct (reachable_invariant ops) as [_ Htable].
  destruct (Htable _ _ Hid) as (Htr & tr & Ht & Hs & Hi).
  split; [by apply truthy_string_ne|].
  split; [by apply (reachable_issued ops id t)|].
  destruct (reachable_objects_ok ops) as [Hb _ Ho].
  destruct (Hb _ _ Ht) as (srv & Hc & Hlt).
  exists tr, srv. repeat (split; [done|]).
  split; [by apply (Ho id t)|]. split; [done|].
  by apply lookup_lt_is_Some_2.
Qed.

(** The theorem at work after a handshake. *)
Lemma session_table_sound_witness :
  let w := @System.exec example_runtime one_session startup in
  "uuid-0" <> "" /\ @drawn example_runtime w "uuid-0" /\
  exists tr srv,
    transportObjects w !! 0%nat = Some tr /\
    sessionId tr = Some "uuid-0" /\ initialized tr = true /\
    closed tr = false /\
    connected tr = Some srv /\ is_Some (servers w !! srv).
Proof.
  cbn zeta.
  refine (@session_table_sound example_runtime one_session "uuid-0" 0 _).
  vm_compute. reflexivity.
Defined.

(** X11.  In every state the process gets to, two sessions of the table have
    two transports, and these are connected to two servers: no server is
    shared between sessions. *)
Theorem sessions_have_own_servers `{rt : Runtime} (ops : list System.Op)
    (id1 id2 : string) (t1 t2 : nat) (tr1 tr2 : Transport) :
  let w := System.exec ops startup in
  transports w !! id1 = Some t1 -> transports w !! id2 = Some t2 ->
  transportObjects w !! t1 = Some tr1 -> transportObjects w !! t2 = Some tr2 ->
  id1 <> id2 ->
  t1 <> t2 /\ connected tr1 <> connected tr2.
Proof.
  cbn zeta. intros H1 H2 Ht1 Ht2 Hne.
  destruct (reachable_invariant ops) as [_ Htable].
  destruct (reachable_objects_ok ops) as [_ Ha _].
  assert (t1 <> t2) as Ht.
  { intros ->. destruct (Htable _ _ H1) as (_ & tr & Htr & Hs1 & _).
    destruct (Htable _ _ H2) as (_ & tr' & Htr' & Hs2 & _). congruence. }
  split; [done|]. intros Heq. by apply Ht, (Ha _ _ _ _ Ht1 Ht2).
Qed.

(** The theorem at work after two handshakes. *)
Lemma sessions_have_own_servers_witness :
  (0 <> 1)%nat /\
  connected (open_session "uuid-0" (bind_server 0 new_Transport))
  <> connected (open_session "uuid-1" (bind_server 1 new_Transport)).
Proof.
  refine (@sessions_have_own_servers example_runtime two_sessions
            "uuid-0" "uuid-1" 0 1 _ _ _ _ _ _ _).
  - vm_compute. reflexivity.
  - vm_compute. reflexivity.
  - vm_compute. reflexivity.
  - vm_compute. reflexivity.
  - discriminate.
Defined.

Lemma size_list_to_set_le (l : list string) :
  (size (list_to_set (C := gset string) l) <= length l)%nat.
Proof.
  induction l as [|x l IH]; cbn; [by rewrite size_empty|].
  destruct (decide (x ∈ list_to_set (C := gset string) l)) as [Hin|Hout].
  - rewrite subseteq_union_1_L by by apply singleton_subseteq_l. lia.
  - rewrite size_union by by apply disjoint_singleton_l.
    rewrite size_singleton. lia.
Qed.

Section Health.

Context `{rt : Runtime}.

Lemma issued_size (m : gmap string nat) (n : nat) :
  (forall id t, m !! id = Some t ->
     exists k, (k < n)%nat /\ id = randomUUID k) ->
  (size m <= n)%nat.
Proof.
  intros H.
  assert (dom m ⊆ list_to_set (C := gset string) (randomUUID <$> seq 0 n))
    as Hsub.
  { intros id [t Ht]%elem_of_dom. destruct (H _ _ Ht) as (k & Hk & ->).
    apply elem_of_list_to_set, list_elem_of_fmap. exists k.
    split; [done|]. apply elem_of_seq. lia. }
  apply subseteq_size in Hsub. rewrite size_dom in Hsub.
  etrans; [exact Hsub|].
  etrans; [apply size_list_to_set_le|].
  by rewrite length_fmap, length_seq.
Qed.

End Health.

(** X12.  The handler of /health reads the state and leaves it as it is, and
    in every state the process gets to the count of sessions it reports
    is at most the number of session ids drawn so far. *)
Theorem health_counts_sessions `{rt : Runtime} (ops : list System.Op) :
  let w := System.exec ops startup in
  System.run System.OpHealth w
  = (Ok (System.HealthResult (Http.health w)), w, []) /\
  (Http.sessions (Http.health w) <= uuidsDrawn w)%nat.
Proof.
  cbn zeta. split; [done|].
  apply issued_size. apply reachable_issued.
Qed.

(* ===================================================================== *)
(** * More on the servers and their tools                                 *)
(* ===================================================================== *)

(** X13.  In every state the process gets to, every server has the prompts,
    the resource and the resource templates [createServer] gave it, all
    of the seven tools of [registerTools] bound to their handlers, and no
    tool besides them but the calculator: nothing is ever taken from a
    registry or bound anew. *)
Theorem registries_stay `{rt : Runtime} (ops : list System.Op) (srv : nat)
    (s : McpServer) :
  servers (System.exec ops startup) !! srv = Some s ->
  registeredPrompts s = registeredPrompts base_server /\
  registeredResources s = registeredResources base_server /\
  registeredResourceTemplates s = registeredResourceTemplates base_server /\
  (forall name cb, base_tools !! name = Some cb ->
     registeredTools s !! name = Some cb) /\
  (forall name cb, registeredTools s !! name = Some cb ->
     base_tools !! name = Some cb \/
     (name = "bonus_calculator" /\ cb = cb_bonus_calculator)).
Proof.
  intros Hs. pose proof (reachable_invariant ops) as [Htools _].
  destruct (Htools _ _ Hs) as [->|[_ ->]].
  - repeat split; auto.
  - repeat split; cbn.
    + intros name cb H. rewrite lookup_insert_ne; [done|].
      intros <-. by rewrite base_tools_no_bonus in H.
    + intros name cb [[<- <-]|[_ H]]%lookup_insert_Some; auto.
Qed.

(** The theorem at work on a server that has loaded the calculator. *)
Lemma registries_stay_witness :
  registeredPrompts (with_bonus base_server) = registeredPrompts base_server /\
  registeredResources (with_bonus base_server)
  = registeredResources base_server /\
  registeredResourceTemplates (with_bonus base_server)
  = registeredResourceTemplates base_server /\
  (forall name cb, base_tools !! name = Some cb ->
     registeredTools (with_bonus base_server) !! name = Some cb) /\
  (forall name cb, registeredTools (with_bonus base_server) !! name = Some cb ->
     base_tools !! name = Some cb \/
     (name = "bonus_calculator" /\ cb = cb_bonus_calculator)).
Proof.
  refine (@registries_stay example_runtime run_load_bonus_once 0
            (with_bonus base_server) _).
  vm_compute. reflexivity.
Defined.

Section BaseTools.

Context `{rt : Runtime}.

Lemma reachable_base_tools ops srv s name cb :
  servers (System.exec ops startup) !! srv = Some s ->
  base_tools !! name = Some cb ->
  registeredTools s !! name = Some cb.
Proof.
  intros Hs H. pose proof (reachable_invariant ops) as [Htools _].
  destruct (Htools _ _ Hs) as [->|[_ ->]]; [done|]. cbn.
  rewrite lookup_insert_ne; [done|].
  intros <-. by rewrite base_tools_no_bonus in H.
Qed.

End BaseTools.

(** X14.  In every state the process gets to, on every server, a call of
    hello returns the greeting of the name, and a call of get_weather
    returns a result that is no error, whose structured content has the
    fields location, temperature, unit, conditions and humidity in this
    order, the location being the city asked for and the unit celsius,
    and whose text is that object as JSON; neither call changes the state
    or emits anything. *)
Theorem pure_tools_on_every_server `{rt : Runtime} (ops : list System.Op)
    (srv : nat) (name city : string) (env : Environment) (fuel : nat) :
  let w := System.exec ops startup in
  (srv < length (servers w))%nat ->
  System.callTool srv "hello" (System.HelloArgs name) env fuel w
  = (Ok (Some (text_result ("Hello, " +:+ name +:+ "! Welcome to MCP."))),
     w, []) /\
  exists temperature conditions humidity,
    let weather :=
      [ ("location", JString city); ("temperature", JNumber temperature);
        ("unit", JString "celsius"); ("conditions", conditions);
        ("humidity", JNumber humidity) ] in
    System.callTool srv "get_weather" (System.WeatherArgs city) env fuel w
    = (Ok (Some {| text := Tools.JSON_stringify_2 weather; isError := false;
                   structuredContent := Some weather |}), w, []).
Proof.
  cbn zeta. intros Hsrv.
  destruct (lookup_lt_is_Some_2 _ _ Hsrv) as [s Hs].
  split.
  - unfold System.callTool. rewrite bind_read, Hs. cbn [mbind option_bind].
    by rewrite (reachable_base_tools ops srv s "hello" cb_hello Hs).
  - do 3 eexists.
    unfold System.callTool. rewrite bind_read, Hs. cbn [mbind option_bind].
    by rewrite (reachable_base_tools ops srv s "get_weather" cb_get_weather Hs).
Qed.

(** The theorem at work after a handshake. *)
Lemma pure_tools_on_every_server_witness :
  let w := @System.exec example_runtime one_session startup in
  @System.callTool example_runtime 0 "hello" (System.HelloArgs "Ada")
    quiet_client 0 w
  = (Ok (Some (text_result ("Hello, " +:+ "Ada" +:+ "! Welcome to MCP."))),
     w, []) /\
  exists temperature conditions humidity,
    let weather :=
      [ ("location", JString "Oslo"); ("temperature", JNumber temperature);
        ("unit", JString "celsius"); ("conditions", conditions);
        ("humidity", JNumber humidity) ] in
    @System.callTool example_runtime 0 "get_weather"
      (System.WeatherArgs "Oslo") quiet_client 0 w
    = (Ok (Some {| text := @Tools.JSON_stringify_2 example_runtime weather;
                   isError := false;
                   structuredContent := Some weather |}), w, []).
Proof.
  cbn zeta.
  refine (@pure_tools_on_every_server example_runtime one_session 0 "Ada"
            "Oslo" quiet_client 0 _).
  vm_compute. lia.
Defined.

(** X15.  The handler of ask_llm never throws, leaves the state as it is and
    emits nothing.  It asks the client for a message with the prompt and
    [maxTokens], 100 when there is none; the text of the answer, or the
    placeholder for an answer that is no text, comes back after the
    prefix, and a sampling request the client refuses comes back as an
    error result with the message of the error, "Unknown error" for a
    thrown value that is no [Error]. *)
Theorem ask_llm_never_throws `{rt : Runtime} (env : Environment)
    (prompt : string) (maxTokens : option float) (w : World) :
  let answer := createMessage env prompt (default 100%float maxTokens) in
  Tools.ask_llm env prompt maxTokens w
  = (Ok match answer with
        | Ok (TextContent t) => text_result ("LLM Response: " +:+ t)
        | Ok NonTextContent =>
            text_result "LLM Response: [non-text response]"
        | Throw (Error m) =>
            error_result ("Sampling not supported or failed: " +:+ m)
        | Throw NotAnError =>
            error_result "Sampling not supported or failed: Unknown error"
        end, w, []).
Proof.
  cbn zeta. unfold Tools.ask_llm, try_catch. rewrite bind_eq.
  destruct (createMessage env prompt _) as [[t|]|[m|]]; reflexivity.
Qed.

Section LongTaskShape.

Context `{rt : Runtime}.

(** The loop of long_task, for any number of steps and any client. *)
Lemma long_task_loop_shape env n w fuel :
  forall i,
  exists k, (k <= fuel)%nat /\
    Forall (fun j => (j <? n)%float = true) (counter_values k i) /\
    match Tools.long_task_loop env fuel i n w with
    | (Ok finished, w', evs) =>
        w' = w /\
        evs = progress_events (progress_of n (counter_values k i)) /\
        Forall (fun m => sendNotification env m = Ok tt)
          (progress_of n (counter_values k i)) /\
        (counter_after k i <? n)%float = negb finished /\
        (finished = false -> k = fuel)
    | (Throw e, w', evs) =>
        w' = w /\
        Forall (fun m => sendNotification env m = Ok tt)
          (progress_of n (counter_values k i)) /\
        (counter_after k i <? n)%float = true /\
        sendNotification env (Tools.progress_notification (counter_after k i) n)
        = Throw e /\
        evs = progress_events (progress_of n (counter_values k i))
              ++ [SendNotification
                    (Tools.progress_notification (counter_after k i) n)]
    end.
Proof.
  induction fuel as [|fuel IH]; intros i.
  - exists O. split; [lia|]. split; [constructor|].
    cbn [Tools.long_task_loop]. destruct (i <? n)%float eqn:Hlt; cbn; by rewrite ?Hlt.
  - destruct (i <? n)%float eqn:Hlt.
    + destruct (sendNotification env (Tools.progress_notification i n))
        as [[]|e] eqn:Hsend.
      * rewrite long_task_loop_step by done.
        destruct (IH (i + 1)%float) as (k & Hk & Hall & Hrest).
        exists (S k). split; [lia|]. split; [by constructor|].
        destruct (Tools.long_task_loop env fuel (i + 1) n w)
          as [[[finished|e] w'] evs]; cbn.
        -- destruct Hrest as (-> & -> & Hsent & Hend & Hfuel).
           split; [done|]. split; [done|]. split; [by constructor|].
           split; [done|]. intros ?. f_equal. by apply Hfuel.
        -- destruct Hrest as (-> & Hsent & Hpos & Hthrow & ->).
           split; [done|]. split; [by constructor|]. done.
      * rewrite (long_task_loop_refused _ _ _ _ _ e) by done.
        exists O. split; [lia|]. split; [constructor|]. cbn.
        split; [done|]. split; [constructor|]. done.
    + exists O. split; [lia|]. split; [constructor|].
      rewrite long_task_loop_end by done. cbn. by rewrite Hlt.
Qed.

End LongTaskShape.

(** X16.  For every number of steps, every client and every bound on the
    iterations, a call of long_task leaves the state as it is and sends
    the notifications of the counter values 0, 1, 2, ... in this order,
    each below the number of steps, of progress counter/steps, total 1
    and token long_task, each followed by a wait of a second, and nothing
    else.  It returns the completion message only once the counter is no
    longer below the number of steps; a notification the client refuses
    ends the call with that error, with no wait and no notification
    after it. *)
Theorem long_task_progress_shape `{rt : Runtime} (env : Environment)
    (fuel : nat) (taskName : string) (steps : option float) (w : World) :
  let numSteps := default 5%float steps in
  let r := Tools.long_task env fuel taskName steps w in
  world_of r = w /\
  exists k, (k <= fuel)%nat /\
    let sent := progress_of numSteps (counter_values k 0%float) in
    Forall (fun i => (i <? numSteps)%float = true) (counter_values k 0%float) /\
    Forall (fun m => sendNotification env m = Ok tt) sent /\
    match result_of r with
    | Ok (Some res) =>
        events_of r = progress_events sent /\
        (counter_after k 0 <? numSteps)%float = false /\
        res = text_result
                ("Task " +:+ dq +:+ taskName +:+ dq +:+
                 " completed successfully after " +:+
                 Tools.Number_toString numSteps +:+ " steps!")
    | Ok None =>
        events_of r = progress_events sent /\
        (counter_after k 0 <? numSteps)%float = true /\ k = fuel
    | Throw e =>
        events_of r
        = progress_events sent
          ++ [SendNotification
                (Tools.progress_notification (counter_after k 0) numSteps)] /\
        (counter_after k 0 <? numSteps)%float = true /\
        sendNotification env
          (Tools.progress_notification (counter_after k 0) numSteps)
        = Throw e
    end.
Proof.
  cbn zeta. split; [apply long_task_stateless|].
  destruct (long_task_loop_shape env (default 5%float steps) w fuel 0%float)
    as (k & Hk & Hall & Hrest).
  exists k. split; [done|]. split; [done|].
  unfold Tools.long_task. rewrite bind_eq.
  destruct (Tools.long_task_loop env fuel 0 (default 5%float steps) w)
    as [[[finished|e] w'] evs].
  - destruct Hrest as (-> & -> & Hsent & Hend & Hfuel).
    split; [done|].
    destruct finished; cbn; rewrite app_nil_r; auto.
  - destruct Hrest as (-> & Hsent & Hpos & Hthrow & ->). by cbn.
Qed.

(** X17.  When [steps] is not above zero (zero, negative or NaN), a call of
    long_task sends no notification and waits for nothing: it returns
    the completion message at once, with that number in it. *)
Theorem long_task_without_steps `{rt : Runtime} (env : Environment)
    (fuel : nat) (taskName : string) (steps : float) (w : World) :
  (0 <? steps)%float = false ->
  Tools.long_task env fuel taskName (Some steps) w
  = (Ok (Some (text_result
                 ("Task " +:+ dq +:+ taskName +:+ dq +:+
                  " completed successfully after " +:+
                  Tools.Number_toString steps +:+ " steps!"))),
     w, []).
Proof.
  intros H. unfold Tools.long_task. cbn [default].
  rewrite bind_eq, long_task_loop_end by done. reflexivity.
Qed.

(** The theorem at work with [steps] NaN. *)
Lemma long_task_without_steps_witness :
  @Tools.long_task example_runtime gone_client 0 "demo" (Some nan) startup
  = (Ok (Some (text_result
                 ("Task " +:+ dq +:+ "demo" +:+ dq +:+
                  " completed successfully after NaN steps!"))),
     startup, []).
Proof.
  exact (@long_task_without_steps example_runtime gone_client 0 "demo" nan
           startup eq_refl).
Defined.

(** X18.  In every state the process gets to in which the flag is not set,
    when the client refuses the list-changed notification, the call of
    load_bonus_tool comes back as an error result with the message of the
    refusal, and yet the calculator is registered on the server and the
    flag is set; a second call, whatever the client does, returns the
    "already loaded" message and sends no notification. *)
Theorem load_bonus_refused_notification `{rt : Runtime}
    (ops : list System.Op) (srv : nat) (args1 args2 : System.ToolArguments)
    (env1 env2 : Environment) (fuel1 fuel2 : nat) (e : Thrown) :
  let w := System.exec ops startup in
  let first := System.callTool srv "load_bonus_tool" args1 env1 fuel1 w in
  (srv < length (servers w))%nat ->
  bonusToolLoaded w = false ->
  sendNotification env1 ToolListChanged = Throw e ->
  result_of first = Ok (Some (error_result (message_of e))) /\
  events_of first = [SendNotification ToolListChanged] /\
  bonusToolLoaded (world_of first) = true /\
  servers (world_of first) !! srv = Some (with_bonus base_server) /\
  System.callTool srv "load_bonus_tool" args2 env2 fuel2 (world_of first)
  = (Ok (Some (text_result Tools.already_loaded)), world_of first, []).
Proof.
  cbn zeta. intros Hsrv Hflag Hsend.
  pose proof (reachable_invariant ops) as [Htools _].
  destruct (lookup_lt_is_Some_2 _ _ Hsrv) as [s Hs].
  destruct (Htools _ _ Hs) as [->|[? _]]; [|congruence].
  rewrite (callTool_load_bonus_fresh _ _ _ _ _ Htools Hs Hflag), Hsend.
  cbn [result_of world_of events_of fst snd].
  split; [done|]. split; [done|]. split; [done|].
  assert (servers
            (with_bonusToolLoaded true
               (with_servers
                  (<[srv := with_bonus base_server]>
                     (servers (System.exec ops startup)))
                  (System.exec ops startup))) !! srv
          = Some (with_bonus base_server)) as Hs'.
  { cbn. by apply list_lookup_insert_eq. }
  split; [done|].
  apply (callTool_load_bonus_loaded _ (with_bonus base_server)); [|done|done].
  pose proof (callTool_tools_ok srv "load_bonus_tool" args1 env1 fuel1 _ Htools)
    as H.
  by rewrite (callTool_load_bonus_fresh _ _ _ _ _ Htools Hs Hflag) in H.
Qed.

(** The theorem at work with a client whose connection is gone. *)
Lemma load_bonus_refused_notification_witness :
  let w := @System.exec example_runtime [System.OpCreateServer] startup in
  let first := @System.callTool example_runtime 0 "load_bonus_tool"
                 System.NoArgs gone_client 0 w in
  result_of first = Ok (Some (error_result "Not connected")) /\
  events_of first = [SendNotification ToolListChanged] /\
  bonusToolLoaded (world_of first) = true /\
  servers (world_of first) !! 0%nat = Some (with_bonus base_server) /\
  @System.callTool example_runtime 0 "load_bonus_tool" System.NoArgs
    quiet_client 0 (world_of first)
  = (Ok (Some (text_result Tools.already_loaded)), world_of first, []).
Proof.
  cbn zeta.
  refine (@load_bonus_refused_notification example_runtime
            [System.OpCreateServer] 0 System.NoArgs System.NoArgs
            gone_client quiet_client 0 0 (Error "Not connected") _ _ _).
  - vm_compute. lia.
  - vm_compute. reflexivity.
  - reflexivity.
Defined.

Section Owner.

Context `{rt : Runtime}.

Lemma owner_ok_created w w' :
  bonusToolLoaded w' = bonusToolLoaded w ->
  servers w' = servers w ++ [base_server] ->
  owner_ok w -> owner_ok w'.
Proof.
  unfold owner_ok. intros -> ->. destruct (bonusToolLoaded w).
  - intros (srv & Hsrv & Hothers). exists srv.
    split; [by apply lookup_app_l_Some|].
    intros j s [H|[_ H]]%lookup_app_Some Hne; [by apply (Hothers j)|].
    by apply list_lookup_singleton_Some in H as [_ <-].
  - intros Hall j s [H|[_ H]]%lookup_app_Some; [by apply (Hall j)|].
    by apply list_lookup_singleton_Some in H as [_ <-].
Qed.

Lemma owner_ok_registry w w' :
  registry_part w' = registry_part w -> owner_ok w -> owner_ok w'.
Proof. unfold registry_part, owner_ok. by intros [= -> ->]. Qed.

Lemma session_step_owner_ok w w' :
  session_step w w' -> owner_ok w -> owner_ok w'.
Proof.
  intros Hstep.
  destruct (session_step_servers _ _ Hstep) as [Hs|Hs].
  - apply owner_ok_registry. unfold registry_part.
    by rewrite Hs, (session_step_flag _ _ Hstep).
  - apply owner_ok_created; [by apply session_step_flag|done].
Qed.

Lemma callTool_owner_ok srv name args env fuel w :
  owner_ok w -> owner_ok (world_of (System.callTool srv name args env fuel w)).
Proof.
  intros Hok. rewrite callTool_world.
  destruct (servers w !! srv) as [s|] eqn:Hs; cbn; [|done].
  destruct (registeredTools s !! name) as [[]|]; try done.
  unfold owner_ok in Hok.
  destruct (bonusToolLoaded w) eqn:Hflag.
  { rewrite load_bonus_tool_loaded by done. cbn. unfold owner_ok. by rewrite Hflag. }
  rewrite (Hok _ _ Hs) in Hs.
  erewrite load_bonus_tool_fresh; [|done..|apply base_tools_no_bonus].
  unfold owner_ok. cbn. exists srv. split.
  - apply list_lookup_insert_eq. by eapply lookup_lt_Some.
  - intros j s' Hj Hne. rewrite list_lookup_insert_ne in Hj by done.
    by apply (Hok j).
Qed.

Lemma step_owner_ok op w :
  invariant w -> owner_ok w -> owner_ok (System.step op w).
Proof.
  intros [Htools Htable] Hok.
  destruct op as [|srv name args env fuel|p|r|req| |t].
  - rewrite step_CreateServer. by apply (owner_ok_created w).
  - rewrite step_CallTool. by apply callTool_owner_ok.
  - by destruct p.
  - by destruct r.
  - rewrite step_Exchange. apply (session_step_owner_ok w); [|done].
    by apply handle_step.
  - done.
  - rewrite step_TransportClosed. apply (session_step_owner_ok w); [|done].
    apply transport_close_step.
Qed.

Lemma exec_owner_ok ops :
  forall w, invariant w -> owner_ok w -> owner_ok (System.exec ops w).
Proof.
  induction ops as [|op ops IH]; intros w Hinv Hok; cbn; [done|].
  apply IH; [by apply step_invariant|by apply step_owner_ok].
Qed.

Lemma reachable_owner_ok ops : owner_ok (System.exec ops startup).
Proof. apply exec_owner_ok; [apply startup_invariant|]. by intros j s H. Qed.

Lemma with_bonus_has_calculator : has_calculator (with_bonus base_server).
Proof. unfold has_calculator. cbn. rewrite lookup_insert_eq. eauto. Qed.

Lemma base_server_no_calculator : ~ has_calculator base_server.
Proof.
  unfold has_calculator. cbn. rewrite base_tools_no_bonus. by intros [? ?].
Qed.

End Owner.

(** X19.  In every state the process gets to, no server has the calculator
    while the flag is not set, and exactly one server has it once the
    flag is set. *)
Theorem calculator_on_one_server `{rt : Runtime} (ops : list System.Op) :
  let w := System.exec ops startup in
  (bonusToolLoaded w = false ->
   forall j s, servers w !! j = Some s -> ~ has_calculator s) /\
  (bonusToolLoaded w = true ->
   exists srv,
     is_Some (servers w !! srv) /\
     forall j s, servers w !! j = Some s -> has_calculator s <-> j = srv).
Proof.
  cbn zeta. pose proof (reachable_owner_ok ops) as Hok.
  unfold owner_ok in Hok. split; intros Hflag; rewrite Hflag in Hok.
  - intros j s Hs. rewrite (Hok _ _ Hs). apply base_server_no_calculator.
  - destruct Hok as (srv & Hsrv & Hothers). exists srv. split; [eauto|].
    intros j s Hs. split.
    + intros Hcalc. destruct (decide (j = srv)) as [|Hne]; [done|].
      rewrite (Hothers _ _ Hs Hne) in Hcalc.
      by apply base_server_no_calculator in Hcalc.
    + intros ->. rewrite Hsrv in Hs. injection Hs as <-.
      apply with_bonus_has_calculator.
Qed.

(** X20.  In every state the process gets to in which the flag is set, on a
    server that has no calculator a call of load_bonus_tool returns the
    "already loaded" message and registers nothing, and a call of
    bonus_calculator comes back as an error result that says the tool is
    not found; the state stays as it is. *)
Theorem calculator_out_of_reach `{rt : Runtime} (ops : list System.Op)
    (srv : nat) (s : McpServer) (args : System.ToolArguments)
    (env : Environment) (fuel : nat) :
  let w := System.exec ops startup in
  bonusToolLoaded w = true ->
  servers w !! srv = Some s ->
  ~ has_calculator s ->
  System.callTool srv "load_bonus_tool" args env fuel w
  = (Ok (Some (text_result Tools.already_loaded)), w, []) /\
  System.callTool srv "bonus_calculator" args env fuel w
  = (Ok (Some (error_result
                 "MCP error -32602: Tool bonus_calculator not found")),
     w, []).
Proof.
  cbn zeta. intros Hflag Hs Hcalc.
  pose proof (reachable_invariant ops) as [Htools _]. split.
  - by apply (callTool_load_bonus_loaded _ s).
  - unfold System.callTool. rewrite bind_read, Hs. cbn.
    destruct (registeredTools s !! "bonus_calculator") eqn:H; [|done].
    destruct Hcalc. unfold has_calculator. rewrite H. eauto.
Qed.

(** The theorem at work on the second of two servers, the first of which
    has loaded the calculator. *)
Lemma calculator_out_of_reach_witness :
  let w := @System.exec example_runtime two_sessions_one_loaded startup in
  @System.callTool example_runtime 1 "load_bonus_tool" System.NoArgs
    quiet_client 0 w
  = (Ok (Some (text_result Tools.already_loaded)), w, []) /\
  @System.callTool example_runtime 1 "bonus_calculator" System.NoArgs
    quiet_client 0 w
  = (Ok (Some (error_result
                 "MCP error -32602: Tool bonus_calculator not found")),
     w, []).
Proof.
  cbn zeta.
  refine (@calculator_out_of_reach example_runtime two_sessions_one_loaded
            1 base_server System.NoArgs quiet_client 0 _ _ _).
  - vm_compute. reflexivity.
  - vm_compute. reflexivity.
  - unfold has_calculator. vm_compute. by intros [? ?].
Defined.

(** X21.  In every state the process gets to in which the flag is not set,
    a call of bonus_calculator on a server comes back as an error result
    that says the tool is not found; after a call of load_bonus_tool on
    that server, whatever
    became of its notification, the same call runs the handler of the
    calculator, and changes nothing. *)
Theorem calculator_after_load `{rt : Runtime} (ops : list System.Op)
    (srv : nat) (args : System.ToolArguments) (env env' : Environment)
    (fuel fuel' : nat) (a b : float) (operation : Tools.Operation) :
  let w := System.exec ops startup in
  let loaded := world_of (System.callTool srv "load_bonus_tool" args env fuel w) in
  (srv < length (servers w))%nat ->
  bonusToolLoaded w = false ->
  System.callTool srv "bonus_calculator"
    (System.CalculatorArgs a b operation) env' fuel' w
  = (Ok (Some (error_result
                 "MCP error -32602: Tool bonus_calculator not found")),
     w, []) /\
  System.callTool srv "bonus_calculator"
    (System.CalculatorArgs a b operation) env' fuel' loaded
  = (Ok (Some (Tools.bonus_calculator a b operation)), loaded, []).
Proof.
  cbn zeta. intros Hsrv Hflag.
  pose proof (reachable_invariant ops) as [Htools _].
  destruct (lookup_lt_is_Some_2 _ _ Hsrv) as [s Hs].
  destruct (Htools _ _ Hs) as [->|[? _]]; [|congruence].
  split.
  - unfold System.callTool. rewrite bind_read, Hs. cbn.
    by rewrite base_tools_no_bonus.
  - rewrite (callTool_load_bonus_fresh _ _ _ _ _ Htools Hs Hflag).
    cbn [world_of fst snd].
    unfold System.callTool. rewrite bind_read. cbn.
    rewrite list_lookup_insert_eq by done. cbn.
    rewrite lookup_insert_eq. reflexivity.
Qed.

(** The theorem at work with a client that refuses the notification. *)
Lemma calculator_after_load_witness :
  let w := @System.exec example_runtime [System.OpCreateServer] startup in
  let loaded :=
    world_of (@System.callTool example_runtime 0 "load_bonus_tool"
                System.NoArgs gone_client 0 w) in
  @System.callTool example_runtime 0 "bonus_calculator"
    (System.CalculatorArgs 6 3 Tools.multiply) quiet_client 0 w
  = (Ok (Some (error_result
                 "MCP error -32602: Tool bonus_calculator not found")),
     w, []) /\
  @System.callTool example_runtime 0 "bonus_calculator"
    (System.CalculatorArgs 6 3 Tools.multiply) quiet_client 0 loaded
  = (Ok (Some (@Tools.bonus_calculator example_runtime 6 3 Tools.multiply)),
     loaded, []).
Proof.
  cbn zeta.
  refine (@calculator_after_load example_runtime [System.OpCreateServer] 0
            System.NoArgs gone_client quiet_client 0 0 6 3 Tools.multiply _ _).
  - vm_compute. lia.
  - vm_compute. reflexivity.
Defined.

Lemma list_changes_app l1 l2 :
  list_changes (l1 ++ l2) = (list_changes l1 + list_changes l2)%nat.
Proof. unfold list_changes. by rewrite omap_app, length_app. Qed.

Section ListChanged.

Context `{rt : Runtime}.

Lemma bind_mret_events {A B} (m : M A) (f : A -> B) w :
  events_of ((a ← m; mret (f a)) w) = events_of (m w).
Proof.
  rewrite bind_eq. destruct (m w) as [[[?|?] ?] ?]; cbn; [|done].
  apply app_nil_r.
Qed.

Lemma try_catch_mret_events {A} (body : M A) (h : Thrown -> A) w :
  events_of (try_catch body (fun e => mret (h e)) w) = events_of (body w).
Proof.
  unfold try_catch. destruct (body w) as [[[?|?] ?] ?]; cbn; [done|].
  apply app_nil_r.
Qed.

Lemma long_task_loop_list_changes env n w fuel :
  forall i,
    list_changes (events_of (Tools.long_task_loop env fuel i n w)) = 0%nat.
Proof.
  induction fuel as [|fuel IH]; intros i;
    (destruct (i <? n)%float eqn:Hlt;
     [|by rewrite long_task_loop_end]).
  - by rewrite long_task_loop_out_of_fuel.
  - destruct (sendNotification env (Tools.progress_notification i n))
      as [[]|e] eqn:Hsend.
    + rewrite long_task_loop_step by done. apply (IH (i + 1)%float).
    + by rewrite (long_task_loop_refused _ _ _ _ _ e).
Qed.

Lemma long_task_list_changes env fuel taskName steps w :
  list_changes (events_of (Tools.long_task env fuel taskName steps w)) = 0%nat.
Proof.
  unfold Tools.long_task. rewrite bind_eq.
  pose proof (long_task_loop_list_changes env (default 5%float steps) w fuel
                0%float) as H.
  destruct (Tools.long_task_loop env fuel 0 (default 5%float steps) w)
    as [[[[]|e] w'] evs]; cbn in *; by rewrite ?app_nil_r.
Qed.

Lemma some_events {A} (m : M A) w :
  events_of (System.some m w) = events_of (m w).
Proof. apply bind_mret_events. Qed.

(** No handler but that of load_bonus_tool sends a list-changed
    notification. *)
Lemma run_callback_list_changes srv cb args env fuel w :
  cb <> cb_load_bonus_tool ->
  list_changes (events_of (System.run_callback srv cb args env fuel w))
  = 0%nat.
Proof.
  intros Hcb.
  destruct cb, args; try done; cbn [System.run_callback];
    rewrite ?some_events, ?long_task_list_changes; try done.
  - unfold Tools.ask_llm. rewrite try_catch_mret_events, bind_eq.
    by destruct (createMessage env _ _).
  - unfold Tools.confirm_action. rewrite try_catch_mret_events, bind_eq.
    destruct (elicitInput env _) as [[[] [[[[]|] ?]|]]|]; done.
  - unfold Tools.get_feedback.
    destruct (encodeURIComponent _); [|done]. cbn [await]. rewrite bind_mret.
    rewrite try_catch_mret_events, bind_eq.
    destruct (elicitInput env _) as [[[] ?]|]; done.
Qed.

Lemma callTool_events srv name args env fuel w :
  events_of (System.callTool srv name args env fuel w) =
  match servers w !! srv ≫= (fun s => registeredTools s !! name) with
  | Some cb => events_of (System.run_callback srv cb args env fuel w)
  | None => []
  end.
Proof.
  unfold System.callTool. rewrite bind_read.
  destruct (servers w !! srv ≫= _) as [cb|]; [|done].
  apply try_catch_mret_events.
Qed.

Lemma callTool_list_changes srv name args env fuel w :
  tools_ok w ->
  list_changes (events_of (System.callTool srv name args env fuel w))
  = if bonusToolLoaded w then 0%nat
    else if System.loads_bonus (System.OpCallTool srv name args env fuel) w
         then 1%nat else 0%nat.
Proof.
  intros Hok. rewrite callTool_events. cbn [System.loads_bonus].
  destruct (servers w !! srv) as [s|] eqn:Hs; cbn [mbind option_bind].
  - rewrite bool_decide_eq_true_2 by (by eapply lookup_lt_Some).
    rewrite andb_true_r.
    destruct (registeredTools s !! name) as [cb|] eqn:Hcb.
    + destruct (decide (cb = cb_load_bonus_tool)) as [->|Hne].
      * apply (tools_ok_load _ _ _ _ Hok Hs) in Hcb as ->.
        assert (events_of
                  (System.run_callback srv cb_load_bonus_tool args env fuel w)
                = events_of (Tools.load_bonus_tool srv env w)) as ->.
        { destruct args; cbn [System.run_callback]; apply some_events. }
        destruct (bonusToolLoaded w) eqn:Hflag.
        { by rewrite load_bonus_tool_loaded. }
        destruct (Hok _ _ Hs) as [->|[? _]]; [|congruence].
        by erewrite load_bonus_tool_fresh;
          [|done|done|apply base_tools_no_bonus].
      * rewrite run_callback_list_changes by done.
        assert (String.eqb name "load_bonus_tool" = false) as ->.
        { apply String.eqb_neq. intros ->.
          pose proof (proj2 (tools_ok_load _ _ _ "load_bonus_tool" Hok Hs)
                        eq_refl). congruence. }
        by destruct (bonusToolLoaded w).
    + assert (String.eqb name "load_bonus_tool" = false) as ->.
      { apply String.eqb_neq. intros ->.
        pose proof (proj2 (tools_ok_load _ _ _ "load_bonus_tool" Hok Hs)
                      eq_refl). congruence. }
      by destruct (bonusToolLoaded w).
  - rewrite bool_decide_eq_false_2
      by (by apply lookup_ge_None, Nat.nlt_ge in Hs).
    rewrite andb_false_r. by destruct (bonusToolLoaded w).
Qed.

Lemma transport_close_list_changes t w :
  list_changes (events_of (Http.transport_close t w)) = 0%nat.
Proof.
  unfold Http.transport_close, Http.onclose.
  rewrite bind_update, bind_read.
  destruct (_ ≫= sessionId) as [id|]; [|done].
  by destruct (Js.truthy_string id).
Qed.

(** The list-changed notifications of one operation: one when it is a call
    of load_bonus_tool that finds the flag not set, none otherwise. *)
Lemma run_list_changes op w :
  invariant w ->
  list_changes (events_of (System.run op w))
  = if bonusToolLoaded w then 0%nat
    else if System.loads_bonus op w then 1%nat else 0%nat.
Proof.
  intros [Htools Htable].
  destruct op as [|srv name args env fuel|p|r|req| |t];
    cbn [System.run System.loads_bonus].
  - rewrite bind_mret_events, createServer_eq. by destruct (bonusToolLoaded w).
  - rewrite bind_mret_events. by apply callTool_list_changes.
  - destruct p; by destruct (bonusToolLoaded w).
  - destruct r; by destruct (bonusToolLoaded w).
  - rewrite (bind_mret_events _ (fun _ => System.Done)).
    destruct (handle_cases req w Htable) as (_ & _ & _ & _ & _ & ->).
    by destruct (bonusToolLoaded w).
  - by destruct (bonusToolLoaded w).
  - rewrite (bind_mret_events _ (fun _ => System.Done)).
    rewrite transport_close_list_changes. by destruct (bonusToolLoaded w).
Qed.

Lemma exec_flag_stays ops :
  forall w, invariant w -> bonusToolLoaded w = true ->
    bonusToolLoaded (System.exec ops w) = true.
Proof.
  induction ops as [|op ops IH]; intros w Hinv Hflag; cbn; [done|].
  apply IH; [by apply step_invariant|].
  by rewrite step_flag, Hflag.
Qed.

Lemma trace_list_changes ops :
  forall w, invariant w ->
    list_changes (trace ops w)
    = if bonusToolLoaded w then 0%nat
      else if bonusToolLoaded (System.exec ops w) then 1%nat else 0%nat.
Proof.
  induction ops as [|op ops IH]; intros w Hinv; cbn [trace System.exec].
  { by destruct (bonusToolLoaded w). }
  rewrite list_changes_app, (run_list_changes _ _ Hinv),
    (IH _ (step_invariant _ _ Hinv)).
  pose proof (step_flag op w Hinv) as Hstep.
  destruct (bonusToolLoaded w) eqn:Hflag.
  { cbn in Hstep. by rewrite Hstep. }
  cbn in Hstep. rewrite Hstep.
  destruct (System.loads_bonus op w) eqn:Hload; [|done].
  by rewrite exec_flag_stays;
    [|apply step_invariant|rewrite step_flag, Hflag, Hload].
Qed.

End ListChanged.

(** X22.  Over any run of the process from its start, the code of the
    repository calls [extra.sendNotification] with the list-changed
    notification at most once: once when the run has set the flag, in
    the call of load_bonus_tool that set it, and never when the flag is
    still unset.  No other handler, no request to /mcp and no closing
    transport makes such a call.  The notification the SDK sends of its
    own accord when the calculator is registered is none of these
    calls. *)
Theorem list_changed_called_once `{rt : Runtime} (ops : list System.Op) :
  list_changes (trace ops startup)
  = if bonusToolLoaded (System.exec ops startup) then 1%nat else 0%nat.
Proof.
  by rewrite trace_list_changes by apply startup_invariant.
Qed.

(** X23.  The handler of confirm_action never throws, leaves the state as it
    is and emits nothing.  It asks the client to confirm the action, with
    the warning in the message exactly when [destructive] is true.  Its
    result reports the action as confirmed exactly when the client
    accepted and the content sent back has [confirm] true, and is an
    error result exactly when the elicitation failed. *)
Theorem confirm_action_confirmed `{rt : Runtime} (env : Environment)
    (action_text : string) (destructive : option bool) (w : World) :
  exists r,
    Tools.confirm_action env action_text destructive w = (Ok r, w, []) /\
    (String.prefix "Action confirmed: " (text r) = true <->
     exists c,
       elicitInput env (FormElicit (confirm_message action_text destructive))
       = Ok {| action := accept; content := Some c |} /\
       confirm c = Some true) /\
    (isError r = true <->
     exists e,
       elicitInput env (FormElicit (confirm_message action_text destructive))
       = Throw e).
Proof.
  unfold Tools.confirm_action, try_catch, confirm_message. rewrite bind_eq.
  destruct (elicitInput env _) as [[[] [[[[]|] rs]|]]|e]; cbn;
    eexists; (split; [reflexivity|]); cbn; (split; split);
    try discriminate;
    try (intros (? & [= <-] & ?); discriminate);
    try (intros (? & [=])); try (intros _; destruct action_text; reflexivity); try reflexivity; eauto.
Qed.

Lemma append_assoc (a b c : string) : (a +:+ b) +:+ c = a +:+ (b +:+ c).
Proof. induction a as [|x a IH]; [done|]. change (String x ((a +:+ b) +:+ c) = String x (a +:+ b +:+ c)). by f_equal. Qed.

(** X24.  The handler of get_feedback encodes the question before its
    [try]: when [encodeURIComponent] throws, as it does for a question
    with a lone surrogate, the handler throws that error, asks the client
    nothing and leaves the state as it is.  Otherwise it never throws,
    leaves the state as it is and emits nothing, and its result is never
    an error result, also when the elicitation fails; unless the client
    accepted or cancelled, the text of the result ends with the feedback
    URL, which ends with the encoded question. *)
Theorem get_feedback_outcomes `{rt : Runtime} (env : Environment)
    (question : string) (w : World) :
  match encodeURIComponent question with
  | None =>
      Tools.get_feedback env question w = (Throw Tools.URIError, w, [])
  | Some encoded =>
      let answer :=
        elicitInput env
          (UrlElicit ("Please answer this question: " +:+ question)
             ("feedback-" +:+ Js.Z_to_string (Date_now env))
             (feedbackUrl encoded)) in
      exists r,
        Tools.get_feedback env question w = (Ok r, w, []) /\
        isError r = false /\
        ((exists c, answer = Ok {| action := accept; content := c |}) \/
         (exists c, answer = Ok {| action := cancel; content := c |}) \/
         exists before, text r = before +:+ feedbackUrl encoded)
  end.
Proof.
  unfold Tools.get_feedback.
  destruct (encodeURIComponent question) as [encoded|]; [|done].
  cbn [await]. rewrite bind_mret.
  unfold try_catch, feedbackUrl. rewrite bind_eq.
  destruct (elicitInput env _) as [[[] c]|e]; cbn -[String.append];
    eexists; (split; [reflexivity|]); (split; [reflexivity|]);
    cbn -[String.append]; eauto.
  right. right.
  exists ("URL elicitation not supported or failed: " +:+ message_of e
          +:+ nl +:+ nl +:+ "You can still answer at: ").
  by rewrite !append_assoc.
Qed.

(* ===================================================================== *)
(** * More on the prompts and the resources                               *)
(* ===================================================================== *)

Lemma focusInstructions_lookup key :
  Prompts.focusInstructions !! key
  = if String.eqb key "security"
    then Some "Focus on security vulnerabilities and potential exploits."
    else if String.eqb key "performance"
    then Some "Focus on performance optimizations and efficiency issues."
    else if String.eqb key "readability"
    then Some "Focus on code clarity, naming, and maintainability."
    else if String.eqb key "all" then Some all_instruction
    else None.
Proof.
  unfold Prompts.focusInstructions.
  destruct (String.eqb_spec key "security") as [->|H1].
  { by rewrite lookup_insert_eq. }
  rewrite lookup_insert_ne by done.
  destruct (String.eqb_spec key "performance") as [->|H2].
  { by rewrite lookup_insert_eq. }
  rewrite lookup_insert_ne by done.
  destruct (String.eqb_spec key "readability") as [->|H3].
  { by rewrite lookup_insert_eq. }
  rewrite lookup_insert_ne by done.
  destruct (String.eqb_spec key "all") as [->|H4].
  { by rewrite lookup_insert_eq. }
  by rewrite lookup_insert_ne.
Qed.

(** X25.  The code_review prompt asks for a review of the code in the
    language given, with the instruction of the focus when the focus is
    one of security, performance, readability and all, and with the
    instruction of all when there is no focus, an empty one, or one that
    is none of these four and no member of [Object.prototype]. *)
Theorem code_review_focus (code language : string) (focus : option string) :
  (forall key instruction,
     focus = Some key ->
     Prompts.focusInstructions !! key = Some instruction ->
     Prompts.code_review code language focus
     = {| Prompts.role := "user";
          Prompts.prompt_text := review_text language instruction code |}) /\
  (forall key, is_Some (Prompts.focusInstructions !! key) <->
     key ∈ ["security"; "performance"; "readability"; "all"]) /\
  ((forall key, focus = Some key ->
      (key ∉ ["security"; "performance"; "readability"; "all"]) /\
      (key ∉ Js.Object_prototype_keys)) ->
   Prompts.code_review code language focus
   = {| Prompts.role := "user";
        Prompts.prompt_text := review_text language all_instruction code |}).
Proof.
  split; [|split].
  - intros key instruction -> Hkey. unfold Prompts.code_review.
    assert (Js.truthy_string instruction = true /\ key <> "") as [Hi Hne].
    { rewrite focusInstructions_lookup in Hkey.
      repeat match type of Hkey with
             | (if String.eqb ?x ?y then _ else _) = _ =>
                 destruct (String.eqb_spec x y) as [->|_];
                 [injection Hkey as <-; done|]
             end.
      done. }
    destruct key as [|c key]; [done|].
    cbn [Js.or_default Js.truthy_string]. unfold Js.get at 1.
    rewrite Hkey. unfold Js.or. cbn [Js.truthy]. rewrite Hi. reflexivity.
  - intros key. rewrite focusInstructions_lookup.
    repeat match goal with
           | |- context [String.eqb ?x ?y] =>
               destruct (String.eqb_spec x y) as [->|?];
               [split; [intros _; repeat constructor|eauto]|]
           end.
    split; [by intros [? ?]|]. intros H.
    repeat (apply elem_of_cons in H as [H|H]; [done|]).
    by apply elem_of_nil in H.
  - intros Hfocus. unfold Prompts.code_review.
    assert (Js.get Prompts.focusInstructions "all" = Js.VOwn all_instruction)
      as Hall by (unfold Js.get; by rewrite focusInstructions_lookup).
    destruct focus as [[|c key]|]; cbn [Js.or_default Js.truthy_string];
      rewrite ?Hall; [done| |done].
    destruct (Hfocus _ eq_refl) as [Hkey Hproto]. clear Hfocus.
    unfold Js.get at 1. rewrite focusInstructions_lookup.
    repeat match goal with
           | |- context [String.eqb ?x ?y] =>
               destruct (String.eqb_spec x y) as [Heq|_];
               [rewrite Heq in Hkey; set_solver|]
           end.
    rewrite bool_decide_eq_false_2 by done.
    reflexivity.
Qed.

(** X26.  With a focus that names a member of [Object.prototype], such as
    constructor or toString, the lookup finds that member, which is
    truthy, so the fallback is not taken: the instruction of the prompt
    is the text of that member and not the instruction of all. *)
Theorem code_review_inherited_focus (code language key : string) :
  key ∈ Js.Object_prototype_keys ->
  Prompts.code_review code language (Some key)
  = {| Prompts.role := "user";
       Prompts.prompt_text :=
         review_text language (Js.template (Js.VInherited key)) code |} /\
  Js.template (Js.VInherited key) <> all_instruction.
Proof.
  intros H. unfold Js.Object_prototype_keys in H.
  repeat (apply elem_of_cons in H as [->|H];
          [split; [by vm_compute|discriminate]|]).
  by apply elem_of_nil in H.
Qed.

(** The theorem at work with the focus constructor. *)
Lemma code_review_inherited_focus_witness :
  Prompts.code_review "x = 1" "python" (Some "constructor")
  = {| Prompts.role := "user";
       Prompts.prompt_text :=
         review_text "python" (Js.template (Js.VInherited "constructor"))
           "x = 1" |} /\
  Js.template (Js.VInherited "constructor") <> all_instruction.
Proof.
  refine (code_review_inherited_focus "x = 1" "python" "constructor" _).
  unfold Js.Object_prototype_keys. constructor.
Defined.

Lemma ITEMS_DATA_lookup `{rt : Runtime} id :
  Resources.ITEMS_DATA !! id
  = if String.eqb id "1"
    then Some {| Resources.item_name := "Widget";
                 Resources.description := "A useful widget" |}
    else if String.eqb id "2"
    then Some {| Resources.item_name := "Gadget";
                 Resources.description := "A fancy gadget" |}
    else if String.eqb id "3"
    then Some {| Resources.item_name := "Gizmo";
                 Resources.description := "A mysterious gizmo" |}
    else None.
Proof.
  unfold Resources.ITEMS_DATA.
  destruct (String.eqb_spec id "1") as [->|H1].
  { by rewrite lookup_insert_eq. }
  rewrite lookup_insert_ne by done.
  destruct (String.eqb_spec id "2") as [->|H2].
  { by rewrite lookup_insert_eq. }
  rewrite lookup_insert_ne by done.
  destruct (String.eqb_spec id "3") as [->|H3].
  { by rewrite lookup_insert_eq. }
  by rewrite lookup_insert_ne.
Qed.

(** X27.  The item template knows the ids 1, 2 and 3.  For a known id it
    returns, under the uri asked for and as JSON, the object with the id,
    the name and the description of the item; for an id that is neither
    known nor a member of [Object.prototype] it throws "Item not found"
    with the id. *)
Theorem items_lookup `{rt : Runtime} (href id : string) :
  (is_Some (Resources.ITEMS_DATA !! id) <-> id ∈ ["1"; "2"; "3"]) /\
  (forall item,
     Resources.ITEMS_DATA !! id = Some item ->
     Resources.items href id
     = Ok (item_json href
             [ ("id", JString id);
               ("name", JString (Resources.item_name item));
               ("description", JString (Resources.description item)) ])) /\
  (id ∉ ["1"; "2"; "3"] -> id ∉ Js.Object_prototype_keys ->
   Resources.items href id = Throw (Error ("Item not found: " +:+ id))).
Proof.
  assert (is_Some (Resources.ITEMS_DATA !! id) <-> id ∈ ["1"; "2"; "3"])
    as Hdom.
  { rewrite ITEMS_DATA_lookup.
    repeat match goal with
           | |- context [String.eqb ?x ?y] =>
               destruct (String.eqb_spec x y) as [->|?];
               [split; [intros _; repeat constructor|eauto]|]
           end.
    split; [by intros [? ?]|]. intros H.
    repeat (apply elem_of_cons in H as [H|H]; [done|]).
    by apply elem_of_nil in H. }
  split; [done|]. split.
  - intros item H. unfold Resources.items, Js.get. by rewrite H.
  - intros Hid Hproto. unfold Resources.items, Js.get.
    destruct (Resources.ITEMS_DATA !! id) eqn:H.
    { destruct Hid. apply Hdom. eauto. }
    by rewrite bool_decide_eq_false_2.
Qed.

(** X28.  For an id that names a member of [Object.prototype], such as
    constructor, the item template does not throw: the lookup finds that
    member, which is truthy and has no property to spread, and the result
    is the JSON of an object with the id alone. *)
Theorem items_inherited_key `{rt : Runtime} (href id : string) :
  id ∈ Js.Object_prototype_keys ->
  Resources.items href id = Ok (item_json href [("id", JString id)]).
Proof.
  intros H. unfold Js.Object_prototype_keys in H.
  repeat (apply elem_of_cons in H as [->|H]; [by vm_compute|]).
  by apply elem_of_nil in H.
Qed.

(** The theorem at work with the id constructor. *)
Lemma items_inherited_key_witness :
  @Resources.items example_runtime "data://items/constructor" "constructor"
  = Ok (@item_json example_runtime "data://items/constructor"
          [("id", JString "constructor")]).
Proof.
  refine (@items_inherited_key example_runtime "data://items/constructor"
            "constructor" _).
  unfold Js.Object_prototype_keys. constructor.
Defined.

